(** * Pixel Duel: combat rules, duel session, open-world combat and NPC AI

    A shallow embedding of the game logic of the pixel-duel-game repository:
    - the duel arena component ([DuelGame], duel-game.tsx),
    - the open-world canvas component ([GameCanvas], game-canvas.tsx),
    - the open-world page that owns the roster ([OpenSpaceGame]),
    - the NPC AI engine ([NpcAiEngine], npc-ai-engine.ts) and the hook
      that runs it ([UseNPCManager], use-npc-manager.ts),
    - the route guard ([Middleware], middleware.ts) and the routes for
      registration, character creation and the points balance ([Api]),
    - the first version of the canvas, moved by keys ([Canvas2D]),
    - the displays of a player's health ([HealthBar]),
    - the page that sets up a duel and settles its stake ([DuelArena]).

    Conventions of the embedding.
    - A JavaScript number that the code keeps integral (health, damage,
      points, millisecond timestamps) is a [Z]; a number that may be
      fractional (a value of [Math.random()], a mitigation factor, a
      coordinate) is an exact rational [Q].  Arithmetic is exact: the
      rounding of IEEE-754 doubles is not part of the model.  The damage
      expressions are given a second time in doubles ([ieee_mitigated],
      [ieee_calculateDamage], [ieee_baseDamage]) to check the exact model
      against them on the values the game computes with.
    - [Math.floor] is [Qfloor], [Math.max] is [Z.max].
    - [Date.now()] is a parameter [now : Z] of the function that reads it.
    - [Math.random()] is a parameter [rnd : Q] (one draw) or a value read
      from a [RandomSource] (several draws, in program order); theorems that
      need it assume [0 <= rnd < 1].
    - React state is a record; an event handler is a function from the
      state its closure reads to the state after its updates.  Calls to the
      parent component's callbacks are returned as a list of [ParentCall]s.
    - Toasts, animations and rendering are left out. *)

From Stdlib Require Import ZArith QArith Qround String List Bool Lia.
From Stdlib Require Import Floats DecimalString.
From Stdlib Require DecimalNat DecimalFacts.
Import ListNotations.
Local Open Scope string_scope.
Local Open Scope Z_scope.

(** ** JavaScript helpers *)

(** [a || b] on numbers: [undefined] and [0] are falsy. *)
Definition or_default (v : option Q) (d : Q) : Q :=
  match v with
  | Some q => if Qeq_bool q 0 then d else q
  | None => d
  end.

(** The values of [Math.random()] that a validity hypothesis admits. *)
Definition unit_interval (rnd : Q) : Prop := (0 <= rnd)%Q /\ (rnd < 1)%Q.

(** ** Combat tables

    [WEAPON_DAMAGE] and [DEFENSE_VALUES] are declared, with the same
    entries, in duel-game.tsx and in game-canvas.tsx.  A lookup of a key
    that is not in the object literal is [undefined] ([None]).  This is
    the lookup of an own key: for a key that [Object.prototype] defines
    (constructor, toString, valueOf, ...) JavaScript finds the inherited
    value, which is truthy and has no [min] and [max], and every number
    computed from it is [NaN].  Such a country is outside the five classes
    of the game and outside this model: a statement about the value of a
    damage or of a health that damage has changed takes the countries that
    decide it among [classIds]. *)

Record DamageRange : Type := { min : Z; max : Z }.

Definition WEAPON_DAMAGE (country : string) : option DamageRange :=
  if String.eqb country "usa" then Some {| min := 8; max := 12 |}
  else if String.eqb country "japan" then Some {| min := 10; max := 15 |}
  else if String.eqb country "uk" then Some {| min := 5; max := 10 |}
  else if String.eqb country "russia" then Some {| min := 12; max := 18 |}
  else if String.eqb country "brazil" then Some {| min := 6; max := 14 |}
  else None.

Definition WEAPON_DAMAGE_usa : DamageRange := {| min := 8; max := 12 |}.

Definition DEFENSE_VALUES (country : string) : option Q :=
  if String.eqb country "usa" then Some 0.2%Q
  else if String.eqb country "japan" then Some 0.15%Q
  else if String.eqb country "uk" then Some 0.3%Q
  else if String.eqb country "russia" then Some 0.1%Q
  else if String.eqb country "brazil" then Some 0.25%Q
  else None.

(** [WEAPON_DAMAGE[country as keyof typeof WEAPON_DAMAGE] || WEAPON_DAMAGE.usa] *)
Definition damageRangeOf (country : string) : DamageRange :=
  match WEAPON_DAMAGE country with
  | Some r => r
  | None => WEAPON_DAMAGE_usa
  end.

(** The closed enumeration of country classes. *)
Definition classIds : list string := ["usa"; "japan"; "uk"; "russia"; "brazil"].

(** ** The damage expressions in IEEE-754 doubles

    The three expressions of the code that produce a damage, evaluated in
    binary64 as JavaScript evaluates them.  [None]: the value is not a
    finite number. *)

(** The double nearest to an integer (the integer itself below 2^53). *)
Definition ieee_of_Z (z : Z) : float :=
  SF2Prim (binary_normalize prec emax z 0 false).

(** [Math.floor] of a finite double: its mantissa shifted by its exponent. *)
Definition ieee_floor (f : float) : option Z :=
  match Prim2SF f with
  | S754_zero _ => Some 0
  | S754_finite s m e => Some (Z.shiftl (if s then Z.neg m else Z.pos m) e)
  | _ => None
  end.

#[local] Set Warnings "-inexact-float".

(** [DEFENSE_VALUES[country] || 0.2], each literal read as a double. *)
Definition DEFENSE_VALUES_ieee (country : string) : float :=
  if String.eqb country "usa" then 0.2%float
  else if String.eqb country "japan" then 0.15%float
  else if String.eqb country "uk" then 0.3%float
  else if String.eqb country "russia" then 0.1%float
  else if String.eqb country "brazil" then 0.25%float
  else 0.2%float.

(** The draw 9/10, the draw [1 - 2^-32] and the largest double below 1. *)
Definition ieee_nine_tenths : float := 0.9%float.
Definition ieee_near_one : float := 0x1.fffffffep-1%float.
Definition ieee_below_one : float := 0x1.fffffffffffffp-1%float.

(** The draws at least [2^-32] away from 1: all of [0, 1) but its top
    share of [2^-32]. *)
Definition away_from_one (rnd : Q) : Prop :=
  (0 <= rnd)%Q /\ (rnd <= 1 - (1 # 4294967296))%Q.

#[local] Set Warnings "+inexact-float".

(** [Math.floor(damage * (1 - defenseValue))] *)
Definition ieee_mitigated (damage : Z) (country : string) : option Z :=
  ieee_floor (ieee_of_Z damage * (1 - DEFENSE_VALUES_ieee country))%float.

(** [Math.floor(damageRange.min + Math.random() * (damageRange.max - damageRange.min))] *)
Definition ieee_calculateDamage (country : string) (rnd : float) : option Z :=
  let damageRange := damageRangeOf country in
  ieee_floor (ieee_of_Z (min damageRange)
              + rnd * ieee_of_Z (max damageRange - min damageRange))%float.

(** [Math.floor(Math.random() * (max - min + 1)) + min] *)
Definition ieee_baseDamage (country : string) (rnd : float) : option Z :=
  let damageRange := damageRangeOf country in
  option_map (fun z => z + min damageRange)
    (ieee_floor (rnd * ieee_of_Z (max damageRange - min damageRange + 1))%float).

(** ** Shared types (types/game.ts) and geometry *)

(** [OnlinePlayer]: a combatant of the open world, human or NPC.  An absent
    [respawnTime] is [None]; an absent [isNPC] is [false]. *)
Module Game.

Record OnlinePlayer : Type := {
  id : string;
  name : string;
  x : Q;
  y : Q;
  country : string;
  health : Z;
  maxHealth : Z;
  points : Z;
  lastAttackTime : Z;
  lastDefendTime : Z;
  isDefending : bool;
  isAttacking : bool;
  isDead : bool;
  respawnTime : option Z;
  isNPC : bool;
  aiType : option string
}.

(** Record updates: [set_f v p] is [{ ...p, f: v }]. *)
Definition set_x (v : Q) (p : OnlinePlayer) : OnlinePlayer :=
  Build_OnlinePlayer (id p) (name p) v (y p) (country p) (health p)
    (maxHealth p) (points p) (lastAttackTime p) (lastDefendTime p)
    (isDefending p) (isAttacking p) (isDead p) (respawnTime p) (isNPC p)
    (aiType p).

Definition set_y (v : Q) (p : OnlinePlayer) : OnlinePlayer :=
  Build_OnlinePlayer (id p) (name p) (x p) v (country p) (health p)
    (maxHealth p) (points p) (lastAttackTime p) (lastDefendTime p)
    (isDefending p) (isAttacking p) (isDead p) (respawnTime p) (isNPC p)
    (aiType p).

Definition set_health (v : Z) (p : OnlinePlayer) : OnlinePlayer :=
  Build_OnlinePlayer (id p) (name p) (x p) (y p) (country p) v (maxHealth p)
    (points p) (lastAttackTime p) (lastDefendTime p) (isDefending p)
    (isAttacking p) (isDead p) (respawnTime p) (isNPC p) (aiType p).

Definition set_points (v : Z) (p : OnlinePlayer) : OnlinePlayer :=
  Build_OnlinePlayer (id p) (name p) (x p) (y p) (country p) (health p)
    (maxHealth p) v (lastAttackTime p) (lastDefendTime p) (isDefending p)
    (isAttacking p) (isDead p) (respawnTime p) (isNPC p) (aiType p).

Definition set_lastAttackTime (v : Z) (p : OnlinePlayer) : OnlinePlayer :=
  Build_OnlinePlayer (id p) (name p) (x p) (y p) (country p) (health p)
    (maxHealth p) (points p) v (lastDefendTime p) (isDefending p)
    (isAttacking p) (isDead p) (respawnTime p) (isNPC p) (aiType p).

Definition set_lastDefendTime (v : Z) (p : OnlinePlayer) : OnlinePlayer :=
  Build_OnlinePlayer (id p) (name p) (x p) (y p) (country p) (health p)
    (maxHealth p) (points p) (lastAttackTime p) v (isDefending p)
    (isAttacking p) (isDead p) (respawnTime p) (isNPC p) (aiType p).

Definition set_isDefending (v : bool) (p : OnlinePlayer) : OnlinePlayer :=
  Build_OnlinePlayer (id p) (name p) (x p) (y p) (country p) (health p)
    (maxHealth p) (points p) (lastAttackTime p) (lastDefendTime p) v
    (isAttacking p) (isDead p) (respawnTime p) (isNPC p) (aiType p).

Definition set_isAttacking (v : bool) (p : OnlinePlayer) : OnlinePlayer :=
  Build_OnlinePlayer (id p) (name p) (x p) (y p) (country p) (health p)
    (maxHealth p) (points p) (lastAttackTime p) (lastDefendTime p)
    (isDefending p) v (isDead p) (respawnTime p) (isNPC p) (aiType p).

Definition set_isDead (v : bool) (p : OnlinePlayer) : OnlinePlayer :=
  Build_OnlinePlayer (id p) (name p) (x p) (y p) (country p) (health p)
    (maxHealth p) (points p) (lastAttackTime p) (lastDefendTime p)
    (isDefending p) (isAttacking p) v (respawnTime p) (isNPC p) (aiType p).

Definition set_respawnTime (v : option Z) (p : OnlinePlayer) : OnlinePlayer :=
  Build_OnlinePlayer (id p) (name p) (x p) (y p) (country p) (health p)
    (maxHealth p) (points p) (lastAttackTime p) (lastDefendTime p)
    (isDefending p) (isAttacking p) (isDead p) v (isNPC p) (aiType p).

End Game.

(** [a < b] on numbers. *)
Definition Qlt_bool (a b : Q) : bool := negb (Qle_bool b a).

(** Comparisons of a Euclidean distance with a bound are made on squares:
    [dist_le dx dy r] is [Math.sqrt(dx * dx + dy * dy) <= r] and
    [dist_lt dx dy r] is [Math.sqrt(dx * dx + dy * dy) < r]. *)
Definition dist_le (dx dy r : Q) : bool :=
  Qle_bool 0 r && Qle_bool (dx * dx + dy * dy) (r * r).

Definition dist_lt (dx dy r : Q) : bool :=
  Qlt_bool 0 r && Qlt_bool (dx * dx + dy * dy) (r * r).

(** ** The duel arena (duel-game.tsx) *)

Module DuelGame.

Definition MAX_HEALTH : Z := 100.
Definition ATTACK_COOLDOWN : Z := 1000.
Definition DEFENSE_COOLDOWN : Z := 1500.
Definition DUEL_DURATION : Z := 60.

Inductive Winner : Type := player | opponent.

(** [calculateDamage(country)], with the value of its [Math.random()].
    The sum is exact here and rounded in the code: the two differ only
    where the rounding carries the sum up to an integer, for a draw whose
    exact sum is less than [2^-48] below it; so the code returns [max] for
    the draws within [2^-52] of 1 where this function returns [max - 1].
    For a draw that is [away_from_one] neither returns [max]. *)
Definition calculateDamage (country : string) (rnd : Q) : Z :=
  let damageRange := damageRangeOf country in
  Qfloor (inject_Z (min damageRange)
          + rnd * inject_Z (max damageRange - min damageRange)).

(** The damage the opponent's attack applies: the [actualDamage] of the
    timeout callback of [scheduleOpponentAttack], from the rolled
    [damage], the player's country and the [isDefending] it reads.  The
    product is exact here and rounded in the code: the two agree for every
    class and every damage from 0 to 89 ([ieee_mitigated]), which covers
    the rolls of the game (5 .. 18), and differ from 90 on. *)
Definition actualDamage (damage : Z) (playerCountry : string)
    (isDefending : bool) : Z :=
  let defenseValue := or_default (DEFENSE_VALUES playerCountry) 0.2 in
  if isDefending
  then Qfloor (inject_Z damage * (1 - defenseValue))
  else damage.

(** The component state.  The three lists hold the due times of the
    pending [setTimeout] callbacks that clear the attack cooldown, end the
    defence and clear the defence cooldown. *)
Record State : Type := {
  playerHealth : Z;
  opponentHealth : Z;
  isAttackCooldown : bool;
  isDefenseCooldown : bool;
  isDefending : bool;
  timeRemaining : Z;
  gameStarted : bool;
  gameOver : bool;
  winner : option Winner;
  attackCooldownTimeouts : list Z;
  defendingTimeouts : list Z;
  defenseCooldownTimeouts : list Z
}.

Definition initialState : State := {|
  playerHealth := MAX_HEALTH;
  opponentHealth := MAX_HEALTH;
  isAttackCooldown := false;
  isDefenseCooldown := false;
  isDefending := false;
  timeRemaining := DUEL_DURATION;
  gameStarted := false;
  gameOver := false;
  winner := None;
  attackCooldownTimeouts := [];
  defendingTimeouts := [];
  defenseCooldownTimeouts := []
|}.

(** The render in which [worldLoaded] turns true.  Its effect creates the
    countdown, and the callbacks the countdown starts, the interval of the
    timer and [scheduleOpponentAttack], are closures of that render: the
    [handleGameOver], [gameOver] and [isDefending] they read are its own.
    Nothing has changed the state by then (the buttons are disabled until
    the game starts), so it reads the initial values. *)
Definition worldLoadedRender : State := initialState.

(** State setters: [set_f v s] is [s] after [setF(v)]. *)
Definition set_playerHealth (v : Z) (s : State) : State :=
  Build_State v (opponentHealth s) (isAttackCooldown s)
    (isDefenseCooldown s) (isDefending s) (timeRemaining s) (gameStarted s)
    (gameOver s) (winner s) (attackCooldownTimeouts s) (defendingTimeouts s)
    (defenseCooldownTimeouts s).

Definition set_opponentHealth (v : Z) (s : State) : State :=
  Build_State (playerHealth s) v (isAttackCooldown s) (isDefenseCooldown s)
    (isDefending s) (timeRemaining s) (gameStarted s) (gameOver s)
    (winner s) (attackCooldownTimeouts s) (defendingTimeouts s)
    (defenseCooldownTimeouts s).

Definition set_isAttackCooldown (v : bool) (s : State) : State :=
  Build_State (playerHealth s) (opponentHealth s) v (isDefenseCooldown s)
    (isDefending s) (timeRemaining s) (gameStarted s) (gameOver s)
    (winner s) (attackCooldownTimeouts s) (defendingTimeouts s)
    (defenseCooldownTimeouts s).

Definition set_isDefenseCooldown (v : bool) (s : State) : State :=
  Build_State (playerHealth s) (opponentHealth s) (isAttackCooldown s) v
    (isDefending s) (timeRemaining s) (gameStarted s) (gameOver s)
    (winner s) (attackCooldownTimeouts s) (defendingTimeouts s)
    (defenseCooldownTimeouts s).

Definition set_isDefending (v : bool) (s : State) : State :=
  Build_State (playerHealth s) (opponentHealth s) (isAttackCooldown s)
    (isDefenseCooldown s) v (timeRemaining s) (gameStarted s) (gameOver s)
    (winner s) (attackCooldownTimeouts s) (defendingTimeouts s)
    (defenseCooldownTimeouts s).

Definition set_timeRemaining (v : Z) (s : State) : State :=
  Build_State (playerHealth s) (opponentHealth s) (isAttackCooldown s)
    (isDefenseCooldown s) (isDefending s) v (gameStarted s) (gameOver s)
    (winner s) (attackCooldownTimeouts s) (defendingTimeouts s)
    (defenseCooldownTimeouts s).

Definition set_gameStarted (v : bool) (s : State) : State :=
  Build_State (playerHealth s) (opponentHealth s) (isAttackCooldown s)
    (isDefenseCooldown s) (isDefending s) (timeRemaining s) v (gameOver s)
    (winner s) (attackCooldownTimeouts s) (defendingTimeouts s)
    (defenseCooldownTimeouts s).

Definition set_gameOver (v : bool) (s : State) : State :=
  Build_State (playerHealth s) (opponentHealth s) (isAttackCooldown s)
    (isDefenseCooldown s) (isDefending s) (timeRemaining s) (gameStarted s)
    v (winner s) (attackCooldownTimeouts s) (defendingTimeouts s)
    (defenseCooldownTimeouts s).

Definition set_winner (v : option Winner) (s : State) : State :=
  Build_State (playerHealth s) (opponentHealth s) (isAttackCooldown s)
    (isDefenseCooldown s) (isDefending s) (timeRemaining s) (gameStarted s)
    (gameOver s) v (attackCooldownTimeouts s) (defendingTimeouts s)
    (defenseCooldownTimeouts s).

Definition set_attackCooldownTimeouts (v : list Z) (s : State) : State :=
  Build_State (playerHealth s) (opponentHealth s) (isAttackCooldown s)
    (isDefenseCooldown s) (isDefending s) (timeRemaining s) (gameStarted s)
    (gameOver s) (winner s) v (defendingTimeouts s)
    (defenseCooldownTimeouts s).

Definition set_defendingTimeouts (v : list Z) (s : State) : State :=
  Build_State (playerHealth s) (opponentHealth s) (isAttackCooldown s)
    (isDefenseCooldown s) (isDefending s) (timeRemaining s) (gameStarted s)
    (gameOver s) (winner s) (attackCooldownTimeouts s) v
    (defenseCooldownTimeouts s).

Definition set_defenseCooldownTimeouts (v : list Z) (s : State) : State :=
  Build_State (playerHealth s) (opponentHealth s) (isAttackCooldown s)
    (isDefenseCooldown s) (isDefending s) (timeRemaining s) (gameStarted s)
    (gameOver s) (winner s) (attackCooldownTimeouts s) (defendingTimeouts s)
    v.

(** A callback keeps the variables of the render that created it.  In the
    functions below [seen] is the state of that render (what the callback
    reads) and [s] the current state (what its functional updates
    [setX(prev => ...)] apply to).  A click handler is re-created by every
    render, so it reads the current state. *)

(** The winner [handleGameOver] determines from the [playerHealth] and
    [opponentHealth] it reads. *)
Definition gameWinner (playerHealth opponentHealth : Z) : Winner :=
  if playerHealth <=? 0 then opponent
  else if opponentHealth <=? 0 then player
  else
    let w := if playerHealth >? opponentHealth then player else opponent in
    if playerHealth =? opponentHealth then player else w.

(** [handleGameOver]: [setGameOver(true)], [setWinner(gameWinner)]. *)
Definition handleGameOver (seen s : State) : State :=
  set_winner (Some (gameWinner (playerHealth seen) (opponentHealth seen)))
    (set_gameOver true s).

(** The 1 Hz interval callback: [setTimeRemaining(prev => ...)], which
    calls [handleGameOver] when the count reaches zero. *)
Definition timerTick (seen s : State) : State :=
  if timeRemaining s <=? 1
  then set_timeRemaining 0 (handleGameOver seen s)
  else set_timeRemaining (timeRemaining s - 1) s.

(** The effect on [playerHealth, opponentHealth, gameStarted, gameOver];
    it runs after every render that changes one of them. *)
Definition checkGameOver (s : State) : State :=
  if gameStarted s && negb (gameOver s)
     && ((playerHealth s <=? 0) || (opponentHealth s <=? 0))
  then handleGameOver s s
  else s.

(** The timeout callback of [scheduleOpponentAttack]: the opponent rolls
    its damage, then
    [setPlayerHealth(prev => Math.max(0, prev - actualDamage))]. *)
Definition opponentAttack (playerCountry opponentCountry : string)
    (rnd : Q) (seen s : State) : State :=
  if negb (gameOver seen) then
    let damage := calculateDamage opponentCountry rnd in
    let dealt := actualDamage damage playerCountry (isDefending seen) in
    set_playerHealth (Z.max 0 (playerHealth s - dealt)) s
  else s.

(** [handleAttack], the click handler of the attack button; the cooldown
    is ended by [setTimeout(() => setIsAttackCooldown(false), ATTACK_COOLDOWN)]. *)
Definition handleAttack (playerCountry : string) (now : Z) (rnd : Q)
    (s : State) : State :=
  if isAttackCooldown s || gameOver s then s
  else
    let damage := calculateDamage playerCountry rnd in
    set_attackCooldownTimeouts
      (attackCooldownTimeouts s ++ [now + ATTACK_COOLDOWN])
      (set_isAttackCooldown true
         (set_opponentHealth (Z.max 0 (opponentHealth s - damage)) s)).

(** [handleDefend], the click handler of the defend button: the defence
    lasts 2000 ms, its cooldown [DEFENSE_COOLDOWN]. *)
Definition handleDefend (now : Z) (s : State) : State :=
  if isDefenseCooldown s || gameOver s then s
  else
    set_defenseCooldownTimeouts
      (defenseCooldownTimeouts s ++ [now + DEFENSE_COOLDOWN])
      (set_isDefenseCooldown true
         (set_defendingTimeouts (defendingTimeouts s ++ [now + 2000])
            (set_isDefending true s))).

(** Removing the [i]-th pending timeout once it has run. *)
Fixpoint remove_nth {A : Type} (i : nat) (l : list A) : list A :=
  match l, i with
  | [], _ => []
  | _ :: t, O => t
  | h :: t, S j => h :: remove_nth j t
  end.

(** A timeout callback runs no earlier than its due time: [fire now i
    pending] is the pending list once the [i]-th callback has run at
    [now], [None] when it cannot run yet. *)
Definition fire (now : Z) (i : nat) (pending : list Z) : option (list Z) :=
  match nth_error pending i with
  | Some due => if due <=? now then Some (remove_nth i pending) else None
  | None => None
  end.

(** What happens to the component, one event at a time. *)
Inductive Event : Type :=
| CountdownEnds                  (* () => setGameStarted(true) *)
| AttackClick (rnd : Q)
| DefendClick
| AttackCooldownEnds (i : nat)   (* () => setIsAttackCooldown(false) *)
| DefendingEnds (i : nat)        (* () => setIsDefending(false) *)
| DefenseCooldownEnds (i : nat)  (* () => setIsDefenseCooldown(false) *)
| OpponentAttacks (seen : State) (rnd : Q)
| TimerTicks (seen : State).

(** [step pc oc now e s]: the state after event [e] at time [now];
    [None] when [e] cannot happen then. *)
Definition step (playerCountry opponentCountry : string) (now : Z)
    (e : Event) (s : State) : option State :=
  match e with
  | CountdownEnds => Some (checkGameOver (set_gameStarted true s))
  | AttackClick rnd =>
      Some (checkGameOver (handleAttack playerCountry now rnd s))
  | DefendClick => Some (handleDefend now s)
  | AttackCooldownEnds i =>
      option_map
        (fun rest => set_attackCooldownTimeouts rest
                       (set_isAttackCooldown false s))
        (fire now i (attackCooldownTimeouts s))
  | DefendingEnds i =>
      option_map
        (fun rest => set_defendingTimeouts rest (set_isDefending false s))
        (fire now i (defendingTimeouts s))
  | DefenseCooldownEnds i =>
      option_map
        (fun rest => set_defenseCooldownTimeouts rest
                       (set_isDefenseCooldown false s))
        (fire now i (defenseCooldownTimeouts s))
  | OpponentAttacks seen rnd =>
      Some (checkGameOver
              (opponentAttack playerCountry opponentCountry rnd seen s))
  | TimerTicks seen => Some (timerTick seen s)
  end.

(** Whether event [e] is an attack request that state [s] accepts. *)
Definition accepted (e : Event) (s : State) : bool :=
  match e with
  | AttackClick _ => negb (isAttackCooldown s || gameOver s)
  | _ => false
  end.

(** [Run pc oc s clock last]: the component can be in state [s] at time
    [clock], the player's last accepted attack having been made at time
    [last] ([None]: no attack yet).  Time never runs backwards. *)
Inductive Run (playerCountry opponentCountry : string)
  : State -> Z -> option Z -> Prop :=
| Run_start : forall t0,
    Run playerCountry opponentCountry initialState t0 None
| Run_step : forall s clock last now e s',
    Run playerCountry opponentCountry s clock last ->
    clock <= now ->
    step playerCountry opponentCountry now e s = Some s' ->
    Run playerCountry opponentCountry s' now
        (if accepted e s then Some now else last).

End DuelGame.

(** ** The open-world canvas (game-canvas.tsx) *)

Module GameCanvas.

Definition CANVAS_WIDTH : Z := 800.
Definition CANVAS_HEIGHT : Z := 600.
Definition PLAYER_SIZE : Z := 32.
Definition MAX_HEALTH : Z := 100.
Definition ATTACK_COOLDOWN : Z := 1000.
Definition DEFENSE_COOLDOWN : Z := 1500.
Definition ATTACK_RANGE_2D : Z := PLAYER_SIZE * 2.
Definition RESPAWN_TIME : Z := 5000.

(** The [selectedCharacter] prop (the fields the combat code reads). *)
Record Character : Type := { characterId : string; characterCountry : string }.

(** Entries of the combat log (the toasts carry the same text). *)
Inductive Message : Type :=
| AttackOnCooldown
| TargetSelected (name : string)
| Defeated (name : string)
| Hit (name : string) (finalDamage : Z) (reducedByDefense : bool)
| DefenseOnCooldown
| DefensiveStance
| TookDamage (finalDamage : Z)
| YouDied
| Respawned.

(** Calls of the callbacks the parent component passes in. *)
Inductive ParentCall : Type :=
| onPlayerUpdate (updatedPlayer : Game.OnlinePlayer)
| onPlayerDeath (playerId : string).

(** The component state and refs of the human player.  [defendTimeouts]
    and [respawnTimeouts] hold the due times of the pending [setTimeout]
    callbacks that end the defence and respawn the player. *)
Record State : Type := {
  playerHealth : Z;
  playerPoints : Z;
  playerIsDead : bool;
  respawnCountdown : Z;
  lastAttackTimeRef : Z;
  lastDefendTimeRef : Z;
  isDefendingRef : bool;
  targetPlayer : option Game.OnlinePlayer;
  inRange : bool;
  playerPosition : Q * Q;
  combatLog : list Message;
  defendTimeouts : list Z;
  respawnTimeouts : list Z
}.

Definition set_playerHealth (v : Z) (s : State) : State :=
  Build_State v (playerPoints s) (playerIsDead s) (respawnCountdown s)
    (lastAttackTimeRef s) (lastDefendTimeRef s) (isDefendingRef s)
    (targetPlayer s) (inRange s) (playerPosition s) (combatLog s)
    (defendTimeouts s) (respawnTimeouts s).

Definition set_playerPoints (v : Z) (s : State) : State :=
  Build_State (playerHealth s) v (playerIsDead s) (respawnCountdown s)
    (lastAttackTimeRef s) (lastDefendTimeRef s) (isDefendingRef s)
    (targetPlayer s) (inRange s) (playerPosition s) (combatLog s)
    (defendTimeouts s) (respawnTimeouts s).

Definition set_playerIsDead (v : bool) (s : State) : State :=
  Build_State (playerHealth s) (playerPoints s) v (respawnCountdown s)
    (lastAttackTimeRef s) (lastDefendTimeRef s) (isDefendingRef s)
    (targetPlayer s) (inRange s) (playerPosition s) (combatLog s)
    (defendTimeouts s) (respawnTimeouts s).

Definition set_respawnCountdown (v : Z) (s : State) : State :=
  Build_State (playerHealth s) (playerPoints s) (playerIsDead s) v
    (lastAttackTimeRef s) (lastDefendTimeRef s) (isDefendingRef s)
    (targetPlayer s) (inRange s) (playerPosition s) (combatLog s)
    (defendTimeouts s) (respawnTimeouts s).

Definition set_lastAttackTimeRef (v : Z) (s : State) : State :=
  Build_State (playerHealth s) (playerPoints s) (playerIsDead s)
    (respawnCountdown s) v (lastDefendTimeRef s) (isDefendingRef s)
    (targetPlayer s) (inRange s) (playerPosition s) (combatLog s)
    (defendTimeouts s) (respawnTimeouts s).

Definition set_lastDefendTimeRef (v : Z) (s : State) : State :=
  Build_State (playerHealth s) (playerPoints s) (playerIsDead s)
    (respawnCountdown s) (lastAttackTimeRef s) v (isDefendingRef s)
    (targetPlayer s) (inRange s) (playerPosition s) (combatLog s)
    (defendTimeouts s) (respawnTimeouts s).

Definition set_isDefendingRef (v : bool) (s : State) : State :=
  Build_State (playerHealth s) (playerPoints s) (playerIsDead s)
    (respawnCountdown s) (lastAttackTimeRef s) (lastDefendTimeRef s) v
    (targetPlayer s) (inRange s) (playerPosition s) (combatLog s)
    (defendTimeouts s) (respawnTimeouts s).

Definition set_targetPlayer (v : option Game.OnlinePlayer) (s : State) : State :=
  Build_State (playerHealth s) (playerPoints s) (playerIsDead s)
    (respawnCountdown s) (lastAttackTimeRef s) (lastDefendTimeRef s)
    (isDefendingRef s) v (inRange s) (playerPosition s) (combatLog s)
    (defendTimeouts s) (respawnTimeouts s).

Definition set_inRange (v : bool) (s : State) : State :=
  Build_State (playerHealth s) (playerPoints s) (playerIsDead s)
    (respawnCountdown s) (lastAttackTimeRef s) (lastDefendTimeRef s)
    (isDefendingRef s) (targetPlayer s) v (playerPosition s) (combatLog s)
    (defendTimeouts s) (respawnTimeouts s).

Definition set_playerPosition (v : Q * Q) (s : State) : State :=
  Build_State (playerHealth s) (playerPoints s) (playerIsDead s)
    (respawnCountdown s) (lastAttackTimeRef s) (lastDefendTimeRef s)
    (isDefendingRef s) (targetPlayer s) (inRange s) v (combatLog s)
    (defendTimeouts s) (respawnTimeouts s).

Definition set_combatLog (v : list Message) (s : State) : State :=
  Build_State (playerHealth s) (playerPoints s) (playerIsDead s)
    (respawnCountdown s) (lastAttackTimeRef s) (lastDefendTimeRef s)
    (isDefendingRef s) (targetPlayer s) (inRange s) (playerPosition s) v
    (defendTimeouts s) (respawnTimeouts s).

Definition set_defendTimeouts (v : list Z) (s : State) : State :=
  Build_State (playerHealth s) (playerPoints s) (playerIsDead s)
    (respawnCountdown s) (lastAttackTimeRef s) (lastDefendTimeRef s)
    (isDefendingRef s) (targetPlayer s) (inRange s) (playerPosition s)
    (combatLog s) v (respawnTimeouts s).

Definition set_respawnTimeouts (v : list Z) (s : State) : State :=
  Build_State (playerHealth s) (playerPoints s) (playerIsDead s)
    (respawnCountdown s) (lastAttackTimeRef s) (lastDefendTimeRef s)
    (isDefendingRef s) (targetPlayer s) (inRange s) (playerPosition s)
    (combatLog s) (defendTimeouts s) v.

Definition log (m : Message) (s : State) : State :=
  set_combatLog (combatLog s ++ [m]) s.

(** [selectedCharacter?.country || "usa"] *)
Definition playerCountry (selectedCharacter : option Character) : string :=
  match selectedCharacter with
  | Some c => if String.eqb (characterCountry c) "" then "usa"
              else characterCountry c
  | None => "usa"
  end.

(** The roll of [handleAttack]:
    [Math.floor(Math.random() * (max - min + 1)) + min]. *)
Definition baseDamage (country : string) (rnd : Q) : Z :=
  let damageRange := damageRangeOf country in
  Qfloor (rnd * inject_Z (max damageRange - min damageRange + 1))
  + min damageRange.

Definition defenseMultiplier (targetPlayer : Game.OnlinePlayer) : Q :=
  if Game.isDefending targetPlayer
  then 1 - or_default (DEFENSE_VALUES (Game.country targetPlayer)) 0.2
  else 1.

Definition finalDamage (baseDamage : Z) (targetPlayer : Game.OnlinePlayer)
    : Z :=
  Qfloor (inject_Z baseDamage * defenseMultiplier targetPlayer).

(** The local [updatedTargetPlayer] of [handleAttack], with the updates
    the lethal branch makes to it. *)
Definition updatedTargetPlayer (now : Z) (finalDamage : Z)
    (targetPlayer : Game.OnlinePlayer) : Game.OnlinePlayer :=
  let u := Game.set_health
             (Z.max 0 (Game.health targetPlayer - finalDamage)) targetPlayer in
  if Game.health u <=? 0
  then Game.set_points (Z.max 0 (Game.points u - 1))
         (Game.set_respawnTime (Some (now + RESPAWN_TIME))
            (Game.set_isDead true u))
  else u.

(** [handleAttack(targetPlayer)].  A kill notifies the parent with
    [onPlayerDeath]; a hit hands it [updatedTargetPlayer]. *)
Definition handleAttack (selectedCharacter : option Character)
    (targetPlayer : option Game.OnlinePlayer) (now : Z) (rnd : Q)
    (s : State) : State * list ParentCall :=
  match targetPlayer with
  | None => (s, [])
  | Some target =>
      let s1 := set_lastAttackTimeRef now s in
      let dmg :=
        finalDamage (baseDamage (playerCountry selectedCharacter) rnd) target in
      let u := updatedTargetPlayer now dmg target in
      if Game.health u <=? 0
      then (log (Defeated (Game.name target))
              (set_playerPoints (playerPoints s1 + 1) s1),
            [onPlayerDeath (Game.id target)])
      else (log (Hit (Game.name target) dmg (Game.isDefending target)) s1,
            [onPlayerUpdate u])
  end.

(** [handleCanvasClick(e)]; [click] is the position of the click on the
    canvas. *)
Definition handleCanvasClick (selectedCharacter : option Character)
    (onlinePlayers : list Game.OnlinePlayer) (click : Q * Q) (now : Z)
    (rnd : Q) (s : State) : State * list ParentCall :=
  if playerIsDead s then (s, [])
  else
    let clickedPlayer :=
      find (fun p =>
              negb (Game.isDead p)
              && dist_le (Game.x p - fst click) (Game.y p - snd click)
                         (inject_Z PLAYER_SIZE / 2))
           onlinePlayers in
    match clickedPlayer with
    | Some clicked =>
        let isInRange :=
          dist_le (Game.x clicked - fst (playerPosition s))
                  (Game.y clicked - snd (playerPosition s))
                  (inject_Z ATTACK_RANGE_2D) in
        let s1 := set_inRange isInRange (set_targetPlayer (Some clicked) s) in
        if isInRange then
          if now - lastAttackTimeRef s1 >=? ATTACK_COOLDOWN
          then handleAttack selectedCharacter (Some clicked) now rnd s1
          else (log AttackOnCooldown s1, [])
        else (log (TargetSelected (Game.name clicked)) s1, [])
    | None => (set_inRange false (set_targetPlayer None s), [])
    end.

(** [handleDefend()]: the stance lasts 2000 ms. *)
Definition handleDefend (now : Z) (s : State) : State :=
  if now - lastDefendTimeRef s <? DEFENSE_COOLDOWN
  then log DefenseOnCooldown s
  else
    log DefensiveStance
      (set_defendTimeouts (defendTimeouts s ++ [now + 2000])
         (set_isDefendingRef true (set_lastDefendTimeRef now s))).

(** [handlePlayerDeath()]: the human player dies and a single timeout is
    set to respawn it after [RESPAWN_TIME]. *)
Definition handlePlayerDeath (selectedCharacter : option Character)
    (now : Z) (s : State) : State * list ParentCall :=
  match selectedCharacter with
  | None => (s, [])
  | Some c =>
      if playerIsDead s then (s, [])
      else
        (log YouDied
           (set_respawnTimeouts (respawnTimeouts s ++ [now + RESPAWN_TIME])
              (set_respawnCountdown (RESPAWN_TIME / 1000)
                 (set_playerHealth 0 (set_playerIsDead true s)))),
         [onPlayerDeath (characterId c)])
  end.

(** [takeDamage(damage)]: the defence of the human player is applied,
    then [setPlayerHealth(prev => Math.max(0, prev - finalDamage))]. *)
Definition takenDamage (selectedCharacter : option Character) (damage : Z)
    (s : State) : Z :=
  let defense :=
    match selectedCharacter with
    | Some c => or_default (DEFENSE_VALUES (characterCountry c)) 0.2
    | None => 0.2%Q
    end in
  if isDefendingRef s
  then Qfloor (inject_Z damage * (1 - defense))
  else damage.

Definition takeDamage (selectedCharacter : option Character) (damage : Z)
    (now : Z) (s : State) : State * list ParentCall :=
  let dealt := takenDamage selectedCharacter damage s in
  let newHealth := Z.max 0 (playerHealth s - dealt) in
  let '(s1, calls) :=
    if newHealth <=? 0 then handlePlayerDeath selectedCharacter now s
    else (s, []) in
  (log (TookDamage dealt) (set_playerHealth newHealth s1), calls).

(** The respawn timeout callback of [handlePlayerDeath]; [rndX] and [rndY]
    are the two values of [Math.random()] for the new position. *)
Definition respawn (rndX rndY : Q) (s : State) : State :=
  let newPosition :=
    (rndX * inject_Z (CANVAS_WIDTH - PLAYER_SIZE * 2) + inject_Z PLAYER_SIZE,
     rndY * inject_Z (CANVAS_HEIGHT - PLAYER_SIZE * 2) + inject_Z PLAYER_SIZE)%Q in
  log Respawned
    (set_respawnCountdown 0
       (set_playerPosition newPosition
          (set_playerPoints (Z.max 0 (playerPoints s - 1))
             (set_playerHealth MAX_HEALTH (set_playerIsDead false s))))).

(** The state of the first render. *)
Definition initialState : State := {|
  playerHealth := MAX_HEALTH;
  playerPoints := 1;
  playerIsDead := false;
  respawnCountdown := 0;
  lastAttackTimeRef := 0;
  lastDefendTimeRef := 0;
  isDefendingRef := false;
  targetPlayer := None;
  inRange := false;
  playerPosition := (400, 300)%Q;
  combatLog := [];
  defendTimeouts := [];
  respawnTimeouts := []
|}.

(** The mount effect: the player is put at a random position of the
    canvas.  (This version of the component never moves it afterwards,
    except to respawn it.) *)
Definition mount (rndX rndY : Q) (s : State) : State :=
  set_playerPosition
    (rndX * inject_Z (CANVAS_WIDTH - PLAYER_SIZE * 2) + inject_Z PLAYER_SIZE,
     rndY * inject_Z (CANVAS_HEIGHT - PLAYER_SIZE * 2) + inject_Z PLAYER_SIZE)%Q
    s.

End GameCanvas.

(** ** The open-world page (open-space-game.tsx) *)

(** The values of [Math.random()], in the order the program draws them. *)
Definition RandomSource : Type := nat -> Q.

(** A computation that draws from the random source: it is given the
    source and the number of values drawn so far. *)
Definition Rand (A : Type) : Type := RandomSource -> nat -> A * nat.

Definition ret {A : Type} (a : A) : Rand A := fun _ n => (a, n).

Definition bind {A B : Type} (m : Rand A) (f : A -> Rand B) : Rand B :=
  fun src n => let '(a, n') := m src n in f a src n'.

Definition Math_random : Rand Q := fun src n => (src n, S n).

Notation "x <- m ;; k" := (bind m (fun x => k))
  (at level 61, m at next level, right associativity).

(** Every value of the source is a value [Math.random()] can return. *)
Definition valid_source (src : RandomSource) : Prop :=
  forall n, unit_interval (src n).

Module OpenSpaceGame.

(** [const [mapSize] = useState({ width: 800, height: 600 })] *)
Definition mapSize_width : Z := 800.
Definition mapSize_height : Z := 600.

(** [handlePlayerUpdate(updatedPlayer)], as the update of [onlinePlayers]. *)
Definition handlePlayerUpdate (updatedPlayer : Game.OnlinePlayer)
    (prevPlayers : list Game.OnlinePlayer) : list Game.OnlinePlayer :=
  map (fun player =>
         if String.eqb (Game.id player) (Game.id updatedPlayer)
         then updatedPlayer else player)
      prevPlayers.

(** The record [handlePlayerDeath] replaces the dead player with. *)
Definition killed (now : Z) (player : Game.OnlinePlayer) : Game.OnlinePlayer :=
  Game.set_respawnTime (Some (now + 5000))
    (Game.set_points (Z.max 0 (Game.points player - 1))
       (Game.set_health 0 (Game.set_isDead true player))).

(** [handlePlayerDeath(playerId)], as the update of [onlinePlayers]. *)
Definition handlePlayerDeath (playerId : string) (now : Z)
    (prevPlayers : list Game.OnlinePlayer) : list Game.OnlinePlayer :=
  map (fun player =>
         if String.eqb (Game.id player) playerId
         then killed now player else player)
      prevPlayers.

(** [player.isDead && player.respawnTime && player.respawnTime <= now]:
    an absent timestamp and the timestamp [0] are falsy. *)
Definition respawnDue (now : Z) (player : Game.OnlinePlayer) : bool :=
  Game.isDead player
  && match Game.respawnTime player with
     | Some t => negb (t =? 0) && (t <=? now)
     | None => false
     end.

(** The record the respawn pass replaces a due player with. *)
Definition respawned (rndX rndY : Q) (player : Game.OnlinePlayer)
    : Game.OnlinePlayer :=
  Game.set_respawnTime None
    (Game.set_y (rndY * inject_Z (mapSize_height - 64) + 32)%Q
       (Game.set_x (rndX * inject_Z (mapSize_width - 64) + 32)%Q
          (Game.set_health 100 (Game.set_isDead false player)))).

(** The callback of [respawnInterval], as the update of [onlinePlayers]:
    every due player is respawned, the others are kept. *)
Fixpoint respawnPass (now : Z) (prevPlayers : list Game.OnlinePlayer)
    : Rand (list Game.OnlinePlayer) :=
  match prevPlayers with
  | [] => ret []
  | player :: rest =>
      player' <- (if respawnDue now player
                  then rndX <- Math_random ;;
                       rndY <- Math_random ;;
                       ret (respawned rndX rndY player)
                  else ret player) ;;
      rest' <- respawnPass now rest ;;
      ret (player' :: rest')
  end.

(** What the parent does with the calls a [GameCanvas] handler made. *)
Definition notify (now : Z) (call : GameCanvas.ParentCall)
    (players : list Game.OnlinePlayer) : list Game.OnlinePlayer :=
  match call with
  | GameCanvas.onPlayerUpdate p => handlePlayerUpdate p players
  | GameCanvas.onPlayerDeath playerId => handlePlayerDeath playerId now players
  end.

End OpenSpaceGame.

(** ** The NPC AI engine (npc-ai-engine.ts) *)

(** [Math.sqrt], [Math.cos], [Math.sin] and [Math.PI], where the engine
    computes coordinates with them.  They are parameters of the model: no
    property proved below depends on what they return. *)
Record MathFns : Type := {
  Math_sqrt : Q -> Q;
  Math_cos : Q -> Q;
  Math_sin : Q -> Q;
  Math_PI : Q
}.

(** A distance that is only compared: [Sqrt q] stands for [Math.sqrt(q)]
    and [Infinity] for the default [maxDistance]; distances are compared
    through their squares. *)
Inductive Distance : Type :=
| Infinity
| Sqrt (q : Q).

(** [d1 < d2] on distances. *)
Definition Distance_ltb (d1 d2 : Distance) : bool :=
  match d1, d2 with
  | Infinity, _ => false
  | Sqrt _, Infinity => true
  | Sqrt a, Sqrt b => Qlt_bool a b
  end.

(** A range of the configuration as a distance bound; no distance is
    below a range that is not positive. *)
Definition Distance_of_range (r : Q) : Distance :=
  if Qlt_bool 0 r then Sqrt (r * r) else Sqrt 0.

(** [d <= r] for a distance [d] and a number [r]. *)
Definition Distance_leb_range (d : Distance) (r : Q) : bool :=
  match d with
  | Infinity => false
  | Sqrt a => Qle_bool 0 r && Qle_bool a (r * r)
  end.

(** [a / b <= t] and [a / b > t] on numbers: a division by zero is
    [Infinity], [-Infinity] or [NaN], and every comparison with [NaN] is
    false. *)
Definition div_leb (a b : Z) (t : Q) : bool :=
  if b =? 0 then a <? 0 else Qle_bool (inject_Z a / inject_Z b) t.

Definition div_gtb (a b : Z) (t : Q) : bool :=
  if b =? 0 then 0 <? a else Qlt_bool t (inject_Z a / inject_Z b).

Module NpcAiEngine.

Inductive AIBehaviorType : Type :=
| PASSIVE | AGGRESSIVE | DEFENSIVE | COWARDLY | RANDOM.

Definition AIBehaviorType_eqb (a b : AIBehaviorType) : bool :=
  match a, b with
  | PASSIVE, PASSIVE | AGGRESSIVE, AGGRESSIVE | DEFENSIVE, DEFENSIVE
  | COWARDLY, COWARDLY | RANDOM, RANDOM => true
  | _, _ => false
  end.

(** [Object.values(AIBehaviorType)], in declaration order. *)
Definition behaviors : list AIBehaviorType :=
  [PASSIVE; AGGRESSIVE; DEFENSIVE; COWARDLY; RANDOM].

(** [THREE.Vector3] *)
Record Vector3 : Type := { vx : Q; vy : Q; vz : Q }.

Record AIState : Type := {
  behaviorType : AIBehaviorType;
  targetId : option string;
  lastDecisionTime : Z;
  wanderTarget : option Vector3;
  fleeTarget : option Vector3;
  isResting : bool;
  restUntil : Z;
  lastAttackTime : Z;
  lastDefendTime : Z
}.

(** Record updates: [set_f v a] is [{ ...a, f: v }]. *)
Definition set_behaviorType (v : AIBehaviorType) (a : AIState) : AIState :=
  Build_AIState v (targetId a) (lastDecisionTime a) (wanderTarget a)
    (fleeTarget a) (isResting a) (restUntil a) (lastAttackTime a)
    (lastDefendTime a).

Definition set_targetId (v : option string) (a : AIState) : AIState :=
  Build_AIState (behaviorType a) v (lastDecisionTime a) (wanderTarget a)
    (fleeTarget a) (isResting a) (restUntil a) (lastAttackTime a)
    (lastDefendTime a).

Definition set_lastDecisionTime (v : Z) (a : AIState) : AIState :=
  Build_AIState (behaviorType a) (targetId a) v (wanderTarget a)
    (fleeTarget a) (isResting a) (restUntil a) (lastAttackTime a)
    (lastDefendTime a).

Definition set_wanderTarget (v : option Vector3) (a : AIState) : AIState :=
  Build_AIState (behaviorType a) (targetId a) (lastDecisionTime a) v
    (fleeTarget a) (isResting a) (restUntil a) (lastAttackTime a)
    (lastDefendTime a).

Definition set_fleeTarget (v : option Vector3) (a : AIState) : AIState :=
  Build_AIState (behaviorType a) (targetId a) (lastDecisionTime a)
    (wanderTarget a) v (isResting a) (restUntil a) (lastAttackTime a)
    (lastDefendTime a).

Definition set_isResting (v : bool) (a : AIState) : AIState :=
  Build_AIState (behaviorType a) (targetId a) (lastDecisionTime a)
    (wanderTarget a) (fleeTarget a) v (restUntil a) (lastAttackTime a)
    (lastDefendTime a).

Definition set_lastAttackTime (v : Z) (a : AIState) : AIState :=
  Build_AIState (behaviorType a) (targetId a) (lastDecisionTime a)
    (wanderTarget a) (fleeTarget a) (isResting a) (restUntil a) v
    (lastDefendTime a).

Definition set_lastDefendTime (v : Z) (a : AIState) : AIState :=
  Build_AIState (behaviorType a) (targetId a) (lastDecisionTime a)
    (wanderTarget a) (fleeTarget a) (isResting a) (restUntil a)
    (lastAttackTime a) v.

Record AIConfig : Type := {
  decisionInterval : Z;
  aggroRange : Q;
  attackRange : Q;
  fleeThreshold : Q;
  wanderRadius : Q;
  attackCooldown : Z;
  defendCooldown : Z
}.

Definition DEFAULT_AI_CONFIG : AIConfig := {|
  decisionInterval := 1000;
  aggroRange := 5;
  attackRange := 2;
  fleeThreshold := 0.3;
  wanderRadius := 10;
  attackCooldown := 2000;
  defendCooldown := 3000
|}.

Definition createAIState (behaviorType : AIBehaviorType) : AIState := {|
  behaviorType := behaviorType;
  targetId := None;
  lastDecisionTime := 0;
  wanderTarget := None;
  fleeTarget := None;
  isResting := false;
  restUntil := 0;
  lastAttackTime := 0;
  lastDefendTime := 0
|}.

Definition shouldMakeDecision (aiState : AIState) (config : AIConfig)
    (now : Z) : bool :=
  now - lastDecisionTime aiState >=? decisionInterval config.

Definition calculateDistance (player1 player2 : Game.OnlinePlayer)
    : Distance :=
  let dx := (Game.x player1 - Game.x player2)%Q in
  let dy := (Game.y player1 - Game.y player2)%Q in
  Sqrt (dx * dx + dy * dy).

(** [findNearestPlayer(npc, players, maxDistance)]: the [forEach] loop
    over [players], with its two variables. *)
Definition findNearestPlayer (npc : Game.OnlinePlayer)
    (players : list Game.OnlinePlayer) (maxDistance : Distance)
    : option Game.OnlinePlayer :=
  fst
    (fold_left
       (fun '(nearestPlayer, nearestDistance) player =>
          if String.eqb (Game.id player) (Game.id npc)
             || Game.isDead player || Game.isNPC player
          then (nearestPlayer, nearestDistance)
          else
            let distance := calculateDistance npc player in
            if Distance_ltb distance nearestDistance
            then (Some player, distance)
            else (nearestPlayer, nearestDistance))
       players (None, maxDistance)).

(** The action [determineNextAction] returns. *)
Record Action : Type := {
  moveDirection : option Vector3;
  shouldAttack : bool;
  shouldDefend : bool;
  actionTargetId : option string
}.

(** The result of [updateNPC], [processNPCAttack] and [processNPCDefend]
    (the latter returns no target). *)
Record Update : Type := {
  updatedNPC : Game.OnlinePlayer;
  updatedTarget : option Game.OnlinePlayer;
  updatedAIState : AIState
}.

(** [updateNPCPosition(npc, moveDirection, deltaTime, moveSpeed = 2)] *)
Definition updateNPCPosition (npc : Game.OnlinePlayer)
    (moveDirection : option Vector3) (deltaTime : Q) (moveSpeed : Q)
    : Game.OnlinePlayer :=
  match moveDirection with
  | None => npc
  | Some d =>
      let newX := (Game.x npc + vx d * moveSpeed * deltaTime)%Q in
      let newY := (Game.y npc + vz d * moveSpeed * deltaTime)%Q in
      Game.set_y newY (Game.set_x newX npc)
  end.

(** [processNPCAttack(npc, targetId, players, aiState)]; [rnd] is the
    value of its [Math.random()], drawn only when the target is found
    alive. *)
Definition npcDamage (rnd : Q) : Z :=
  let damageMin := 5 in
  let damageMax := 15 in
  Qfloor (rnd * inject_Z (damageMax - damageMin + 1)) + damageMin.

Definition npcActualDamage (damage : Z) (targetPlayer : Game.OnlinePlayer)
    : Z :=
  if Game.isDefending targetPlayer
  then Qfloor (inject_Z damage / 2)
  else damage.

Definition processNPCAttack (npc : Game.OnlinePlayer)
    (targetId : option string) (players : list Game.OnlinePlayer)
    (aiState : AIState) (now : Z) : Rand Update :=
  let unchanged :=
    {| updatedNPC := npc; updatedTarget := None; updatedAIState := aiState |} in
  match targetId with
  | Some tid =>
      if String.eqb tid "" then ret unchanged
      else
        match find (fun p => String.eqb (Game.id p) tid) players with
        | Some targetPlayer =>
            if Game.isDead targetPlayer then ret unchanged
            else
              rnd <- Math_random ;;
              let damage := npcDamage rnd in
              let actualDamage := npcActualDamage damage targetPlayer in
              ret {| updatedNPC :=
                       Game.set_lastAttackTime now
                         (Game.set_isAttacking true npc);
                     updatedTarget :=
                       Some
                         (Game.set_isDead
                            (Game.health targetPlayer - actualDamage <=? 0)
                            (Game.set_health
                               (Z.max 0
                                  (Game.health targetPlayer - actualDamage))
                               targetPlayer));
                     updatedAIState := set_lastAttackTime now aiState |}
        | None => ret unchanged
        end
  | None => ret unchanged
  end.

Definition processNPCDefend (npc : Game.OnlinePlayer) (aiState : AIState)
    (now : Z) : Update :=
  {| updatedNPC := Game.set_lastDefendTime now (Game.set_isDefending true npc);
     updatedTarget := None;
     updatedAIState := set_lastDefendTime now aiState |}.

Section WithMath.

Variable M : MathFns.

(** [new THREE.Vector3(x, y, z).normalize()]: the zero vector is left
    as it is. *)
Definition normalize (v : Vector3) : Vector3 :=
  let length :=
    Math_sqrt M (vx v * vx v + vy v * vy v + vz v * vz v)%Q in
  let divisor := if Qeq_bool length 0 then 1%Q else length in
  {| vx := vx v / divisor; vy := vy v / divisor; vz := vz v / divisor |}.

(** [generateWanderTarget(npc, spawnPosition, config)] *)
Definition generateWanderTarget (npc : Game.OnlinePlayer)
    (spawnPosition : Vector3) (config : AIConfig) : Rand Vector3 :=
  rndAngle <- Math_random ;;
  rndDistance <- Math_random ;;
  let angle := (rndAngle * Math_PI M * 2)%Q in
  let distance := (rndDistance * wanderRadius config)%Q in
  ret {| vx := vx spawnPosition + Math_cos M angle * distance;
         vy := 0;
         vz := vz spawnPosition + Math_sin M angle * distance |}.

(** [generateFleeTarget(npc, target, config)].  (For an NPC that stands on
    its target the source divides by zero and gets [NaN]; the division of
    the model gives 0 there.) *)
Definition generateFleeTarget (npc target : Game.OnlinePlayer)
    (config : AIConfig) : Vector3 :=
  let dx := (Game.x npc - Game.x target)%Q in
  let dy := (Game.y npc - Game.y target)%Q in
  let length := Math_sqrt M (dx * dx + dy * dy)%Q in
  let normalizedX := (dx / length)%Q in
  let normalizedY := (dy / length)%Q in
  let fleeDistance := wanderRadius config in
  {| vx := Game.x npc + normalizedX * fleeDistance;
     vy := 0;
     vz := Game.y npc + normalizedY * fleeDistance |}.

(** [updatedState.targetId = nearestPlayer.id] with the two targets
    cleared. *)
Definition engage (nearestPlayer : Game.OnlinePlayer) (a : AIState)
    : AIState :=
  set_fleeTarget None
    (set_wanderTarget None (set_targetId (Some (Game.id nearestPlayer)) a)).

(** [updatedState.wanderTarget = generateWanderTarget(...)] *)
Definition wander (npc : Game.OnlinePlayer) (spawnPosition : Vector3)
    (config : AIConfig) (a : AIState) : Rand AIState :=
  w <- generateWanderTarget npc spawnPosition config ;;
  ret (set_wanderTarget (Some w) a).

(** [updateAIState(npc, aiState, players, spawnPosition, config)] *)
Definition updateAIState (npc : Game.OnlinePlayer) (aiState : AIState)
    (players : list Game.OnlinePlayer) (spawnPosition : Vector3)
    (config : AIConfig) (now : Z) : Rand AIState :=
  if isResting aiState && (now <? restUntil aiState) then ret aiState
  else if negb (shouldMakeDecision aiState config now) then ret aiState
  else
    let updatedState :=
      set_isResting false (set_lastDecisionTime now aiState) in
    let isCowardly := AIBehaviorType_eqb (behaviorType aiState) COWARDLY in
    let updatedState :=
      if div_leb (Game.health npc) (Game.maxHealth npc) (fleeThreshold config)
         && negb isCowardly
      then set_behaviorType COWARDLY updatedState
      else if div_gtb (Game.health npc) (Game.maxHealth npc)
                (fleeThreshold config)
              && isCowardly
      then set_behaviorType PASSIVE updatedState
      else updatedState in
    let nearestPlayer :=
      findNearestPlayer npc players
        (if AIBehaviorType_eqb (behaviorType aiState) AGGRESSIVE
         then Infinity
         else Distance_of_range (aggroRange config)) in
    match behaviorType updatedState with
    | AGGRESSIVE =>
        match nearestPlayer, wanderTarget updatedState with
        | Some p, _ => ret (engage p updatedState)
        | None, None => wander npc spawnPosition config updatedState
        | None, Some _ => ret updatedState
        end
    | DEFENSIVE =>
        match nearestPlayer with
        | Some p =>
            if Distance_leb_range (calculateDistance npc p)
                 (aggroRange config)
            then ret (engage p updatedState)
            else ret (set_targetId None updatedState)
        | None => ret (set_targetId None updatedState)
        end
    | COWARDLY =>
        match nearestPlayer, wanderTarget updatedState with
        | Some p, _ =>
            ret (set_fleeTarget (Some (generateFleeTarget npc p config))
                   (set_wanderTarget None (set_targetId None updatedState)))
        | None, None => wander npc spawnPosition config updatedState
        | None, Some _ => ret updatedState
        end
    | RANDOM =>
        rndChange <- Math_random ;;
        updatedState <-
          (if Qlt_bool rndChange 0.2
           then rndBehavior <- Math_random ;;
                ret (set_behaviorType
                       (nth (Z.to_nat
                               (Qfloor (rndBehavior
                                        * inject_Z (Z.of_nat (length behaviors)))))
                            behaviors RANDOM)
                       updatedState)
           else ret updatedState) ;;
        let orWander :=
          rndWander <- Math_random ;;
          if Qlt_bool rndWander 0.3
          then w <- generateWanderTarget npc spawnPosition config ;;
               ret (set_fleeTarget None
                      (set_wanderTarget (Some w)
                         (set_targetId None updatedState)))
          else ret updatedState in
        match nearestPlayer with
        | Some p =>
            rndTarget <- Math_random ;;
            if Qlt_bool rndTarget 0.7 then ret (engage p updatedState)
            else orWander
        | None => orWander
        end
    | PASSIVE =>
        let orWander :=
          match wanderTarget updatedState with
          | None => wander npc spawnPosition config updatedState
          | Some _ =>
              rndChange <- Math_random ;;
              if Qlt_bool rndChange 0.1
              then wander npc spawnPosition config updatedState
              else ret updatedState
          end in
        match nearestPlayer with
        | Some p =>
            if Game.health npc <? Game.maxHealth npc
            then ret (engage p updatedState)
            else orWander
        | None => orWander
        end
    end.

(** [determineNextAction(npc, aiState, players, config)] *)
Definition determineNextAction (npc : Game.OnlinePlayer)
    (aiState : AIState) (players : list Game.OnlinePlayer)
    (config : AIConfig) (now : Z) : Rand Action :=
  let targetPlayer :=
    match targetId aiState with
    | Some tid =>
        if String.eqb tid "" then None
        else find (fun p => String.eqb (Game.id p) tid) players
    | None => None
    end in
  let reportedTargetId :=
    match targetPlayer with
    | Some p => if String.eqb (Game.id p) "" then None else Some (Game.id p)
    | None => None
    end in
  let towards (tx tz : Q) : Vector3 :=
    normalize {| vx := tx - Game.x npc; vy := 0; vz := tz - Game.y npc |} in
  let wandering :=
    match wanderTarget aiState with
    | Some w =>
        if dist_lt (vx w - Game.x npc) (vz w - Game.y npc) 0.5
        then None
        else Some (towards (vx w) (vz w))
    | None => None
    end in
  let idle (moveDirection : option Vector3) : Rand Action :=
    ret {| moveDirection := moveDirection;
           shouldAttack := false;
           shouldDefend := false;
           actionTargetId := reportedTargetId |} in
  match fleeTarget aiState, targetPlayer with
  | Some f, _ => idle (Some (towards (vx f) (vz f)))
  | None, Some p =>
      if Game.isDead p then idle wandering
      else if Distance_leb_range (calculateDistance npc p)
                (attackRange config)
      then
        let attack :=
          now - lastAttackTime aiState >=? attackCooldown config in
        defend <-
          (if now - lastDefendTime aiState >=? defendCooldown config
           then rnd <- Math_random ;; ret (Qlt_bool rnd 0.3)
           else ret false) ;;
        ret {| moveDirection := None;
               shouldAttack := attack;
               shouldDefend := defend;
               actionTargetId := reportedTargetId |}
      else idle (Some (towards (Game.x p) (Game.y p)))
  | None, None => idle wandering
  end.

(** [updateNPC(npc, aiState, players, spawnPosition, deltaTime, config)] *)
Definition updateNPC (npc : Game.OnlinePlayer) (aiState : AIState)
    (players : list Game.OnlinePlayer) (spawnPosition : Vector3)
    (deltaTime : Q) (config : AIConfig) (now : Z) : Rand Update :=
  if Game.isDead npc
  then ret {| updatedNPC := npc;
              updatedTarget := None;
              updatedAIState := aiState |}
  else
    newAIState <- updateAIState npc aiState players spawnPosition config now ;;
    action <- determineNextAction npc newAIState players config now ;;
    let moved := updateNPCPosition npc (moveDirection action) deltaTime 2 in
    let reset := Game.set_isDefending false (Game.set_isAttacking false moved) in
    attacked <-
      (if shouldAttack action
       then r <- processNPCAttack reset (actionTargetId action) players
                   newAIState now ;;
            ret (updatedNPC r, updatedTarget r,
                 set_lastAttackTime now newAIState)
       else ret (reset, None, newAIState)) ;;
    let '(npc1, target, ai1) := attacked in
    if shouldDefend action
    then ret {| updatedNPC := updatedNPC (processNPCDefend npc1 ai1 now);
                updatedTarget := target;
                updatedAIState := set_lastDefendTime now ai1 |}
    else ret {| updatedNPC := npc1;
                updatedTarget := target;
                updatedAIState := ai1 |}.

End WithMath.

End NpcAiEngine.

(** ** The open world as a transition system

    The human player's canvas together with the roster the page owns.  The
    canvas is shown [onlinePlayers] followed by the NPCs of the NPC manager
    ([allPlayers]); the calls it makes are applied to [onlinePlayers]. *)

Module World.

Record State : Type := {
  canvas : GameCanvas.State;
  onlinePlayers : list Game.OnlinePlayer
}.

(** [fetchOnlinePlayers]: the mock roster. *)
Definition mockPlayer (id name : string) (x y : Q) (country : string)
    : Game.OnlinePlayer :=
  {| Game.id := id; Game.name := name; Game.x := x; Game.y := y;
     Game.country := country; Game.health := 100; Game.maxHealth := 100;
     Game.points := 1; Game.lastAttackTime := 0; Game.lastDefendTime := 0;
     Game.isDefending := false; Game.isAttacking := false;
     Game.isDead := false; Game.respawnTime := None; Game.isNPC := false;
     Game.aiType := None |}.

Definition mockPlayers : list Game.OnlinePlayer :=
  [ mockPlayer "1" "Player1" 100 150 "usa";
    mockPlayer "2" "Player2" 200 250 "japan";
    mockPlayer "3" "Player3" 300 100 "uk";
    mockPlayer "4" "Player4" 400 200 "russia";
    mockPlayer "5" "Player5" 500 300 "brazil" ].

(** The world once the canvas is mounted; [rndX] and [rndY] are the draws
    that place the player. *)
Definition initialState (rndX rndY : Q) : State :=
  {| canvas := GameCanvas.mount rndX rndY GameCanvas.initialState;
     onlinePlayers := mockPlayers |}.

Inductive Event : Type :=
| CanvasClick (npcs : list Game.OnlinePlayer) (click : Q * Q) (rnd : Q)
| Defend
| DefenceEnds (i : nat)          (* () => isDefendingRef.current = false *)
| DamageTaken (damage : Z)       (* takeDamage(damage) *)
| RespawnTimeout (i : nat) (rndX rndY : Q)
| RespawnInterval (src : RandomSource).

(** The parent applies the calls in the order they were made. *)
Definition notifyAll (now : Z) (calls : list GameCanvas.ParentCall)
    (players : list Game.OnlinePlayer) : list Game.OnlinePlayer :=
  fold_left (fun ps call => OpenSpaceGame.notify now call ps) calls players.

Definition after (now : Z) (w : State)
    (r : GameCanvas.State * list GameCanvas.ParentCall) : State :=
  {| canvas := fst r;
     onlinePlayers := notifyAll now (snd r) (onlinePlayers w) |}.

(** [step sel now e w]: the world after event [e] at time [now]; [None]
    when [e] cannot happen then (a timeout that is not due). *)
Definition step (selectedCharacter : option GameCanvas.Character) (now : Z)
    (e : Event) (w : State) : option State :=
  match e with
  | CanvasClick npcs click rnd =>
      Some (after now w
              (GameCanvas.handleCanvasClick selectedCharacter
                 (onlinePlayers w ++ npcs) click now rnd (canvas w)))
  | Defend =>
      Some {| canvas := GameCanvas.handleDefend now (canvas w);
              onlinePlayers := onlinePlayers w |}
  | DefenceEnds i =>
      option_map
        (fun rest =>
           {| canvas := GameCanvas.set_defendTimeouts rest
                          (GameCanvas.set_isDefendingRef false (canvas w));
              onlinePlayers := onlinePlayers w |})
        (DuelGame.fire now i (GameCanvas.defendTimeouts (canvas w)))
  | DamageTaken damage =>
      Some (after now w
              (GameCanvas.takeDamage selectedCharacter damage now (canvas w)))
  | RespawnTimeout i rndX rndY =>
      option_map
        (fun rest =>
           {| canvas := GameCanvas.set_respawnTimeouts rest
                          (GameCanvas.respawn rndX rndY (canvas w));
              onlinePlayers := onlinePlayers w |})
        (DuelGame.fire now i (GameCanvas.respawnTimeouts (canvas w)))
  | RespawnInterval src =>
      Some {| canvas := canvas w;
              onlinePlayers :=
                fst (OpenSpaceGame.respawnPass now (onlinePlayers w) src 0%nat) |}
  end.

(** Whether event [e] is an attack request that the world [w] accepts at
    [now]: a click that reaches [handleAttack], which hands the parent
    either the updated target or its death. *)
Definition accepted (selectedCharacter : option GameCanvas.Character)
    (now : Z) (e : Event) (w : State) : bool :=
  match e with
  | CanvasClick npcs click rnd =>
      match snd (GameCanvas.handleCanvasClick selectedCharacter
                   (onlinePlayers w ++ npcs) click now rnd (canvas w)) with
      | [] => false
      | _ :: _ => true
      end
  | _ => false
  end.

(** [Run sel w clock last]: the world can be in state [w] at time [clock],
    the player's last accepted attack having been made at time [last]
    ([None]: no attack yet).  Time never runs backwards. *)
Inductive Run (selectedCharacter : option GameCanvas.Character)
  : State -> Z -> option Z -> Prop :=
| Run_start : forall t0 rndX rndY,
    unit_interval rndX -> unit_interval rndY ->
    Run selectedCharacter (initialState rndX rndY) t0 None
| Run_step : forall w clock last now e w',
    Run selectedCharacter w clock last ->
    clock <= now ->
    step selectedCharacter now e w = Some w' ->
    Run selectedCharacter w' now
        (if accepted selectedCharacter now e w then Some now else last).

End World.

(** ** The NPC manager (use-npc-manager.ts) *)

(** A JavaScript [Map] with string keys, as the list of its entries in
    insertion order. *)
Definition JsMap (V : Type) : Type := list (string * V).

Fixpoint Map_get {V : Type} (k : string) (m : JsMap V) : option V :=
  match m with
  | [] => None
  | (k', v) :: rest => if String.eqb k' k then Some v else Map_get k rest
  end.

Fixpoint Map_set {V : Type} (k : string) (v : V) (m : JsMap V) : JsMap V :=
  match m with
  | [] => [(k, v)]
  | (k', v') :: rest =>
      if String.eqb k' k then (k, v) :: rest else (k', v') :: Map_set k v rest
  end.

Definition Map_delete {V : Type} (k : string) (m : JsMap V) : JsMap V :=
  filter (fun e => negb (String.eqb (fst e) k)) m.

(** The decimal numeral of a non-negative integer, as a template literal
    prints it. *)
Definition decimal (n : nat) : string :=
  NilZero.string_of_uint (Nat.to_uint n).

Module UseNPCManager.

(** The string values of the enumeration [AIBehaviorType]. *)
Definition AIBehaviorType_value (b : NpcAiEngine.AIBehaviorType) : string :=
  match b with
  | NpcAiEngine.PASSIVE => "passive"
  | NpcAiEngine.AGGRESSIVE => "aggressive"
  | NpcAiEngine.DEFENSIVE => "defensive"
  | NpcAiEngine.COWARDLY => "cowardly"
  | NpcAiEngine.RANDOM => "random"
  end.

(** [aiType as AIBehaviorType].  The cast checks nothing: a string that is
    none of the five values is compared unequal to every behaviour and
    runs the [default] case of the engine's [switch], the passive one. *)
Definition asAIBehaviorType (aiType : string) : NpcAiEngine.AIBehaviorType :=
  if String.eqb aiType "aggressive" then NpcAiEngine.AGGRESSIVE
  else if String.eqb aiType "defensive" then NpcAiEngine.DEFENSIVE
  else if String.eqb aiType "cowardly" then NpcAiEngine.COWARDLY
  else if String.eqb aiType "random" then NpcAiEngine.RANDOM
  else NpcAiEngine.PASSIVE.

(** [NPCData] (its [behaviorState], always the empty object, is left out). *)
Record NPCData : Type := {
  dataId : string;
  dataAiType : option string;
  spawnPosition : NpcAiEngine.Vector3
}.

(** The state of the hook: [npcs] and the two refs. *)
Record State : Type := {
  npcs : list Game.OnlinePlayer;
  npcData : JsMap NPCData;
  aiStates : JsMap NpcAiEngine.AIState
}.

Definition countries : list string :=
  ["usa"; "japan"; "uk"; "russia"; "brazil"].

(** [Object.values(AIBehaviorType)] *)
Definition aiTypes : list string :=
  map AIBehaviorType_value NpcAiEngine.behaviors.

(** [array[Math.floor(Math.random() * array.length)]] *)
Definition pick {A : Type} (array : list A) (rnd : Q) : option A :=
  let i := Qfloor (rnd * inject_Z (Z.of_nat (length array))) in
  if i <? 0 then None else nth_error array (Z.to_nat i).

(** A random position within the map, 32 away from its border. *)
Definition randomCoordinate (rnd : Q) (side : Z) : Q :=
  rnd * inject_Z (side - 64) + 32.

(** One turn of the loop of the mount effect, for the index [i]. *)
Definition initialNPC (width height : Z) (i : nat)
    : Rand (Game.OnlinePlayer * NPCData * NpcAiEngine.AIState) :=
  let id := "npc-" ++ decimal (i + 1) in
  rndCountry <- Math_random ;;
  rndAiType <- Math_random ;;
  rndX <- Math_random ;;
  rndY <- Math_random ;;
  rndPoints <- Math_random ;;
  let aiType := pick aiTypes rndAiType in
  let x := randomCoordinate rndX width in
  let y := randomCoordinate rndY height in
  ret ({| Game.id := id;
          Game.name := "NPC " ++ decimal (i + 1);
          Game.x := x;
          Game.y := y;
          Game.country := match pick countries rndCountry with
                          | Some country => country
                          | None => ""
                          end;
          Game.health := 100;
          Game.maxHealth := 100;
          Game.points := Qfloor (rndPoints * 5) + 1;
          Game.lastAttackTime := 0;
          Game.lastDefendTime := 0;
          Game.isDefending := false;
          Game.isAttacking := false;
          Game.isDead := false;
          Game.respawnTime := None;
          Game.isNPC := true;
          Game.aiType := aiType |},
       {| dataId := id;
          dataAiType := aiType;
          spawnPosition := {| NpcAiEngine.vx := x; NpcAiEngine.vy := 0;
                              NpcAiEngine.vz := y |} |},
       NpcAiEngine.createAIState
         match aiType with
         | Some t => asAIBehaviorType t
         | None => NpcAiEngine.PASSIVE
         end).

(** The mount effect: [playerCount] NPCs, built for [i = first, first + 1,
    ...] and registered in the two refs as they are built;
    [setNPCs(initialNPCs)] at the end. *)
Fixpoint initialise (width height : Z) (playerCount first : nat)
    (st : State) : Rand State :=
  match playerCount with
  | O => ret st
  | S count =>
      built <- initialNPC width height first ;;
      let '(npc, data, aiState) := built in
      initialise width height count (S first)
        {| npcs := npcs st ++ [npc];
           npcData := Map_set (Game.id npc) data (npcData st);
           aiStates := Map_set (Game.id npc) aiState (aiStates st) |}
  end.

Definition emptyState : State :=
  {| npcs := []; npcData := []; aiStates := [] |}.

(** [Partial<OnlinePlayer>]: the fields [addNPC] reads, each present or
    not. *)
Record PartialPlayer : Type := {
  partial_id : option string;
  partial_name : option string;
  partial_x : option Q;
  partial_y : option Q;
  partial_country : option string;
  partial_health : option Z;
  partial_maxHealth : option Z;
  partial_points : option Z;
  partial_aiType : option string
}.

(** [a || b] on strings and on integers: [undefined], the empty string
    and [0] are falsy. *)
Definition or_string (v : option string) (d : string) : string :=
  match v with
  | Some s => if String.eqb s "" then d else s
  | None => d
  end.

Definition or_Z (v : option Z) (d : Z) : Z :=
  match v with
  | Some z => if z =? 0 then d else z
  | None => d
  end.

(** [npcPartial.x || Math.random() * (side - 64) + 32]: the random value
    is drawn only when the coordinate is absent or 0. *)
Definition or_randomCoordinate (v : option Q) (side : Z) : Rand Q :=
  match v with
  | Some q =>
      if Qeq_bool q 0
      then rnd <- Math_random ;; ret (randomCoordinate rnd side)
      else ret q
  | None => rnd <- Math_random ;; ret (randomCoordinate rnd side)
  end.

(** [addNPC(npcPartial)]: the NPC it returns and the state of the hook. *)
Definition addNPC (width height : Z) (npcPartial : PartialPlayer) (now : Z)
    (st : State) : Rand (Game.OnlinePlayer * State) :=
  let id := or_string (partial_id npcPartial)
              ("npc-" ++ NilZero.string_of_int (Z.to_int now)) in
  let country := or_string (partial_country npcPartial) "usa" in
  let aiType := or_string (partial_aiType npcPartial) "passive" in
  x <- or_randomCoordinate (partial_x npcPartial) width ;;
  y <- or_randomCoordinate (partial_y npcPartial) height ;;
  let npc :=
    {| Game.id := id;
       Game.name := or_string (partial_name npcPartial)
                      ("NPC " ++ decimal (length (npcs st) + 1));
       Game.x := x;
       Game.y := y;
       Game.country := country;
       Game.health := or_Z (partial_health npcPartial) 100;
       Game.maxHealth := or_Z (partial_maxHealth npcPartial) 100;
       Game.points := or_Z (partial_points npcPartial) 1;
       Game.lastAttackTime := 0;
       Game.lastDefendTime := 0;
       Game.isDefending := false;
       Game.isAttacking := false;
       Game.isDead := false;
       Game.respawnTime := None;
       Game.isNPC := true;
       Game.aiType := Some aiType |} in
  ret (npc,
       {| npcs := npcs st ++ [npc];
          npcData :=
            Map_set id
              {| dataId := id;
                 dataAiType := Some aiType;
                 spawnPosition := {| NpcAiEngine.vx := x; NpcAiEngine.vy := 0;
                                     NpcAiEngine.vz := y |} |}
              (npcData st);
          aiStates :=
            Map_set id (NpcAiEngine.createAIState (asAIBehaviorType aiType))
              (aiStates st) |}).

(** [removeNPC(id)] *)
Definition removeNPC (id : string) (st : State) : State :=
  {| npcs := filter (fun npc => negb (String.eqb (Game.id npc) id)) (npcs st);
     npcData := Map_delete id (npcData st);
     aiStates := Map_delete id (aiStates st) |}.

(** Calls of the two callbacks the page passes to the hook. *)
Inductive Call : Type :=
| onNPCUpdate (npc : Game.OnlinePlayer)
| onPlayerDamage (playerId : string) (damage : Z).

(** [updatedTarget.health - (players.find(p => p.id === updatedTarget.id)?.health || 0)] *)
Definition reportedDamage (players : list Game.OnlinePlayer)
    (updatedTarget : Game.OnlinePlayer) : Z :=
  Game.health updatedTarget
  - or_Z (option_map Game.health
            (find (fun p => String.eqb (Game.id p) (Game.id updatedTarget))
               players))
         0.

Section WithMath.

Variable M : MathFns.

(** The callback of [npcs.map] in [updateNPCs], for one NPC: the NPC it
    returns, the AI states after it and the calls it makes. *)
Definition updateOne (players allPlayers : list Game.OnlinePlayer)
    (npcData : JsMap NPCData) (deltaTime : Q) (now : Z)
    (npc : Game.OnlinePlayer) (aiStates : JsMap NpcAiEngine.AIState)
    : Rand (Game.OnlinePlayer * JsMap NpcAiEngine.AIState * list Call) :=
  if negb (Game.isNPC npc) || Game.isDead npc then ret (npc, aiStates, [])
  else
    match Map_get (Game.id npc) aiStates, Map_get (Game.id npc) npcData with
    | Some aiState, Some data =>
        r <- NpcAiEngine.updateNPC M npc aiState allPlayers
               (spawnPosition data) deltaTime NpcAiEngine.DEFAULT_AI_CONFIG
               now ;;
        let damageCalls :=
          match NpcAiEngine.updatedTarget r with
          | Some updatedTarget =>
              if negb (Game.isNPC updatedTarget)
                 && (reportedDamage players updatedTarget >? 0)
              then [onPlayerDamage (Game.id updatedTarget)
                      (reportedDamage players updatedTarget)]
              else []
          | None => []
          end in
        ret (NpcAiEngine.updatedNPC r,
             Map_set (Game.id npc) (NpcAiEngine.updatedAIState r) aiStates,
             (damageCalls ++ [onNPCUpdate (NpcAiEngine.updatedNPC r)])%list)
    | _, _ => ret (npc, aiStates, [])
    end.

(** [npcs.map(...)], the AI states and the calls threaded through. *)
Fixpoint updateEach (players allPlayers : list Game.OnlinePlayer)
    (npcData : JsMap NPCData) (deltaTime : Q) (now : Z)
    (todo : list Game.OnlinePlayer) (aiStates : JsMap NpcAiEngine.AIState)
    : Rand (list Game.OnlinePlayer * JsMap NpcAiEngine.AIState * list Call) :=
  match todo with
  | [] => ret ([], aiStates, [])
  | npc :: rest =>
      one <- updateOne players allPlayers npcData deltaTime now npc aiStates ;;
      let '(npc', aiStates', calls) := one in
      others <- updateEach players allPlayers npcData deltaTime now rest
                  aiStates' ;;
      let '(rest', aiStates'', calls') := others in
      ret (npc' :: rest', aiStates'', calls ++ calls')%list
  end.

(** [updateNPCs(players, deltaTime)]: the state of the hook after it and
    the calls it made, in order. *)
Definition updateNPCs (players : list Game.OnlinePlayer) (deltaTime : Q)
    (now : Z) (st : State) : Rand (State * list Call) :=
  match npcs st with
  | [] => ret (st, [])
  | _ :: _ =>
      let allPlayers := (players ++ npcs st)%list in
      done <- updateEach players allPlayers (npcData st) deltaTime now
                (npcs st) (aiStates st) ;;
      let '(updatedNPCs, aiStates', calls) := done in
      ret ({| npcs := updatedNPCs;
              npcData := npcData st;
              aiStates := aiStates' |}, calls)
  end.

End WithMath.

End UseNPCManager.

(** ** The request middleware (middleware.ts) *)

Module Middleware.

(** [NextResponse.next()] or [NextResponse.redirect(new URL(path, request.url))]. *)
Inductive Response : Type :=
| next
| redirect (path : string).

Definition publicPaths : list string := ["/"; "/login"; "/register"].

(** [publicPaths.some((path) => pathname === path || pathname.startsWith("/api/auth"))] *)
Definition isPublicPath (pathname : string) : bool :=
  existsb (fun path => String.eqb pathname path
                       || String.prefix "/api/auth" pathname)
    publicPaths.

(** [middleware(request)], from the path of the request and whether
    [getToken] found a token. *)
Definition middleware (pathname : string) (token : bool) : Response :=
  if isPublicPath pathname then
    if token && (String.eqb pathname "/login"
                 || String.eqb pathname "/register")
    then redirect "/game"
    else next
  else if negb token then redirect "/login"
  else next.

End Middleware.

(** ** The account and character routes (api/register, api/characters,
    api/user/points)

    The three tables the routes use are lists of rows, the newest last.
    The database gives a new user the next id of [nextUserId]; the routes
    are run one request at a time, and a database call does not fail. *)

Module Api.

Record User : Type := {
  userId : string;
  username : string;
  email : option string;
  passwordHash : option string;
  pointsBalance : Z
}.

(** [generateSpriteData(country)], before [JSON.stringify]. *)
Record SpriteData : Type := {
  spriteCountry : string;
  baseColor : option string;
  hairStyle : Z;
  faceStyle : Z;
  armorStyle : Z;
  weaponType : Z
}.

Record Character : Type := {
  characterUserId : string;
  spriteData : SpriteData;
  characterCountry : string
}.

Record Transaction : Type := {
  transactionUserId : string;
  amount : Z;
  transactionType : string;
  description : string
}.

Record Db : Type := {
  users : list User;
  characters : list Character;
  transactions : list Transaction;
  nextUserId : nat
}.

Definition emptyDb : Db :=
  {| users := []; characters := []; transactions := []; nextUserId := 0 |}.

(** The responses of the routes: the status and what the body carries
    beside the message. *)
Inductive Response : Type :=
| Unauthorized                                   (* 401 *)
| BadRequest (message : string)                  (* 400 *)
| NotFound                                       (* 404 *)
| Conflict (message : string)                    (* 409 *)
| Created                                        (* 201 *)
| CharacterCreated (character : Character) (pointsBalance : Z)  (* 200 *)
| PointsBalance (pointsBalance : Z).             (* 200 *)

Definition colors : list string := ["red"; "blue"; "green"; "purple"; "orange"].

Definition generateSpriteData (country : string) : Rand SpriteData :=
  rndColor <- Math_random ;;
  rndHair <- Math_random ;;
  rndFace <- Math_random ;;
  rndArmor <- Math_random ;;
  rndWeapon <- Math_random ;;
  ret {| spriteCountry := country;
         baseColor := UseNPCManager.pick colors rndColor;
         hairStyle := Qfloor (rndHair * 5);
         faceStyle := Qfloor (rndFace * 3);
         armorStyle := Qfloor (rndArmor * 4);
         weaponType := Qfloor (rndWeapon * 4) |}.

(** [db.user.findUnique({ where: { id } })] *)
Definition findUserById (id : string) (db : Db) : option User :=
  find (fun u => String.eqb (userId u) id) (users db).

Definition findUserByUsername (name : string) (db : Db) : option User :=
  find (fun u => String.eqb (username u) name) (users db).

Definition findUserByEmail (address : string) (db : Db) : option User :=
  find (fun u => match email u with
                 | Some e => String.eqb e address
                 | None => false
                 end)
    (users db).

(** [tx.user.update({ where: { id }, data: { pointsBalance: { decrement: 1 } } })] *)
Definition decrementPoints (id : string) (db : Db) : list User :=
  map (fun u => if String.eqb (userId u) id
                then {| userId := userId u; username := username u;
                        email := email u; passwordHash := passwordHash u;
                        pointsBalance := pointsBalance u - 1 |}
                else u)
    (users db).

(** [POST /api/characters]: [sessionUserId] is [session?.user?.id],
    [country] the [country] of the body. *)
Definition createCharacter (sessionUserId country : option string) (db : Db)
    : Rand (Response * Db) :=
  match sessionUserId with
  | None => ret (Unauthorized, db)
  | Some id =>
      if String.eqb id "" then ret (Unauthorized, db)
      else
        match country with
        | None => ret (BadRequest "Country is required", db)
        | Some country =>
            if String.eqb country ""
            then ret (BadRequest "Country is required", db)
            else
              match findUserById id db with
              | None => ret (NotFound, db)
              | Some user =>
                  if pointsBalance user <? 1
                  then ret (BadRequest
                              "Insufficient points to create a character", db)
                  else
                    spriteData <- generateSpriteData country ;;
                    let character :=
                      {| characterUserId := id;
                         spriteData := spriteData;
                         characterCountry := country |} in
                    let updatedUsers := decrementPoints id db in
                    let transaction :=
                      {| transactionUserId := id;
                         amount := -1;
                         transactionType := "CHARACTER_CREATION";
                         description :=
                           "Created character with country: " ++ country |} in
                    ret (CharacterCreated character (pointsBalance user - 1),
                         {| users := updatedUsers;
                            characters := (characters db ++ [character])%list;
                            transactions :=
                              (transactions db ++ [transaction])%list;
                            nextUserId := nextUserId db |})
              end
        end
  end.

(** [GET /api/user/points] *)
Definition getPoints (sessionUserId : option string) (db : Db) : Response :=
  match sessionUserId with
  | None => Unauthorized
  | Some id =>
      if String.eqb id "" then Unauthorized
      else
        match findUserById id db with
        | None => NotFound
        | Some user => PointsBalance (pointsBalance user)
        end
  end.

Section WithLibraries.

(** The e-mail test of the validation library and the password hash. *)
Variable isEmail : string -> bool.
Variable hash : string -> string.

(** [registerSchema.parse(body)]: the three fields of the body, each a
    string or absent. *)
Definition registerSchema_parse (body : option string * option string
                                        * option string)
    : option (string * string * string) :=
  match body with
  | (Some username, Some email, Some password) =>
      if (3 <=? String.length username)%nat && isEmail email
         && (6 <=? String.length password)%nat
      then Some (username, email, password)
      else None
  | _ => None
  end.

(** [POST /api/register] *)
Definition register (body : option string * option string * option string)
    (db : Db) : Response * Db :=
  match registerSchema_parse body with
  | None => (BadRequest "Invalid request data", db)
  | Some (username, email, password) =>
      match findUserByUsername username db with
      | Some _ => (Conflict "Username already exists", db)
      | None =>
          match (if String.eqb email "" then None
                 else findUserByEmail email db) with
          | Some _ => (Conflict "Email already exists", db)
          | None =>
              let id := decimal (nextUserId db) in
              let user :=
                {| userId := id; username := username; email := Some email;
                   passwordHash := Some (hash password);
                   pointsBalance := 10 |} in
              let transaction :=
                {| transactionUserId := id;
                   amount := 10;
                   transactionType := "INITIAL_BALANCE";
                   description := "Initial points balance for new user" |} in
              (Created,
               {| users := (users db ++ [user])%list;
                  characters := characters db;
                  transactions := (transactions db ++ [transaction])%list;
                  nextUserId := S (nextUserId db) |})
          end
      end
  end.

(** A request to one of the routes. *)
Inductive Request : Type :=
| PostRegister (body : option string * option string * option string)
| PostCharacter (sessionUserId country : option string)
| GetPoints (sessionUserId : option string).

Definition handle (request : Request) (db : Db) : Rand (Response * Db) :=
  match request with
  | PostRegister body => ret (register body db)
  | PostCharacter sessionUserId country =>
      createCharacter sessionUserId country db
  | GetPoints sessionUserId => ret (getPoints sessionUserId db, db)
  end.

(** The database after a sequence of requests, oldest first. *)
Fixpoint serve (requests : list Request) (db : Db) : Rand Db :=
  match requests with
  | [] => ret db
  | request :: rest =>
      r <- handle request db ;;
      serve rest (snd r)
  end.

End WithLibraries.

End Api.

(** ** Movement on the canvas (game-canvas.tsx, the version without
    combat) *)

(** A JavaScript [Set] of strings, as the list of its elements. *)
Definition JsSet : Type := list string.

Definition Set_has (k : string) (s : JsSet) : bool :=
  existsb (String.eqb k) s.

Definition Set_add (k : string) (s : JsSet) : JsSet :=
  if Set_has k s then s else (s ++ [k])%list.

Definition Set_delete (k : string) (s : JsSet) : JsSet :=
  filter (fun k' => negb (String.eqb k' k)) s.

(** [String.prototype.toLowerCase], on the letters A to Z (the other
    characters of a key name are left as they are). *)
Definition ascii_toLowerCase (c : Ascii.ascii) : Ascii.ascii :=
  let n := Ascii.nat_of_ascii c in
  if ((65 <=? n) && (n <=? 90))%nat then Ascii.ascii_of_nat (n + 32) else c.

Fixpoint toLowerCase (s : string) : string :=
  match s with
  | EmptyString => EmptyString
  | String c rest => String (ascii_toLowerCase c) (toLowerCase rest)
  end.

(** [Math.max] and [Math.min] on numbers. *)
Definition Math_max (a b : Q) : Q := if Qle_bool a b then b else a.
Definition Math_min (a b : Q) : Q := if Qle_bool a b then a else b.

Module Canvas2D.

Definition CANVAS_WIDTH : Z := 800.
Definition CANVAS_HEIGHT : Z := 600.
Definition PLAYER_SIZE : Z := 32.
Definition MOVEMENT_SPEED : Z := 3.

Record State : Type := {
  playerPosition : Q * Q;
  keysPressed : JsSet;
  showDebugInfo : bool
}.

(** The first render: [{ x: 400, y: 300 }], no key, no debug info. *)
Definition initialState : State :=
  {| playerPosition := (400, 300)%Q; keysPressed := []; showDebugInfo := false |}.

Definition movementKeys : list string :=
  ["w"; "a"; "s"; "d"; "arrowup"; "arrowleft"; "arrowdown"; "arrowright"].

(** [handleKeyDown(e)], from [e.key]. *)
Definition handleKeyDown (e_key : string) (s : State) : State :=
  let key := toLowerCase e_key in
  if String.eqb key "f3"
  then {| playerPosition := playerPosition s;
          keysPressed := keysPressed s;
          showDebugInfo := negb (showDebugInfo s) |}
  else if existsb (String.eqb key) movementKeys
  then {| playerPosition := playerPosition s;
          keysPressed := Set_add key (keysPressed s);
          showDebugInfo := showDebugInfo s |}
  else s.

(** [handleKeyUp(e)], from [e.key]. *)
Definition handleKeyUp (e_key : string) (s : State) : State :=
  let key := toLowerCase e_key in
  if existsb (String.eqb key) movementKeys
  then {| playerPosition := playerPosition s;
          keysPressed := Set_delete key (keysPressed s);
          showDebugInfo := showDebugInfo s |}
  else s.

(** The displacement the 2D loop computes from the keys: 3 per axis,
    scaled by [1 / Math.sqrt(2)] when both axes move. *)
Definition displacement (M : MathFns) (keys : JsSet) : Q * Q :=
  let speed := inject_Z MOVEMENT_SPEED in
  let dy := 0%Q in
  let dx := 0%Q in
  let dy := if Set_has "w" keys || Set_has "arrowup" keys
            then (dy - speed)%Q else dy in
  let dx := if Set_has "a" keys || Set_has "arrowleft" keys
            then (dx - speed)%Q else dx in
  let dy := if Set_has "s" keys || Set_has "arrowdown" keys
            then (dy + speed)%Q else dy in
  let dx := if Set_has "d" keys || Set_has "arrowright" keys
            then (dx + speed)%Q else dx in
  if negb (Qeq_bool dx 0) && negb (Qeq_bool dy 0)
  then let factor := (1 / Math_sqrt M 2)%Q in
       ((dx * factor)%Q, (dy * factor)%Q)
  else (dx, dy).

(** One frame of [update2D]: the position is moved and kept on the
    canvas, half a [PLAYER_SIZE] from its border. *)
Definition update2D (M : MathFns) (s : State) : State :=
  let '(dx, dy) := displacement M (keysPressed s) in
  let prev := playerPosition s in
  {| playerPosition :=
       (Math_max (inject_Z PLAYER_SIZE / 2)
          (Math_min (inject_Z CANVAS_WIDTH - inject_Z PLAYER_SIZE / 2)
             (fst prev + dx)),
        Math_max (inject_Z PLAYER_SIZE / 2)
          (Math_min (inject_Z CANVAS_HEIGHT - inject_Z PLAYER_SIZE / 2)
             (snd prev + dy)));
     keysPressed := keysPressed s;
     showDebugInfo := showDebugInfo s |}.

(** What happens to the canvas, one event at a time. *)
Inductive Event : Type :=
| KeyDown (e_key : string)
| KeyUp (e_key : string)
| Frame.

Definition step (M : MathFns) (e : Event) (s : State) : State :=
  match e with
  | KeyDown e_key => handleKeyDown e_key s
  | KeyUp e_key => handleKeyUp e_key s
  | Frame => update2D M s
  end.

End Canvas2D.

(** ** The health bars (character-renderer-3d.ts, players-list.tsx) *)

Module HealthBar.

(** The colours of a bar: 0x00ff00, 0xffff00 and 0xff0000 on the 3D bar,
    bg-green-500, bg-yellow-500 and bg-red-500 in the list. *)
Inductive Color : Type := green | yellow | red.

(** [health / maxHealth] as JavaScript computes it, the quotient of two
    integers taken exactly. *)
Inductive Ratio : Type :=
| NaN
| PlusInfinity
| MinusInfinity
| Finite (q : Q).

(** [r > c] for a finite [c]. *)
Definition Ratio_gt (r : Ratio) (c : Q) : bool :=
  match r with
  | NaN => false
  | PlusInfinity => true
  | MinusInfinity => false
  | Finite q => Qlt_bool c q
  end.

(** [k * r] for a positive finite [k]. *)
Definition Ratio_times (k : Q) (r : Ratio) : Ratio :=
  match r with
  | Finite q => Finite (k * q)
  | _ => r
  end.

Definition ratio (health maxHealth : Z) : Ratio :=
  if maxHealth =? 0
  then if health =? 0 then NaN
       else if 0 <? health then PlusInfinity else MinusInfinity
  else Finite (inject_Z health / inject_Z maxHealth).

(** [Math.max(0, Math.min(1, health / maxHealth))]; [None] is [NaN]. *)
Definition healthPercent (health maxHealth : Z) : option Q :=
  match ratio health maxHealth with
  | NaN => None
  | PlusInfinity => Some 1%Q
  | MinusInfinity => Some 0%Q
  | Finite q => Some (Math_max 0 (Math_min 1 q))
  end.

(** What [update] sets: [foreground.scale.x], [foreground.position.x],
    the colour of the material and [container.visible]. *)
Record Bar : Type := {
  scale_x : option Q;
  position_x : option Q;
  color : Color;
  visible : bool
}.

(** [update(health, maxHealth)] of [createHealthBar]; a comparison with
    [NaN] is false. *)
Definition update (health maxHealth : Z) : Bar :=
  let healthPercent := healthPercent health maxHealth in
  {| scale_x := healthPercent;
     position_x := option_map (fun p => (-0.5 * (1 - p))%Q) healthPercent;
     color := match healthPercent with
              | Some p => if Qlt_bool 0.6 p then green
                          else if Qlt_bool 0.3 p then yellow
                          else red
              | None => red
              end;
     visible := 0 <? health |}.

(** The health bar that [renderPlayerModel] paints on the 2D canvas: the width
    and the [fillStyle] of its fill. *)
Definition drawnHealthBar (player : Game.OnlinePlayer) : Ratio * Color :=
  let healthBarWidth := inject_Z (GameCanvas.PLAYER_SIZE * 2) in
  let healthPercent := ratio (Game.health player) (Game.maxHealth player) in
  (Ratio_times healthBarWidth healthPercent,
   if Ratio_gt healthPercent 0.6 then green
   else if Ratio_gt healthPercent 0.3 then yellow
   else red).

(** The colour of the bar of a player in [PlayersList]. *)
Definition indicator (player : Game.OnlinePlayer) : Color :=
  if 60 <? Game.health player then green
  else if 30 <? Game.health player then yellow
  else red.

End HealthBar.

(** ** The duel arena page (duel-arena.tsx) *)

Module DuelArena.

Record OnlinePlayer : Type := {
  id : string;
  name : string;
  country : string;
  characterId : string
}.

Definition mockPlayers : list OnlinePlayer :=
  [ {| id := "1"; name := "Gunslinger_Joe"; country := "usa";
       characterId := "char1" |};
    {| id := "2"; name := "SamuraiMaster"; country := "japan";
       characterId := "char2" |};
    {| id := "3"; name := "KnightRider"; country := "uk";
       characterId := "char3" |};
    {| id := "4"; name := "BrawlerBear"; country := "russia";
       characterId := "char4" |};
    {| id := "5"; name := "CapoeiraKing"; country := "brazil";
       characterId := "char5" |} ].

(** The state of the page; [acceptTimeouts] holds the due times of the
    pending timeouts that start the duel. *)
Record State : Type := {
  characters : list string;          (* the ids of [useCharacters()] *)
  selectedCharacterId : option string;
  onlinePlayers : list OnlinePlayer;
  selectedOpponent : option OnlinePlayer;
  stakeAmount : Z;
  isDueling : bool;
  pointsBalance : option Z;
  acceptTimeouts : list Z
}.

(** The page once the players and the balance are fetched and the first
    character is selected. *)
Definition loaded (characters : list string) (pointsBalance : option Z)
    : State :=
  {| characters := characters;
     selectedCharacterId := head characters;
     onlinePlayers := mockPlayers;
     selectedOpponent := None;
     stakeAmount := 1;
     isDueling := false;
     pointsBalance := pointsBalance;
     acceptTimeouts := [] |}.

Definition set_selectedOpponent (v : option OnlinePlayer) (s : State)
    : State :=
  Build_State (characters s) (selectedCharacterId s) (onlinePlayers s) v (stakeAmount s)
    (isDueling s) (pointsBalance s) (acceptTimeouts s).

Definition set_stakeAmount (v : Z) (s : State) : State :=
  Build_State (characters s) (selectedCharacterId s) (onlinePlayers s) (selectedOpponent s) v
    (isDueling s) (pointsBalance s) (acceptTimeouts s).

Definition set_isDueling (v : bool) (s : State) : State :=
  Build_State (characters s) (selectedCharacterId s) (onlinePlayers s) (selectedOpponent s)
    (stakeAmount s) v (pointsBalance s) (acceptTimeouts s).

Definition set_pointsBalance (v : option Z) (s : State) : State :=
  Build_State (characters s) (selectedCharacterId s) (onlinePlayers s) (selectedOpponent s)
    (stakeAmount s) (isDueling s) v (acceptTimeouts s).

Definition set_acceptTimeouts (v : list Z) (s : State) : State :=
  Build_State (characters s) (selectedCharacterId s) (onlinePlayers s) (selectedOpponent s)
    (stakeAmount s) (isDueling s) (pointsBalance s) v.

Definition set_selectedCharacterId (v : option string) (s : State)
    : State :=
  Build_State (characters s) v (onlinePlayers s) (selectedOpponent s)
    (stakeAmount s) (isDueling s) (pointsBalance s) (acceptTimeouts s).

(** [!selectedCharacterId] *)
Definition noCharacterId (s : State) : bool :=
  match selectedCharacterId s with
  | Some characterId => String.eqb characterId ""
  | None => true
  end.

(** [handleCharacterSelect(characterId)], and the effect that selects the
    first character when none is selected. *)
Definition handleCharacterSelect (characterId : string) (s : State)
    : State :=
  let s := set_selectedCharacterId (Some characterId) s in
  match characters s with
  | first :: _ =>
      if noCharacterId s then set_selectedCharacterId (Some first) s else s
  | [] => s
  end.

(** [characters.find(char => char.id === selectedCharacterId)] *)
Definition selectedCharacter (s : State) : option string :=
  match selectedCharacterId s with
  | Some characterId => find (String.eqb characterId) (characters s)
  | None => None
  end.

(** [handleOpponentSelect(playerId)] *)
Definition handleOpponentSelect (playerId : string) (s : State) : State :=
  set_selectedOpponent
    (find (fun p => String.eqb (id p) playerId) (onlinePlayers s)) s.

(** [handleStakeChange(e)]; [value] is [parseInt(e.target.value)], [None]
    for [NaN]. *)
Definition handleStakeChange (value : option Z) (s : State) : State :=
  match value with
  | Some v => if 0 <? v then set_stakeAmount v s else s
  | None => s
  end.

(** Whether [handleStartDuel] sends the challenge: a character and an
    opponent are selected, and the balance is neither absent nor 0 nor
    below the stake. *)
Definition challengeSent (s : State) : bool :=
  match selectedOpponent s, pointsBalance s with
  | Some _, Some balance =>
      negb (noCharacterId s) && negb (balance =? 0)
      && negb (balance <? stakeAmount s)
  | _, _ => false
  end.

(** [handleStartDuel()]: the opponent accepts after 2000 ms. *)
Definition handleStartDuel (now : Z) (s : State) : State :=
  if challengeSent s
  then set_acceptTimeouts (acceptTimeouts s ++ [now + 2000])%list s
  else s.

(** [handleDuelComplete(isWinner)] *)
Definition handleDuelComplete (isWinner : bool) (s : State) : State :=
  set_selectedOpponent None
    (set_pointsBalance
       (option_map (fun prev => if isWinner then prev + stakeAmount s
                                else prev - stakeAmount s)
          (pointsBalance s))
       (set_isDueling false s)).

(** Whether the page shows the duel: some characters exist, and
    [isDueling && selectedOpponent && selectedCharacter]. *)
Definition showsDuel (s : State) : bool :=
  match characters s with
  | [] => false
  | _ :: _ =>
      isDueling s
      && match selectedOpponent s, selectedCharacter s with
         | Some _, Some _ => true
         | _, _ => false
         end
  end.

(** Whether the page shows the arena, with its buttons and inputs. *)
Definition showsArena (s : State) : bool :=
  match characters s with
  | [] => false
  | _ :: _ => negb (showsDuel s)
  end.

(** What happens to the page, one event at a time. *)
Inductive Event : Type :=
| CharacterSelect (characterId : string)
| OpponentSelect (playerId : string)
| StakeChange (value : option Z)
| StartDuel
| ChallengeAccepted (i : nat)      (* () => setIsDueling(true) *)
| DuelComplete (isWinner : bool).

(** [step now e s]: the page after event [e] at time [now]; [None] when
    [e] cannot happen then: the handlers of the arena need the arena on
    the page, a duel completes only while it is shown, a timeout runs when
    it is due. *)
Definition step (now : Z) (e : Event) (s : State) : option State :=
  match e with
  | CharacterSelect characterId =>
      if showsArena s then Some (handleCharacterSelect characterId s)
      else None
  | OpponentSelect playerId =>
      if showsArena s then Some (handleOpponentSelect playerId s) else None
  | StakeChange value =>
      if showsArena s then Some (handleStakeChange value s) else None
  | StartDuel =>
      if showsArena s then Some (handleStartDuel now s) else None
  | ChallengeAccepted i =>
      option_map (fun rest => set_acceptTimeouts rest (set_isDueling true s))
        (DuelGame.fire now i (acceptTimeouts s))
  | DuelComplete isWinner =>
      if showsDuel s then Some (handleDuelComplete isWinner s) else None
  end.

(** The page after a sequence of timed events that starts at [clock],
    [None] when one of them cannot happen or comes before its
    predecessor. *)
Fixpoint run (clock : Z) (events : list (Z * Event)) (s : State)
    : option State :=
  match events with
  | [] => Some s
  | (now, e) :: rest =>
      if clock <=? now
      then match step now e s with
           | Some s' => run now rest s'
           | None => None
           end
      else None
  end.

End DuelArena.

(** ** Predicates of the invariants *)


(** A player whose health is not negative. *)
Definition health_ok (p : Game.OnlinePlayer) : Prop := 0 <= Game.health p.

(** A selected character of one of the five classes (or none, which
    plays as usa). *)
Definition valid_character (selectedCharacter : option GameCanvas.Character)
    : Prop :=
  In (GameCanvas.playerCountry selectedCharacter) classIds.

(** The cooldown flag of the duel and its pending timeout, given the time
    of the last accepted attack. *)
Definition duel_cooldown_inv (s : DuelGame.State) (clock : Z)
    (last : option Z) : Prop :=
  match last with
  | None =>
      DuelGame.isAttackCooldown s = false
      /\ DuelGame.attackCooldownTimeouts s = []
  | Some t0 =>
      (DuelGame.isAttackCooldown s = true
       /\ DuelGame.attackCooldownTimeouts s = [t0 + DuelGame.ATTACK_COOLDOWN])
      \/ (DuelGame.isAttackCooldown s = false
          /\ DuelGame.attackCooldownTimeouts s = []
          /\ t0 + DuelGame.ATTACK_COOLDOWN <= clock)
  end.

(** A player that [findNearestPlayer] may return: one of the list, other
    than the NPC itself, alive and not an NPC. *)
Definition candidate (npc : Game.OnlinePlayer)
    (players : list Game.OnlinePlayer) (p : Game.OnlinePlayer) : Prop :=
  In p players
  /\ String.eqb (Game.id p) (Game.id npc) = false
  /\ Game.isDead p = false
  /\ Game.isNPC p = false.

(** Two records of the same combatant in the same standing: they differ at
    most in position, action flags and action times. *)
Definition same_standing (p p' : Game.OnlinePlayer) : Prop :=
  Game.id p' = Game.id p
  /\ Game.name p' = Game.name p
  /\ Game.country p' = Game.country p
  /\ Game.health p' = Game.health p
  /\ Game.maxHealth p' = Game.maxHealth p
  /\ Game.points p' = Game.points p
  /\ Game.isDead p' = Game.isDead p
  /\ Game.respawnTime p' = Game.respawnTime p
  /\ Game.isNPC p' = Game.isNPC p
  /\ Game.aiType p' = Game.aiType p.

(** A call of the NPC manager that reports damage to a player. *)
Definition reports_damage (call : UseNPCManager.Call) : bool :=
  match call with
  | UseNPCManager.onPlayerDamage _ _ => true
  | UseNPCManager.onNPCUpdate _ => false
  end.

(** The behaviour the manager gives the AI state of an NPC. *)
Definition behaviourOf (npc : Game.OnlinePlayer) : NpcAiEngine.AIBehaviorType :=
  match Game.aiType npc with
  | Some aiType => UseNPCManager.asAIBehaviorType aiType
  | None => NpcAiEngine.PASSIVE
  end.

(** An NPC as the mount effect of the manager builds it, for the [i]-th
    turn of its loop on a map of the given size. *)
Definition initial_npc (width height : Z) (i : nat)
    (npc : Game.OnlinePlayer) : Prop :=
  Game.id npc = "npc-" ++ decimal (i + 1)
  /\ Game.name npc = "NPC " ++ decimal (i + 1)
  /\ Game.isNPC npc = true
  /\ Game.isDead npc = false
  /\ Game.health npc = 100
  /\ Game.maxHealth npc = 100
  /\ 1 <= Game.points npc <= 5
  /\ In (Game.country npc) UseNPCManager.countries
  /\ (exists b, Game.aiType npc = Some (UseNPCManager.AIBehaviorType_value b))
  /\ (32 <= Game.x npc)%Q /\ (Game.x npc < inject_Z width - 32)%Q
  /\ (32 <= Game.y npc)%Q /\ (Game.y npc < inject_Z height - 32)%Q.

(** An NPC that is registered in the two refs of the manager: under its
    id there are a fresh AI state of its behaviour and NPC data whose
    spawn position is the position of the NPC. *)
Definition registered (st : UseNPCManager.State) (npc : Game.OnlinePlayer)
    : Prop :=
  Map_get (Game.id npc) (UseNPCManager.aiStates st)
  = Some (NpcAiEngine.createAIState (behaviourOf npc))
  /\ Map_get (Game.id npc) (UseNPCManager.npcData st)
     = Some {| UseNPCManager.dataId := Game.id npc;
               UseNPCManager.dataAiType := Game.aiType npc;
               UseNPCManager.spawnPosition :=
                 {| NpcAiEngine.vx := Game.x npc; NpcAiEngine.vy := 0;
                    NpcAiEngine.vz := Game.y npc |} |}.

(** The ids of the mock roster of the open-world page. *)
Definition roster_ids : list string := ["1"; "2"; "3"; "4"; "5"].

(** A consistent record of the roster: health between 0 and its maximum
    100, points not negative, dead exactly when no health is left, and a
    respawn time exactly when dead. *)
Definition roster_ok (p : Game.OnlinePlayer) : Prop :=
  Game.maxHealth p = 100
  /\ 0 <= Game.health p <= 100
  /\ 0 <= Game.points p
  /\ Game.isNPC p = false
  /\ if Game.isDead p
     then Game.health p = 0 /\ Game.respawnTime p <> None
     else 0 < Game.health p /\ Game.respawnTime p = None.

(** A consistent state of the human player: health between 0 and
    [MAX_HEALTH], points not negative, exactly one pending respawn when
    dead and none when alive; a player with a selected character is alive
    only with some health left. *)
Definition canvas_ok (selectedCharacter : option GameCanvas.Character)
    (s : GameCanvas.State) : Prop :=
  0 <= GameCanvas.playerHealth s <= GameCanvas.MAX_HEALTH
  /\ 0 <= GameCanvas.playerPoints s
  /\ if GameCanvas.playerIsDead s
     then GameCanvas.playerHealth s = 0
          /\ length (GameCanvas.respawnTimeouts s) = 1%nat
     else GameCanvas.respawnTimeouts s = []
          /\ (selectedCharacter <> None -> 0 < GameCanvas.playerHealth s).

Definition world_ok (selectedCharacter : option GameCanvas.Character)
    (w : World.State) : Prop :=
  canvas_ok selectedCharacter (World.canvas w)
  /\ map Game.id (World.onlinePlayers w) = roster_ids
  /\ Forall roster_ok (World.onlinePlayers w).

(** The events of the open world as the program produces them: a random
    value is in [0, 1), the NPCs shown on the canvas have ids that are not
    ids of the roster and countries among the five classes, and a damage
    is not negative. *)
Definition admissible (e : World.Event) : Prop :=
  match e with
  | World.CanvasClick npcs _ rnd =>
      unit_interval rnd
      /\ Forall (fun npc => ~ In (Game.id npc) roster_ids) npcs
      /\ Forall (fun npc => In (Game.country npc) classIds) npcs
  | World.DamageTaken damage => 0 <= damage
  | _ => True
  end.

(** The states the open world reaches by admissible events. *)
Inductive Reachable (selectedCharacter : option GameCanvas.Character)
  : World.State -> Z -> Prop :=
| Reachable_start : forall t0 rndX rndY,
    Reachable selectedCharacter (World.initialState rndX rndY) t0
| Reachable_step : forall w clock now e w',
    Reachable selectedCharacter w clock ->
    clock <= now ->
    admissible e ->
    World.step selectedCharacter now e w = Some w' ->
    Reachable selectedCharacter w' now.

(** The test of [handleCanvasClick] for the player clicked: alive and
    within half a [PLAYER_SIZE] of the click. *)
Definition under_click (click : Q * Q) (p : Game.OnlinePlayer) : bool :=
  negb (Game.isDead p)
  && dist_le (Game.x p - fst click) (Game.y p - snd click)
             (inject_Z GameCanvas.PLAYER_SIZE / 2).

(** The click at [click] reaches [handleAttack] with [target]: the human
    player is alive, [target] is the first living player under the click,
    it is within the attack range of the human player, and the cooldown
    of the last attack has run out at [now]. *)
Definition strikes (w : World.State) (npcs : list Game.OnlinePlayer)
    (click : Q * Q) (now : Z) (target : Game.OnlinePlayer) : Prop :=
  GameCanvas.playerIsDead (World.canvas w) = false
  /\ find (under_click click) (World.onlinePlayers w ++ npcs) = Some target
  /\ dist_le (Game.x target - fst (GameCanvas.playerPosition (World.canvas w)))
             (Game.y target - snd (GameCanvas.playerPosition (World.canvas w)))
             (inject_Z GameCanvas.ATTACK_RANGE_2D) = true
  /\ GameCanvas.ATTACK_COOLDOWN
     <= now - GameCanvas.lastAttackTimeRef (World.canvas w).

(** The id of the player a call to the page is about. *)
Definition call_id (call : GameCanvas.ParentCall) : string :=
  match call with
  | GameCanvas.onPlayerUpdate u => Game.id u
  | GameCanvas.onPlayerDeath playerId => playerId
  end.

(** The sum of the amounts of a user's transactions, and the number of a
    user's characters. *)
Definition ledgerSum (id : string) (transactions : list Api.Transaction) : Z :=
  fold_right
    (fun t acc => if String.eqb (Api.transactionUserId t) id
                  then Api.amount t + acc else acc)
    0 transactions.

Definition characterCount (id : string) (characters : list Api.Character)
    : Z :=
  Z.of_nat
    (length (filter (fun c => String.eqb (Api.characterUserId c) id)
               characters)).

(** A database whose books balance: the users have the ids the database
    gave out, every transaction and every character belongs to a user,
    and the points of every user are the sum of the user's transactions,
    are 10 less one per character of the user, and are not negative. *)
Definition ledger_ok (db : Api.Db) : Prop :=
  map Api.userId (Api.users db) = map decimal (seq 0 (Api.nextUserId db))
  /\ Forall (fun t => In (Api.transactionUserId t)
                         (map Api.userId (Api.users db)))
       (Api.transactions db)
  /\ Forall (fun c => In (Api.characterUserId c)
                         (map Api.userId (Api.users db)))
       (Api.characters db)
  /\ Forall (fun u =>
               Api.pointsBalance u
               = ledgerSum (Api.userId u) (Api.transactions db)
               /\ Api.pointsBalance u
                  + characterCount (Api.userId u) (Api.characters db) = 10
               /\ 0 <= Api.pointsBalance u)
       (Api.users db).

(** A position on the canvas, half a player away from its border. *)
Definition on_canvas (position : Q * Q) : Prop :=
  (16 <= fst position)%Q /\ (fst position <= 784)%Q
  /\ (16 <= snd position)%Q /\ (snd position <= 584)%Q.

(** * Properties *)

(** ** Arithmetic of [Math.floor] and of the random rolls *)

Lemma Qfloor_scale (d n : Z) (m : positive) :
  Qfloor (inject_Z d * (n # m)) = d * n / Zpos m.
Proof. unfold Qfloor, Qmult, inject_Z; simpl; reflexivity. Qed.

Lemma Qfloor_between (q : Q) (a b : Z) :
  (inject_Z a <= q)%Q -> (q < inject_Z b)%Q -> a <= Qfloor q < b.
Proof.
  intros Hlo Hhi; split.
  - rewrite <- (Qfloor_Z a); apply Qfloor_resp_le; exact Hlo.
  - rewrite Zlt_Qlt.
    apply Qle_lt_trans with q; [apply Qfloor_le | exact Hhi].
Qed.

Lemma inject_Z_pos (n : Z) : 0 < n -> (0 < inject_Z n)%Q.
Proof. intro H; unfold Qlt, inject_Z; simpl; lia. Qed.

Lemma inject_Z_nonzero (n : Z) : 0 < n -> ~ (inject_Z n == 0)%Q.
Proof. intros H E; unfold Qeq, inject_Z in E; simpl in E; lia. Qed.

(** A draw [rnd] of [0 <= rnd < 1] scaled by a positive integer [n] and
    floored is one of [0 .. n-1]. *)
Lemma floor_roll_range (rnd : Q) (n : Z) :
  unit_interval rnd -> 0 < n -> 0 <= Qfloor (rnd * inject_Z n) < n.
Proof.
  intros [H0 H1] Hn.
  assert (Hq : (0 < inject_Z n)%Q) by (apply inject_Z_pos; exact Hn).
  apply Qfloor_between.
  - apply Qmult_le_0_compat; [exact H0 | apply Qlt_le_weak; exact Hq].
  - setoid_replace (inject_Z n) with (1 * inject_Z n)%Q at 2 by ring.
    apply Qmult_lt_compat_r; assumption.
Qed.

(** Every one of [0 .. n-1] is the floor of some scaled draw. *)
Lemma floor_roll_onto (n j : Z) :
  0 < n -> 0 <= j < n ->
  unit_interval (inject_Z j / inject_Z n)
  /\ Qfloor (inject_Z j / inject_Z n * inject_Z n) = j.
Proof.
  intros Hn [Hj0 Hjn].
  assert (Hq : (0 < inject_Z n)%Q) by (apply inject_Z_pos; exact Hn).
  assert (Hne : ~ (inject_Z n == 0)%Q) by (apply inject_Z_nonzero; exact Hn).
  repeat split.
  - apply Qle_shift_div_l; [exact Hq |].
    rewrite Qmult_0_l; change 0%Q with (inject_Z 0);
      rewrite <- Zle_Qle; exact Hj0.
  - apply Qlt_shift_div_r; [exact Hq |].
    rewrite Qmult_1_l, <- Zlt_Qlt; exact Hjn.
  - rewrite <- (Qfloor_Z j) at 2; apply Qfloor_comp.
    field; exact Hne.
Qed.

Lemma valid_class_cases (c : string) :
  In c classIds ->
  c = "usa" \/ c = "japan" \/ c = "uk" \/ c = "russia" \/ c = "brazil".
Proof.
  unfold classIds; simpl; intuition (auto using eq_sym).
Qed.

(** Splits a goal about a valid class into its five instances. *)
Ltac each_class H :=
  apply valid_class_cases in H;
  destruct H as [H | [H | [H | [H | H]]]]; subst.

(** The damage table, as a range of positive width, for a valid class. *)
Lemma damageRange_valid (c : string) :
  In c classIds ->
  WEAPON_DAMAGE c = Some (damageRangeOf c)
  /\ 0 < min (damageRangeOf c) < max (damageRangeOf c).
Proof.
  intro H; each_class H; vm_compute; repeat split; reflexivity.
Qed.

(** ** C2: the damage rolls *)

(** The open-world roll of [handleAttack] lies in the class's range. *)
Lemma baseDamage_in_range (c : string) (rnd : Q) :
  In c classIds -> unit_interval rnd ->
  min (damageRangeOf c) <= GameCanvas.baseDamage c rnd <= max (damageRangeOf c).
Proof.
  intros Hc Hr; unfold GameCanvas.baseDamage.
  destruct (damageRange_valid c Hc) as [_ Hw].
  pose proof (floor_roll_range rnd
                (max (damageRangeOf c) - min (damageRangeOf c) + 1) Hr).
  cbv zeta; lia.
Qed.

(** The open-world roll reaches every value of the range, the maximum
    included. *)
Lemma baseDamage_onto (c : string) (v : Z) :
  In c classIds ->
  min (damageRangeOf c) <= v <= max (damageRangeOf c) ->
  exists rnd, unit_interval rnd /\ GameCanvas.baseDamage c rnd = v.
Proof.
  intros Hc Hv.
  destruct (damageRange_valid c Hc) as [_ Hw].
  set (n := max (damageRangeOf c) - min (damageRangeOf c) + 1).
  destruct (floor_roll_onto n (v - min (damageRangeOf c))) as [Hu Hf];
    [unfold n; lia | unfold n; lia |].
  exists (inject_Z (v - min (damageRangeOf c)) / inject_Z n)%Q; split;
    [exact Hu |].
  unfold GameCanvas.baseDamage; cbv zeta; fold n; rewrite Hf; lia.
Qed.

(** The duel roll of [calculateDamage] lies in [min .. max - 1]. *)
Lemma calculateDamage_below_max (c : string) (rnd : Q) :
  In c classIds -> unit_interval rnd ->
  min (damageRangeOf c) <= DuelGame.calculateDamage c rnd
  < max (damageRangeOf c).
Proof.
  intros Hc [H0 H1]; unfold DuelGame.calculateDamage; cbv zeta.
  destruct (damageRange_valid c Hc) as [_ Hw].
  set (lo := min (damageRangeOf c)) in *.
  set (hi := max (damageRangeOf c)) in *.
  assert (Hq : (0 < inject_Z (hi - lo))%Q) by (apply inject_Z_pos; lia).
  apply Qfloor_between.
  - setoid_replace (inject_Z lo) with (inject_Z lo + 0)%Q at 1 by ring.
    apply Qplus_le_r, Qmult_le_0_compat;
      [exact H0 | apply Qlt_le_weak; exact Hq].
  - setoid_replace (inject_Z hi)
      with (inject_Z lo + 1 * inject_Z (hi - lo))%Q
      by (unfold Z.sub; rewrite inject_Z_plus, inject_Z_opp; ring).
    apply Qplus_lt_r, Qmult_lt_compat_r; assumption.
Qed.

(** A draw of the top [1/n] of [0, 1), scaled by [n] and floored, is
    [n - 1]. *)
Lemma floor_roll_top (rnd : Q) (n : Z) :
  0 < n -> (1 - 1 / inject_Z n <= rnd)%Q -> (rnd < 1)%Q ->
  Qfloor (rnd * inject_Z n) = n - 1.
Proof.
  intros Hn Hlo Hhi.
  assert (Hq : (0 < inject_Z n)%Q) by (apply inject_Z_pos; exact Hn).
  assert (Hne : ~ (inject_Z n == 0)%Q) by (apply inject_Z_nonzero; exact Hn).
  enough (n - 1 <= Qfloor (rnd * inject_Z n) < n) by lia.
  apply Qfloor_between.
  - setoid_replace (inject_Z (n - 1))
      with ((1 - 1 / inject_Z n) * inject_Z n)%Q
      by (unfold Z.sub; rewrite inject_Z_plus, inject_Z_opp;
          change (inject_Z 1) with 1%Q; field; exact Hne).
    apply Qmult_le_compat_r; [exact Hlo | apply Qlt_le_weak; exact Hq].
  - setoid_replace (inject_Z n) with (1 * inject_Z n)%Q at 2 by ring.
    apply Qmult_lt_compat_r; assumption.
Qed.

Lemma away_from_one_unit (rnd : Q) : away_from_one rnd -> unit_interval rnd.
Proof.
  intros [H0 H1]; split; [exact H0 |].
  apply Qle_lt_trans with (1 - (1 # 4294967296))%Q; [exact H1 | reflexivity].
Qed.

(** C2.  The claim asks both damage rolls to draw uniformly from the
    whole range [min .. max] of the attacker's class.  The open-world roll
    does: it gives [max] on the top [1 / (max - min + 1)] of the draws.
    The duel's [calculateDamage] scales the draw by [max - min] instead of
    [max - min + 1]: for every valid class and every draw at least [2^-32]
    away from 1 its result is at most [max - 1], also where the open-world
    roll gives [max].  So it is at the draw 9/10 and at the draw
    [1 - 2^-32], in the doubles of the code as in exact arithmetic, for
    each of the five classes; rounding is monotone, so in doubles no draw
    up to [1 - 2^-32] rolls more than the draw [1 - 2^-32] does.  (In
    doubles the duel rolls [max] only when the rounding of the sum carries
    it up, for a draw within [2^-52] of 1:
    [ieee_rounding_beyond_the_game].) *)
Theorem C2_calculateDamage_misses_max :
  forall (c : string) (rnd : Q),
    In c classIds -> away_from_one rnd ->
    let range := damageRangeOf c in
    min range <= DuelGame.calculateDamage c rnd <= max range - 1
    /\ min range <= GameCanvas.baseDamage c rnd <= max range
    /\ ((1 - 1 / inject_Z (max range - min range + 1) <= rnd)%Q ->
        GameCanvas.baseDamage c rnd = max range)
    /\ DuelGame.calculateDamage c 0.9 = max range - 1
    /\ GameCanvas.baseDamage c 0.9 = max range
    /\ ieee_calculateDamage c ieee_nine_tenths = Some (max range - 1)
    /\ ieee_baseDamage c ieee_nine_tenths = Some (max range)
    /\ ieee_calculateDamage c ieee_near_one = Some (max range - 1)
    /\ ieee_baseDamage c ieee_near_one = Some (max range).
Proof.
  intros c rnd Hc Haway range; subst range.
  pose proof (away_from_one_unit rnd Haway) as Hr.
  pose proof (calculateDamage_below_max c rnd Hc Hr).
  pose proof (baseDamage_in_range c rnd Hc Hr).
  destruct (damageRange_valid c Hc) as [_ Hw].
  split; [lia |]. split; [lia |].
  split.
  { intro Htop; unfold GameCanvas.baseDamage; cbv zeta.
    rewrite (floor_roll_top rnd
               (max (damageRangeOf c) - min (damageRangeOf c) + 1));
      [lia | lia | exact Htop | exact (proj2 Hr)]. }
  clear - Hc; each_class Hc; repeat split; vm_compute; reflexivity.
Qed.

(** The brawler at the draw 99/100: the open world rolls 18, the duel
    17. *)
Lemma C2_calculateDamage_misses_max_witness :
  In "russia" classIds /\ away_from_one 0.99
  /\ DuelGame.calculateDamage "russia" 0.99 <= 18 - 1
  /\ GameCanvas.baseDamage "russia" 0.99 = 18.
Proof.
  assert (Hc : In "russia" classIds) by (simpl; auto 10).
  assert (Hr : away_from_one 0.99) by (split; discriminate).
  split; [exact Hc | split; [exact Hr |]].
  pose proof (C2_calculateDamage_misses_max "russia" 0.99 Hc Hr) as H.
  cbv zeta in H.
  split; [exact (proj2 (proj1 H)) |].
  apply (proj1 (proj2 (proj2 H))); discriminate.
Defined.

(** The open-world roll of [handleAttack] draws from the whole range of
    the attacker's class: every roll lies in [min .. max] and every value
    of [min .. max] is the roll of some draw. *)
Theorem handleAttack_roll_covers_range :
  forall c : string,
    In c classIds ->
    (forall rnd,
        unit_interval rnd ->
        min (damageRangeOf c) <= GameCanvas.baseDamage c rnd
          <= max (damageRangeOf c))
    /\ (forall v,
           min (damageRangeOf c) <= v <= max (damageRangeOf c) ->
           exists rnd, unit_interval rnd /\ GameCanvas.baseDamage c rnd = v).
Proof.
  intros c Hc; split.
  - intros rnd Hr; apply baseDamage_in_range; assumption.
  - intros v Hv; apply baseDamage_onto; assumption.
Qed.

Lemma handleAttack_roll_covers_range_witness :
  In "brazil" classIds
  /\ exists rnd, unit_interval rnd /\ GameCanvas.baseDamage "brazil" rnd = 14.
Proof.
  assert (Hc : In "brazil" classIds) by (simpl; auto 10).
  split; [exact Hc |].
  apply (proj2 (handleAttack_roll_covers_range "brazil" Hc) 14).
  cbn; lia.
Defined.

(** ** C1: defence mitigation *)

(** Flooring a non-negative damage scaled by a factor of at most 1 does
    not increase it. *)
Lemma Qfloor_scaled_le (d : Z) (m : Q) :
  0 <= d -> (m <= 1)%Q -> Qfloor (inject_Z d * m) <= d.
Proof.
  intros Hd Hm.
  rewrite <- (Qfloor_Z d) at 2; apply Qfloor_resp_le.
  setoid_replace (inject_Z d) with (1 * inject_Z d)%Q at 2 by ring.
  rewrite (Qmult_comm (inject_Z d) m).
  apply Qmult_le_compat_r; [exact Hm |].
  change 0%Q with (inject_Z 0); rewrite <- Zle_Qle; exact Hd.
Qed.

(** The game-over effect changes no health. *)
Lemma checkGameOver_healths (s : DuelGame.State) :
  DuelGame.playerHealth (DuelGame.checkGameOver s) = DuelGame.playerHealth s
  /\ DuelGame.opponentHealth (DuelGame.checkGameOver s)
     = DuelGame.opponentHealth s.
Proof.
  unfold DuelGame.checkGameOver.
  destruct (_ && _ && _); split; reflexivity.
Qed.

(** A mitigation of a tenth or more takes at least 1 off a positive
    damage. *)
Lemma mitigated_less (d : Z) (p : Q) :
  0 < d -> (1 # 10 <= p)%Q -> Qfloor (inject_Z d * (1 - p)) < d.
Proof.
  intros Hd Hp.
  apply Z.le_lt_trans with (Qfloor (inject_Z d * (9 # 10))).
  - apply Qfloor_resp_le.
    rewrite !(Qmult_comm (inject_Z d)).
    apply Qmult_le_compat_r;
      [| change 0%Q with (inject_Z 0); rewrite <- Zle_Qle; lia].
    setoid_replace (9 # 10)%Q with (1 - (1 # 10))%Q by reflexivity.
    apply Qplus_le_r, Qopp_le_compat; exact Hp.
  - rewrite Qfloor_scale.
    apply Z.div_lt_upper_bound; lia.
Qed.

(** C1.  The mitigation the claim describes, with its table, is what the
    open-world [handleAttack] applies to a defending target, for every raw
    damage from 0 to 89 (the rolls are 5 .. 18), and what the expression
    of the duel's [scheduleOpponentAttack] computes from an [isDefending]
    that is true.  But the callback of the running duel is a closure of
    the render in which the world was loaded and reads that render's
    [isDefending], which is false: a player who is defending takes the
    opponent's whole roll. *)
Theorem C1_duel_defence_not_applied :
  forall (defenderClass : string) (mitigationPercent : Q)
         (opponentCountry : string) (rnd : Q) (now : Z) (s : DuelGame.State),
    In (defenderClass, mitigationPercent)
       [("usa", 0.2); ("japan", 0.15); ("uk", 0.3); ("russia", 0.1);
        ("brazil", 0.25)]%Q ->
    In opponentCountry classIds ->
    unit_interval rnd ->
    DuelGame.isDefending s = true ->
    let rawDamage := DuelGame.calculateDamage opponentCountry rnd in
    let defended := Qfloor (inject_Z rawDamage * (1 - mitigationPercent)) in
    (* the running duel: the defence is not applied *)
    (exists s',
        DuelGame.step defenderClass opponentCountry now
          (DuelGame.OpponentAttacks DuelGame.worldLoadedRender rnd) s
        = Some s'
        /\ DuelGame.playerHealth s'
           = Z.max 0 (DuelGame.playerHealth s - rawDamage))
    (* the expression, from the current [isDefending] *)
    /\ 5 <= rawDamage <= 17
    /\ DuelGame.actualDamage rawDamage defenderClass (DuelGame.isDefending s)
       = defended
    /\ defended < rawDamage
    (* the open world *)
    /\ (forall (raw : Z) (defender : Game.OnlinePlayer),
           0 <= raw <= 89 ->
           Game.country defender = defenderClass ->
           GameCanvas.finalDamage raw (Game.set_isDefending true defender)
           = Qfloor (inject_Z raw * (1 - mitigationPercent))
           /\ GameCanvas.finalDamage raw
                (Game.set_isDefending false defender) = raw
           /\ Qfloor (inject_Z raw * (1 - mitigationPercent)) <= raw).
Proof.
  intros c p oc rnd now s Hin Hoc Hrnd Hdef rawDamage defended.
  assert (Hp : or_default (DEFENSE_VALUES c) 0.2 = p /\ (1 - p <= 1)%Q
               /\ (1 # 10 <= p)%Q).
  { simpl in Hin.
    repeat (destruct Hin as [Hin | Hin];
            [injection Hin as <- <-;
             split; [reflexivity | split; discriminate] |]).
    contradiction. }
  destruct Hp as (Hp & Hle & Hge).
  assert (Hraw : 5 <= rawDamage <= 17).
  { pose proof (calculateDamage_below_max oc rnd Hoc Hrnd) as H.
    fold rawDamage in H.
    assert (Hb : 5 <= min (damageRangeOf oc) /\ max (damageRangeOf oc) <= 18)
      by (clear - Hoc; each_class Hoc; cbn; lia).
    lia. }
  split.
  { eexists; split; [reflexivity |].
    rewrite (proj1 (checkGameOver_healths _)).
    reflexivity. }
  split; [exact Hraw |].
  split.
  { unfold DuelGame.actualDamage; rewrite Hdef, Hp; reflexivity. }
  split.
  { subst defended; apply mitigated_less; [lia | exact Hge]. }
  intros raw defender Hd Hc.
  unfold GameCanvas.finalDamage, GameCanvas.defenseMultiplier,
    Game.set_isDefending.
  cbv beta iota zeta delta [Game.isDefending Game.country].
  fold (Game.country defender); rewrite Hc, Hp.
  repeat split.
  - rewrite (Qfloor_comp _ (inject_Z raw)) by ring; apply Qfloor_Z.
  - apply Qfloor_scaled_le; [lia | exact Hle].
Qed.

(** The scenario of the claim in a duel: the knight is defending with 100
    health when the brawler rolls 15 (the draw 1/2).  The claim's damage
    is 10; the duel leaves the knight 85. *)
Lemma C1_duel_defence_not_applied_witness :
  let s := DuelGame.set_isDefending true
             (DuelGame.set_gameStarted true DuelGame.initialState) in
  (In ("uk", 0.3%Q)
      [("usa", 0.2); ("japan", 0.15); ("uk", 0.3); ("russia", 0.1);
       ("brazil", 0.25)]%Q
   /\ In "russia" classIds /\ unit_interval 0.5
   /\ DuelGame.isDefending s = true)
  /\ DuelGame.calculateDamage "russia" 0.5 = 15
  /\ Qfloor (inject_Z 15 * (1 - 0.3)) = 10
  /\ exists s',
       DuelGame.step "uk" "russia" 5000
         (DuelGame.OpponentAttacks DuelGame.worldLoadedRender 0.5) s
       = Some s'
       /\ DuelGame.playerHealth s' = 85.
Proof.
  intro s.
  assert (Hin : In ("uk", 0.3%Q)
                   [("usa", 0.2); ("japan", 0.15); ("uk", 0.3);
                    ("russia", 0.1); ("brazil", 0.25)]%Q)
    by (simpl; auto 10).
  assert (Hoc : In "russia" classIds) by (simpl; auto 10).
  assert (Hr : unit_interval 0.5) by (split; reflexivity || discriminate).
  assert (Hdef : DuelGame.isDefending s = true) by reflexivity.
  split; [repeat split; assumption || reflexivity || discriminate |].
  split; [reflexivity |]. split; [reflexivity |].
  destruct (C1_duel_defence_not_applied "uk" 0.3 "russia" 0.5 5000 s
              Hin Hoc Hr Hdef) as [(s' & Hstep & Hhealth) _].
  exists s'; split; [exact Hstep | exact Hhealth].
Defined.

(** ** The exact model against the doubles *)

(** For every class and every raw damage up to 89, which covers every
    damage a roll can produce (5 .. 18), the doubles of the code give the
    mitigated damage of the exact model.  (Beyond, the rounding of the
    double product can leave it just below an integer: for 90 against uk
    the doubles give 62 where the exact value is 63.) *)
Lemma ieee_mitigation_agrees (c : string) (d : Z) :
  In c classIds -> 0 <= d <= 89 ->
  ieee_mitigated d c = Some (DuelGame.actualDamage d c true).
Proof.
  intros Hc Hd.
  assert (Hin : In d (map Z.of_nat (seq 0 90)))
    by (apply in_map_iff; exists (Z.to_nat d); split;
        [lia | apply in_seq; lia]).
  assert (Hall : forall c',
             In c' classIds ->
             forallb
               (fun d' =>
                  match ieee_mitigated d' c' with
                  | Some z => z =? DuelGame.actualDamage d' c' true
                  | None => false
                  end)
               (map Z.of_nat (seq 0 90)) = true)
    by (intros c' Hc'; each_class Hc'; vm_compute; reflexivity).
  pose proof (proj1 (forallb_forall _ _) (Hall c Hc) d Hin) as H.
  cbv beta in H.
  destruct (ieee_mitigated d c) as [z |]; [| discriminate H].
  apply Z.eqb_eq in H; rewrite H; reflexivity.
Qed.

Lemma ieee_mitigation_agrees_witness :
  In "uk" classIds /\ 0 <= 15 <= 89
  /\ ieee_mitigated 15 "uk" = Some (DuelGame.actualDamage 15 "uk" true).
Proof.
  assert (Hc : In "uk" classIds) by (simpl; auto 10).
  assert (Hd : 0 <= 15 <= 89) by lia.
  exact (conj Hc (conj Hd (ieee_mitigation_agrees "uk" 15 Hc Hd))).
Defined.

(** The two rolls of the gunslinger at the draw 9/10, in doubles and
    exactly: the duel rolls 11, the open world 12.  (In doubles the duel's
    roll gives the maximum only for a draw so close to 1 that the rounding
    of the sum carries it up, as for the largest double below 1.) *)
Lemma ieee_rolls_agree_at_nine_tenths :
  ieee_calculateDamage "usa" ieee_nine_tenths
  = Some (DuelGame.calculateDamage "usa" 0.9)
  /\ ieee_baseDamage "usa" ieee_nine_tenths
     = Some (GameCanvas.baseDamage "usa" 0.9)
  /\ DuelGame.calculateDamage "usa" 0.9 = 11
  /\ GameCanvas.baseDamage "usa" 0.9 = 12.
Proof. repeat split; vm_compute; reflexivity. Qed.

(** Where the doubles leave the exact model: the mitigated damage of 90
    against uk, a damage no roll of the game produces, and the duel's roll
    at the largest double below 1, a draw that [Math.random()] returns
    once in [2^52] times or so. *)
Lemma ieee_rounding_beyond_the_game :
  ieee_mitigated 90 "uk" = Some 62
  /\ DuelGame.actualDamage 90 "uk" true = 63
  /\ ieee_calculateDamage "usa" ieee_below_one = Some 12.
Proof. repeat split; vm_compute; reflexivity. Qed.

(** ** Health is clamped at zero: the handlers *)

(** What the open-world [handleAttack] does to a target, by the health the
    attack leaves it: the attack is lethal exactly when
    [max(0, health - finalDamage)] is [0]. *)
Lemma handleAttack_outcome (sel : option GameCanvas.Character)
    (target : Game.OnlinePlayer) (now : Z) (rnd : Q) (s : GameCanvas.State) :
  let dmg :=
    GameCanvas.finalDamage
      (GameCanvas.baseDamage (GameCanvas.playerCountry sel) rnd) target in
  let left := Z.max 0 (Game.health target - dmg) in
  let s1 := GameCanvas.set_lastAttackTimeRef now s in
  GameCanvas.handleAttack sel (Some target) now rnd s
  = if left <=? 0
    then (GameCanvas.log (GameCanvas.Defeated (Game.name target))
            (GameCanvas.set_playerPoints (GameCanvas.playerPoints s + 1) s1),
          [GameCanvas.onPlayerDeath (Game.id target)])
    else (GameCanvas.log
            (GameCanvas.Hit (Game.name target) dmg (Game.isDefending target)) s1,
          [GameCanvas.onPlayerUpdate (Game.set_health left target)]).
Proof.
  cbv zeta; unfold GameCanvas.handleAttack, GameCanvas.updatedTargetPlayer.
  cbn [Game.health Game.set_health Game.set_points Game.set_respawnTime
         Game.set_isDead].
  destruct (Z.max 0 _ <=? 0) eqn:E; cbn [Game.health Game.set_health
    Game.set_points Game.set_respawnTime Game.set_isDead]; rewrite E;
    reflexivity.
Qed.


(** The respawn pass keeps every property of players that respawning
    keeps. *)
Lemma respawnPass_Forall (P : Game.OnlinePlayer -> Prop) (now : Z)
    (src : RandomSource) :
  (forall rndX rndY p, P p -> P (OpenSpaceGame.respawned rndX rndY p)) ->
  forall players n,
    Forall P players ->
    Forall P (fst (OpenSpaceGame.respawnPass now players src n)).
Proof.
  intros HP; induction players as [| p rest IH]; intros n Hall;
    [constructor |].
  inversion Hall as [| ? ? Hp Hrest]; subst.
  cbn [OpenSpaceGame.respawnPass]; unfold bind, ret, Math_random.
  destruct (OpenSpaceGame.respawnDue now p).
  - specialize (IH (S (S n)) Hrest).
    destruct (OpenSpaceGame.respawnPass now rest src (S (S n))); cbn in *.
    constructor; [apply HP; exact Hp | exact IH].
  - specialize (IH n Hrest).
    destruct (OpenSpaceGame.respawnPass now rest src n); cbn in *.
    constructor; assumption.
Qed.


(** ** C4: the duel's tie-break *)

(** The winner of [handleGameOver] when both parties are alive. *)
Lemma gameWinner_alive (playerHealth opponentHealth : Z) :
  0 < playerHealth -> 0 < opponentHealth ->
  DuelGame.gameWinner playerHealth opponentHealth
  = if opponentHealth <=? playerHealth
    then DuelGame.player else DuelGame.opponent.
Proof.
  intros Hp Ho; unfold DuelGame.gameWinner.
  destruct (Z.leb_spec playerHealth 0); [lia |].
  destruct (Z.leb_spec opponentHealth 0); [lia |].
  destruct (Z.eqb_spec playerHealth opponentHealth);
    destruct (Z.leb_spec opponentHealth playerHealth); try lia; try reflexivity;
    destruct (Z.gtb_spec playerHealth opponentHealth); try lia; reflexivity.
Qed.

(** C4.  [handleGameOver] compares the healths it reads as the claim
    says: with both parties alive the strictly higher health wins and a
    tie goes to the player.  But the interval of the timer is a closure of
    the render in which the world was loaded, and the [handleGameOver] it
    calls reads the healths of that render, 100 and 100: when the timer of
    the running duel reaches 0, the player is declared the winner whatever
    the healths are, also with strictly less health than the opponent,
    where [handleGameOver] on the current healths names the opponent. *)
Theorem C4_timer_expiry_ignores_health :
  forall (playerCountry opponentCountry : string) (now : Z)
         (s : DuelGame.State),
    DuelGame.timeRemaining s <= 1 ->
    (exists s',
        DuelGame.step playerCountry opponentCountry now
          (DuelGame.TimerTicks DuelGame.worldLoadedRender) s
        = Some s'
        /\ DuelGame.timeRemaining s' = 0
        /\ DuelGame.gameOver s' = true
        /\ DuelGame.winner s' = Some DuelGame.player)
    /\ (0 < DuelGame.playerHealth s < DuelGame.opponentHealth s ->
        DuelGame.winner (DuelGame.handleGameOver s s)
        = Some DuelGame.opponent)
    /\ (0 < DuelGame.opponentHealth s <= DuelGame.playerHealth s ->
        DuelGame.winner (DuelGame.handleGameOver s s)
        = Some DuelGame.player).
Proof.
  intros pc oc now s Ht; split.
  - eexists; split; [reflexivity |].
    unfold DuelGame.timerTick.
    destruct (Z.leb_spec (DuelGame.timeRemaining s) 1); [| lia].
    repeat split.
  - split; intros [H0 H1]; cbn; rewrite gameWinner_alive by lia;
      destruct (Z.leb_spec (DuelGame.opponentHealth s)
                  (DuelGame.playerHealth s)); try lia; reflexivity.
Qed.

(** The last tick of a duel in which the player has 40 health left and
    the opponent 70. *)
Lemma C4_timer_expiry_ignores_health_witness :
  let s := DuelGame.set_timeRemaining 1
             (DuelGame.set_opponentHealth 70
                (DuelGame.set_playerHealth 40
                   (DuelGame.set_gameStarted true DuelGame.initialState))) in
  DuelGame.timeRemaining s <= 1
  /\ DuelGame.playerHealth s = 40 /\ DuelGame.opponentHealth s = 70
  /\ exists s',
       DuelGame.step "usa" "japan" 63000
         (DuelGame.TimerTicks DuelGame.worldLoadedRender) s
       = Some s'
       /\ DuelGame.winner s' = Some DuelGame.player.
Proof.
  intro s.
  assert (Ht : DuelGame.timeRemaining s <= 1) by (cbn; lia).
  split; [exact Ht | split; [reflexivity | split; [reflexivity |]]].
  destruct (C4_timer_expiry_ignores_health "usa" "japan" 63000 s Ht)
    as [(s' & Hstep & _ & _ & Hwin) _].
  exists s'; split; [exact Hstep | exact Hwin].
Defined.

(** The interval callback is created once, by the effect that starts the
    duel, and [handleGameOver] reads the healths of the render of that
    effect.  If that render is the initial one, with both healths at
    [MAX_HEALTH], the player wins at the end of the timer whatever the
    current healths are. *)
Lemma timerTick_from_initial_render (s : DuelGame.State) :
  DuelGame.timeRemaining s <= 1 ->
  DuelGame.winner (DuelGame.timerTick DuelGame.initialState s)
  = Some DuelGame.player.
Proof.
  intro Ht; unfold DuelGame.timerTick.
  destruct (Z.leb_spec (DuelGame.timeRemaining s) 1); [| lia].
  reflexivity.
Qed.

Lemma timerTick_from_initial_render_witness :
  let s := DuelGame.set_timeRemaining 1
             (DuelGame.set_opponentHealth 70
                (DuelGame.set_playerHealth 40
                   (DuelGame.set_gameStarted true DuelGame.initialState))) in
  DuelGame.timeRemaining s <= 1
  /\ DuelGame.playerHealth s < DuelGame.opponentHealth s
  /\ DuelGame.winner (DuelGame.timerTick DuelGame.initialState s)
     = Some DuelGame.player
  /\ DuelGame.winner (DuelGame.timerTick s s) = Some DuelGame.opponent.
Proof.
  intro s.
  assert (Ht : DuelGame.timeRemaining s <= 1) by (cbn; lia).
  split; [exact Ht | split; [cbn; lia | split; [| reflexivity]]].
  exact (timerTick_from_initial_render s Ht).
Defined.


(** ** C6: the attack cooldown *)

(** The invariant of the duel's cooldown survives the passing of time. *)
Lemma duel_cooldown_inv_later (s : DuelGame.State) (clock now : Z)
    (last : option Z) :
  clock <= now -> duel_cooldown_inv s clock last ->
  duel_cooldown_inv s now last.
Proof.
  intros Hle; destruct last as [t0 |]; cbn; [| tauto].
  intros [H | (H1 & H2 & H3)]; [left; exact H | right; repeat split; auto; lia].
Qed.

Lemma checkGameOver_cooldown (s : DuelGame.State) :
  DuelGame.isAttackCooldown (DuelGame.checkGameOver s)
  = DuelGame.isAttackCooldown s
  /\ DuelGame.attackCooldownTimeouts (DuelGame.checkGameOver s)
     = DuelGame.attackCooldownTimeouts s.
Proof.
  unfold DuelGame.checkGameOver; destruct (_ && _ && _); split; reflexivity.
Qed.

Lemma duel_cooldown_invariant (pc oc : string) (s : DuelGame.State)
    (clock : Z) (last : option Z) :
  DuelGame.Run pc oc s clock last -> duel_cooldown_inv s clock last.
Proof.
  induction 1 as [t0 | s clock last now e s' Hrun IH Hle Hstep].
  - split; reflexivity.
  - apply (duel_cooldown_inv_later _ _ _ _ Hle) in IH.
    destruct e as [| rnd | | i | i | i | seen rnd | seen];
      cbn [DuelGame.accepted DuelGame.step] in *.
    + injection Hstep as <-.
      destruct (checkGameOver_cooldown (DuelGame.set_gameStarted true s))
        as [E1 E2].
      destruct last; cbn in *; rewrite E1, E2; exact IH.
    + injection Hstep as <-.
      destruct (checkGameOver_cooldown (DuelGame.handleAttack pc now rnd s))
        as [E1 E2].
      unfold duel_cooldown_inv; rewrite E1, E2; clear E1 E2.
      unfold DuelGame.handleAttack.
      destruct (DuelGame.isAttackCooldown s || DuelGame.gameOver s) eqn:E;
        cbn [negb]; [exact IH |].
      apply orb_false_elim in E; destruct E as [Ecd _].
      left; cbn; split; [reflexivity |].
      destruct last as [t0 |]; cbn in IH.
      * destruct IH as [[H _] | (_ & -> & _)]; [congruence | reflexivity].
      * destruct IH as [_ ->]; reflexivity.
    + injection Hstep as <-; unfold DuelGame.handleDefend.
      destruct (_ || _); exact IH.
    + unfold DuelGame.fire in Hstep.
      destruct last as [t0 |]; cbn in IH.
      * destruct IH as [[_ Ht] | (_ & Ht & _)]; rewrite Ht in Hstep.
        -- destruct i as [| i]; cbn in Hstep; [| destruct i; discriminate].
           destruct (Z.leb_spec (t0 + DuelGame.ATTACK_COOLDOWN) now);
             [| discriminate].
           injection Hstep as <-; right; cbn; repeat split; auto.
        -- destruct i; discriminate.
      * destruct IH as [_ Ht]; rewrite Ht in Hstep; destruct i; discriminate.
    + destruct (DuelGame.fire now i _); [| discriminate].
      injection Hstep as <-; exact IH.
    + destruct (DuelGame.fire now i _); [| discriminate].
      injection Hstep as <-; exact IH.
    + injection Hstep as <-.
      destruct (checkGameOver_cooldown
                  (DuelGame.opponentAttack pc oc rnd seen s)) as [E1 E2].
      unfold duel_cooldown_inv; rewrite E1, E2; clear E1 E2.
      unfold DuelGame.opponentAttack; destruct (negb _); exact IH.
    + injection Hstep as <-; unfold DuelGame.timerTick.
      destruct (_ <=? 1); exact IH.
Qed.

(** A click on the canvas either reaches [handleAttack], which requires
    the cooldown to be over and records [now] as the time of the attack, or
    makes no call and leaves the health, the points and the time of the
    last attack as they are; in the latter case the combat log gains at most
    one entry, which is no hit. *)
Lemma handleCanvasClick_cases (sel : option GameCanvas.Character)
    (players : list Game.OnlinePlayer) (click : Q * Q) (now : Z) (rnd : Q)
    (s : GameCanvas.State) :
  let r := GameCanvas.handleCanvasClick sel players click now rnd s in
  (snd r <> []
   /\ GameCanvas.ATTACK_COOLDOWN <= now - GameCanvas.lastAttackTimeRef s
   /\ GameCanvas.lastAttackTimeRef (fst r) = now)
  \/ (snd r = []
      /\ GameCanvas.lastAttackTimeRef (fst r) = GameCanvas.lastAttackTimeRef s
      /\ GameCanvas.playerPoints (fst r) = GameCanvas.playerPoints s
      /\ GameCanvas.playerHealth (fst r) = GameCanvas.playerHealth s
      /\ (GameCanvas.combatLog (fst r) = GameCanvas.combatLog s
          \/ GameCanvas.combatLog (fst r)
             = (GameCanvas.combatLog s ++ [GameCanvas.AttackOnCooldown])%list
          \/ exists name,
               GameCanvas.combatLog (fst r)
               = (GameCanvas.combatLog s ++ [GameCanvas.TargetSelected name])%list)).
Proof.
  cbv zeta; unfold GameCanvas.handleCanvasClick.
  destruct (GameCanvas.playerIsDead s); [right; cbn; auto 10 |].
  destruct (find _ players) as [clicked |]; [| right; cbn; auto 10].
  destruct (dist_le _ _ (inject_Z GameCanvas.ATTACK_RANGE_2D));
    [| right; cbn; repeat split; eauto].
  cbn [GameCanvas.lastAttackTimeRef GameCanvas.set_inRange
         GameCanvas.set_targetPlayer].
  destruct (Z.geb_spec (now - GameCanvas.lastAttackTimeRef s)
              GameCanvas.ATTACK_COOLDOWN) as [Hge | Hlt].
  - left; rewrite handleAttack_outcome.
    destruct (Z.max 0 _ <=? 0); cbn; repeat split; try discriminate; lia.
  - right; cbn; auto 10.
Qed.

(** The time of the last accepted attack is the one the canvas keeps in
    [lastAttackTimeRef]. *)
Lemma world_cooldown_invariant (sel : option GameCanvas.Character)
    (w : World.State) (clock : Z) (last : option Z) :
  World.Run sel w clock last ->
  GameCanvas.lastAttackTimeRef (World.canvas w)
  = match last with Some t0 => t0 | None => 0 end.
Proof.
  induction 1 as [t0 rndX rndY _ _ | w clock last now e w' Hrun IH Hle Hstep];
    [reflexivity |].
  destruct e as [npcs click rnd | | i | damage | i rndX rndY | src];
    cbn [World.accepted World.step] in *.
  - injection Hstep as <-; cbn [World.canvas World.after].
    destruct (handleCanvasClick_cases sel (World.onlinePlayers w ++ npcs)
                click now rnd (World.canvas w))
      as [(Hcalls & _ & Et) | (Hcalls & Et & _)].
    + destruct (snd _); [congruence | exact Et].
    + rewrite Hcalls, Et; exact IH.
  - injection Hstep as <-; cbn; unfold GameCanvas.handleDefend.
    destruct (_ <? GameCanvas.DEFENSE_COOLDOWN); exact IH.
  - destruct (DuelGame.fire now i _); [| discriminate].
    injection Hstep as <-; exact IH.
  - injection Hstep as <-; cbn [World.canvas World.after].
    unfold GameCanvas.takeDamage, GameCanvas.handlePlayerDeath.
    destruct (Z.max 0 _ <=? 0); [| exact IH].
    destruct sel; [| exact IH].
    destruct (GameCanvas.playerIsDead _); exact IH.
  - destruct (DuelGame.fire now i _); [| discriminate].
    injection Hstep as <-; exact IH.
  - injection Hstep as <-; exact IH.
Qed.

(** C6.  An attack requested strictly less than [ATTACK_COOLDOWN]
    (1000 ms) after the attacker's last accepted attack is rejected without
    effect.  In a duel [handleAttack] returns the state it was given.  In
    the open world [handleCanvasClick] makes no call to the page, so the
    roster (every target's health and points) is unchanged, and it leaves
    the player's [lastAttackTimeRef], points and health as they are; the
    click at most logs [AttackOnCooldown] (or the selection of a target
    that is out of range). *)
Theorem C6_attack_cooldown_rejects :
  (forall pc oc s clock t0 now rnd,
      DuelGame.Run pc oc s clock (Some t0) ->
      clock <= now ->
      now < t0 + DuelGame.ATTACK_COOLDOWN ->
      DuelGame.handleAttack pc now rnd s = s)
  /\ (forall sel w clock t0 now npcs click rnd,
         World.Run sel w clock (Some t0) ->
         clock <= now ->
         now < t0 + GameCanvas.ATTACK_COOLDOWN ->
         let r := GameCanvas.handleCanvasClick sel
                    (World.onlinePlayers w ++ npcs) click now rnd
                    (World.canvas w) in
         snd r = []
         /\ World.onlinePlayers (World.after now w r) = World.onlinePlayers w
         /\ GameCanvas.lastAttackTimeRef (fst r) = t0
         /\ GameCanvas.playerPoints (fst r)
            = GameCanvas.playerPoints (World.canvas w)
         /\ GameCanvas.playerHealth (fst r)
            = GameCanvas.playerHealth (World.canvas w)
         /\ (GameCanvas.combatLog (fst r)
             = GameCanvas.combatLog (World.canvas w)
             \/ GameCanvas.combatLog (fst r)
                = (GameCanvas.combatLog (World.canvas w)
                   ++ [GameCanvas.AttackOnCooldown])%list
             \/ exists name,
                  GameCanvas.combatLog (fst r)
                  = (GameCanvas.combatLog (World.canvas w)
                     ++ [GameCanvas.TargetSelected name])%list)).
Proof.
  split.
  - intros pc oc s clock t0 now rnd Hrun Hle Hlt.
    pose proof (duel_cooldown_invariant pc oc s clock (Some t0) Hrun) as Hinv.
    cbn in Hinv; unfold DuelGame.handleAttack.
    destruct Hinv as [[-> _] | (_ & _ & Hdone)]; [reflexivity | lia].
  - intros sel w clock t0 now npcs click rnd Hrun Hle Hlt r.
    pose proof (world_cooldown_invariant sel w clock (Some t0) Hrun) as Hinv.
    cbn in Hinv.
    destruct (handleCanvasClick_cases sel (World.onlinePlayers w ++ npcs)
                click now rnd (World.canvas w))
      as [(_ & Hcd & _) | (Hcalls & Et & Ep & Eh & Hlog)]; [lia |].
    fold r in Hcalls, Et, Ep, Eh, Hlog.
    repeat split; try assumption; try congruence.
    unfold World.after; rewrite Hcalls; reflexivity.
Qed.

(** The gunslinger is placed on Player4 (the draws 1/2 and 21/67 give the
    position (400, 200)), attacks it at time 5000 and clicks it again
    400 ms later. *)
Lemma C6_attack_cooldown_rejects_witness :
  let sel := Some {| GameCanvas.characterId := "me";
                     GameCanvas.characterCountry := "usa" |} in
  exists w,
    World.Run sel w 5000 (Some 5000)
    /\ In (GameCanvas.Hit "Player4" 10 false)
          (GameCanvas.combatLog (World.canvas w))
    /\ GameCanvas.combatLog
         (fst (GameCanvas.handleCanvasClick sel (World.onlinePlayers w ++ [])
                 (400, 205)%Q 5400 0.5%Q (World.canvas w)))
       = (GameCanvas.combatLog (World.canvas w)
          ++ [GameCanvas.AttackOnCooldown])%list
    /\ snd (GameCanvas.handleCanvasClick sel (World.onlinePlayers w ++ [])
              (400, 205)%Q 5400 0.5%Q (World.canvas w)) = [].
Proof.
  intro sel.
  pose (click := World.CanvasClick [] (400, 205)%Q 0.5%Q).
  pose (w0 := World.initialState (1 # 2)%Q (21 # 67)%Q).
  pose (w := World.after 5000 w0
               (GameCanvas.handleCanvasClick sel (World.onlinePlayers w0 ++ [])
                  (400, 205)%Q 5000 0.5%Q (World.canvas w0))).
  assert (Hx : unit_interval (1 # 2)%Q) by (split; reflexivity || discriminate).
  assert (Hy : unit_interval (21 # 67)%Q) by (split; reflexivity || discriminate).
  assert (Hrun : World.Run sel w 5000 (Some 5000)).
  { replace (Some 5000)
      with (if World.accepted sel 5000 click w0 then Some 5000 else None)
      by (vm_compute; reflexivity).
    apply (World.Run_step sel w0 0 None 5000 click w
             (World.Run_start sel 0 (1 # 2)%Q (21 # 67)%Q Hx Hy));
      [lia | reflexivity]. }
  exists w.
  split; [exact Hrun |].
  split; [vm_compute; auto |].
  split; [vm_compute; reflexivity |].
  assert (Hle : 5000 <= 5400) by lia.
  assert (Hlt : 5400 < 5000 + GameCanvas.ATTACK_COOLDOWN)
    by (vm_compute; reflexivity).
  exact (proj1 (proj2 C6_attack_cooldown_rejects sel w 5000 5000 5400 []
                  (400, 205)%Q 0.5%Q Hrun Hle Hlt)).
Defined.

(** ** Death and respawn: the respawn pass *)

(** A draw scaled to a side of the map, 64 short of it, and shifted by 32
    lies between 32 and 32 short of the side. *)
Lemma spawn_coordinate (rnd : Q) (side : Z) :
  unit_interval rnd -> 64 < side ->
  (32 <= rnd * inject_Z (side - 64) + 32)%Q
  /\ (rnd * inject_Z (side - 64) + 32 < inject_Z side - 32)%Q.
Proof.
  intros [H0 H1] Hside.
  assert (Hq : (0 < inject_Z (side - 64))%Q) by (apply inject_Z_pos; lia).
  split.
  - setoid_replace 32%Q with (0 + 32)%Q at 1 by ring.
    apply Qplus_le_l, Qmult_le_0_compat;
      [exact H0 | apply Qlt_le_weak; exact Hq].
  - setoid_replace (inject_Z side - 32)%Q
      with (1 * inject_Z (side - 64) + 32)%Q
      by (unfold Z.sub; rewrite inject_Z_plus, inject_Z_opp;
          change (inject_Z 64) with 64%Q; ring).
    apply Qplus_lt_l, Qmult_lt_compat_r; assumption.
Qed.


(** ** C8: the attack of an NPC and the attack of a player *)

(** C8.  [processNPCAttack] does not resolve damage by the rules of the
    player's [handleAttack]: whatever the class of the NPC it rolls in
    5 .. 15, and a defending target takes half of the roll, rounded down,
    whatever its class.  With the same attacker class (russia), the same
    defending uk defender of health 100 and the same draw 0.99, the
    player's attack deals 12 (18 rolled, 30% mitigated) and leaves 88, the
    NPC's attack deals 7 (15 rolled, halved) and leaves 93. *)
Theorem C8_npc_attack_differs_from_player_attack :
  let defender :=
    Game.set_isDefending true (World.mockPlayer "3" "Player3" 300 100 "uk") in
  let brawler :=
    {| GameCanvas.characterId := "me"; GameCanvas.characterCountry := "russia" |} in
  let npc :=
    {| Game.id := "npc-1"; Game.name := "NPC 1"; Game.x := 301; Game.y := 100;
       Game.country := "russia"; Game.health := 100; Game.maxHealth := 100;
       Game.points := 3; Game.lastAttackTime := 0; Game.lastDefendTime := 0;
       Game.isDefending := false; Game.isAttacking := false;
       Game.isDead := false; Game.respawnTime := None; Game.isNPC := true;
       Game.aiType := Some "aggressive" |} in
  let ai := NpcAiEngine.createAIState NpcAiEngine.AGGRESSIVE in
  (forall rnd, NpcAiEngine.npcDamage rnd = Qfloor (rnd * 11) + 5)
  /\ (forall damage target,
         NpcAiEngine.npcActualDamage damage target
         = if Game.isDefending target then damage / 2 else damage)
  /\ snd (GameCanvas.handleAttack (Some brawler) (Some defender) 5000 0.99
            GameCanvas.initialState)
     = [GameCanvas.onPlayerUpdate (Game.set_health 88 defender)]
  /\ option_map Game.health
       (NpcAiEngine.updatedTarget
          (fst (NpcAiEngine.processNPCAttack npc (Some "3") [defender] ai 5000
                  (fun _ => 0.99%Q) 0%nat)))
     = Some 93
  /\ GameCanvas.finalDamage (GameCanvas.baseDamage "russia" 0.99) defender = 12
  /\ NpcAiEngine.npcActualDamage (NpcAiEngine.npcDamage 0.99) defender = 7.
Proof.
  cbv zeta; repeat apply conj; try (vm_compute; reflexivity).
  intros damage target; unfold NpcAiEngine.npcActualDamage.
  destruct (Game.isDefending target); [| reflexivity].
  unfold Qfloor, Qdiv, Qmult, Qinv, inject_Z; cbn.
  rewrite Z.mul_1_r; reflexivity.
Qed.

(** ** C9: arrival at the wander target *)

(** With no flee target and no target, [determineNextAction] heads for the
    wander target, or stands still once it is less than 0.5 away; it draws
    no random value. *)
Lemma determineNextAction_wandering (M : MathFns) (npc : Game.OnlinePlayer)
    (ai : NpcAiEngine.AIState) (players : list Game.OnlinePlayer)
    (config : NpcAiEngine.AIConfig) (now : Z) (src : RandomSource) (n : nat)
    (w : NpcAiEngine.Vector3) :
  NpcAiEngine.targetId ai = None ->
  NpcAiEngine.fleeTarget ai = None ->
  NpcAiEngine.wanderTarget ai = Some w ->
  NpcAiEngine.determineNextAction M npc ai players config now src n
  = ({| NpcAiEngine.moveDirection :=
          if dist_lt (NpcAiEngine.vx w - Game.x npc)
                     (NpcAiEngine.vz w - Game.y npc) 0.5
          then None
          else Some (NpcAiEngine.normalize M
                       {| NpcAiEngine.vx := NpcAiEngine.vx w - Game.x npc;
                          NpcAiEngine.vy := 0;
                          NpcAiEngine.vz := NpcAiEngine.vz w - Game.y npc |});
        NpcAiEngine.shouldAttack := false;
        NpcAiEngine.shouldDefend := false;
        NpcAiEngine.actionTargetId := None |}, n).
Proof.
  intros Ht Hf Hw; unfold NpcAiEngine.determineNextAction.
  rewrite Ht, Hf, Hw; reflexivity.
Qed.

(** An aggressive NPC that has a wander target and finds no player keeps
    its wander target through [updateAIState], whether or not a decision is
    due, and draws no random value. *)
Lemma updateAIState_keeps_wanderTarget (M : MathFns)
    (npc : Game.OnlinePlayer) (ai : NpcAiEngine.AIState)
    (players : list Game.OnlinePlayer) (spawn : NpcAiEngine.Vector3)
    (config : NpcAiEngine.AIConfig) (now : Z) (src : RandomSource) (n : nat)
    (w : NpcAiEngine.Vector3) :
  NpcAiEngine.behaviorType ai = NpcAiEngine.AGGRESSIVE ->
  NpcAiEngine.targetId ai = None ->
  NpcAiEngine.fleeTarget ai = None ->
  NpcAiEngine.wanderTarget ai = Some w ->
  NpcAiEngine.findNearestPlayer npc players Infinity = None ->
  let r := NpcAiEngine.updateAIState M npc ai players spawn config now src n in
  snd r = n
  /\ NpcAiEngine.targetId (fst r) = None
  /\ NpcAiEngine.fleeTarget (fst r) = None
  /\ NpcAiEngine.wanderTarget (fst r) = Some w.
Proof.
  intros Hb Ht Hf Hw Hnear; cbv zeta; unfold NpcAiEngine.updateAIState.
  destruct (NpcAiEngine.isResting ai && _); [cbn; auto |].
  destruct (negb _); [cbn; auto |].
  rewrite Hb; cbn [NpcAiEngine.AIBehaviorType_eqb negb andb]; rewrite Hnear.
  rewrite andb_true_r, andb_false_r.
  destruct (div_leb _ _ _);
    cbn [NpcAiEngine.behaviorType NpcAiEngine.set_behaviorType
           NpcAiEngine.set_isResting NpcAiEngine.set_lastDecisionTime
           NpcAiEngine.wanderTarget];
    rewrite ?Hb, Hw; cbn; auto.
Qed.

(** [updateNPC] on an NPC that has arrived at its wander target, for an
    aggressive NPC that finds no player: the NPC is returned where it was
    (with its two flags reset) and the AI state is the one [updateAIState]
    gives. *)
Lemma updateNPC_arrived (M : MathFns) (npc : Game.OnlinePlayer)
    (ai : NpcAiEngine.AIState) (players : list Game.OnlinePlayer)
    (spawn : NpcAiEngine.Vector3) (deltaTime : Q)
    (config : NpcAiEngine.AIConfig) (now : Z) (src : RandomSource) (n : nat)
    (w : NpcAiEngine.Vector3) :
  Game.isDead npc = false ->
  NpcAiEngine.behaviorType ai = NpcAiEngine.AGGRESSIVE ->
  NpcAiEngine.targetId ai = None ->
  NpcAiEngine.fleeTarget ai = None ->
  NpcAiEngine.wanderTarget ai = Some w ->
  NpcAiEngine.findNearestPlayer npc players Infinity = None ->
  dist_lt (NpcAiEngine.vx w - Game.x npc) (NpcAiEngine.vz w - Game.y npc) 0.5
  = true ->
  fst (NpcAiEngine.updateNPC M npc ai players spawn deltaTime config now src n)
  = {| NpcAiEngine.updatedNPC :=
         Game.set_isDefending false (Game.set_isAttacking false npc);
       NpcAiEngine.updatedTarget := None;
       NpcAiEngine.updatedAIState :=
         fst (NpcAiEngine.updateAIState M npc ai players spawn config now
                src n) |}.
Proof.
  intros Halive Hb Ht Hf Hw Hnear Harr.
  unfold NpcAiEngine.updateNPC; rewrite Halive; unfold bind at 1.
  pose proof (updateAIState_keeps_wanderTarget M npc ai players spawn config
                now src n w Hb Ht Hf Hw Hnear) as (En & Et' & Ef' & Ew').
  destruct (NpcAiEngine.updateAIState M npc ai players spawn config now src n)
    as [ai' n']; cbn [fst snd] in *; subst n'.
  unfold bind at 1.
  rewrite (determineNextAction_wandering M npc ai' players config now src n w
             Et' Ef' Ew'), Harr.
  reflexivity.
Qed.

(** C9.  In the wandering branch (no flee target, no target)
    [determineNextAction] heads for the wander target while it is at
    least 0.5 away.  Once the NPC is less than 0.5 away the move direction
    is none, but the wander target is not cleared: [updateNPC] returns an
    AI state that still holds it and an NPC that has not moved, here for
    an aggressive NPC that finds no player, which only picks a new wander
    target when it has none. *)
Theorem C9_wander_target_not_cleared :
  forall (M : MathFns) (npc : Game.OnlinePlayer) (ai : NpcAiEngine.AIState)
         (players : list Game.OnlinePlayer) (spawn : NpcAiEngine.Vector3)
         (deltaTime : Q) (config : NpcAiEngine.AIConfig) (now : Z)
         (src : RandomSource) (n : nat) (w : NpcAiEngine.Vector3),
    Game.isDead npc = false ->
    NpcAiEngine.behaviorType ai = NpcAiEngine.AGGRESSIVE ->
    NpcAiEngine.targetId ai = None ->
    NpcAiEngine.fleeTarget ai = None ->
    NpcAiEngine.wanderTarget ai = Some w ->
    NpcAiEngine.findNearestPlayer npc players Infinity = None ->
    let arrived :=
      dist_lt (NpcAiEngine.vx w - Game.x npc) (NpcAiEngine.vz w - Game.y npc)
        0.5 in
    let a :=
      fst (NpcAiEngine.determineNextAction M npc ai players config now src n) in
    let r :=
      fst (NpcAiEngine.updateNPC M npc ai players spawn deltaTime config now
             src n) in
    (arrived = false ->
     NpcAiEngine.moveDirection a
     = Some (NpcAiEngine.normalize M
               {| NpcAiEngine.vx := NpcAiEngine.vx w - Game.x npc;
                  NpcAiEngine.vy := 0;
                  NpcAiEngine.vz := NpcAiEngine.vz w - Game.y npc |}))
    /\ (arrived = true ->
        NpcAiEngine.moveDirection a = None
        /\ NpcAiEngine.wanderTarget (NpcAiEngine.updatedAIState r) = Some w
        /\ Game.x (NpcAiEngine.updatedNPC r) = Game.x npc
        /\ Game.y (NpcAiEngine.updatedNPC r) = Game.y npc).
Proof.
  intros M npc ai players spawn dt config now src n w
         Halive Hb Ht Hf Hw Hnear arrived a r.
  subst a r; rewrite (determineNextAction_wandering M npc ai players config
                        now src n w Ht Hf Hw); fold arrived.
  split; [intros ->; reflexivity |].
  intros Harr; rewrite Harr; split; [reflexivity |].
  rewrite (updateNPC_arrived M npc ai players spawn dt config now src n w
             Halive Hb Ht Hf Hw Hnear Harr).
  pose proof (updateAIState_keeps_wanderTarget M npc ai players spawn config
                now src n w Hb Ht Hf Hw Hnear) as (_ & _ & _ & Ew').
  cbn; auto.
Qed.

(** An aggressive NPC at (10, 10), alone in the world, whose wander target
    (10.2, 0, 10.3) is less than 0.5 away: whatever the decision time and
    the math functions, it stays where it is and keeps the target. *)
Lemma C9_wander_target_not_cleared_witness :
  let npc :=
    {| Game.id := "npc-1"; Game.name := "NPC 1"; Game.x := 10; Game.y := 10;
       Game.country := "usa"; Game.health := 100; Game.maxHealth := 100;
       Game.points := 3; Game.lastAttackTime := 0; Game.lastDefendTime := 0;
       Game.isDefending := false; Game.isAttacking := false;
       Game.isDead := false; Game.respawnTime := None; Game.isNPC := true;
       Game.aiType := Some "aggressive" |} in
  let w := {| NpcAiEngine.vx := 10.2; NpcAiEngine.vy := 0;
              NpcAiEngine.vz := 10.3 |} in
  let ai := NpcAiEngine.set_wanderTarget (Some w)
              (NpcAiEngine.createAIState NpcAiEngine.AGGRESSIVE) in
  dist_lt (NpcAiEngine.vx w - Game.x npc) (NpcAiEngine.vz w - Game.y npc) 0.5
  = true
  /\ NpcAiEngine.findNearestPlayer npc [npc] Infinity = None
  /\ forall (M : MathFns) (now : Z),
       let r := fst (NpcAiEngine.updateNPC M npc ai [npc] w (1 # 60)
                       NpcAiEngine.DEFAULT_AI_CONFIG now (fun _ => 0.5%Q)
                       0%nat) in
       NpcAiEngine.wanderTarget (NpcAiEngine.updatedAIState r) = Some w
       /\ Game.x (NpcAiEngine.updatedNPC r) = 10%Q
       /\ Game.y (NpcAiEngine.updatedNPC r) = 10%Q.
Proof.
  intros npc w ai.
  assert (Harr : dist_lt (NpcAiEngine.vx w - Game.x npc)
                   (NpcAiEngine.vz w - Game.y npc) 0.5 = true)
    by (vm_compute; reflexivity).
  assert (Hnear : NpcAiEngine.findNearestPlayer npc [npc] Infinity = None)
    by (vm_compute; reflexivity).
  split; [exact Harr | split; [exact Hnear |]].
  intros M now.
  exact (proj2 (proj2 (C9_wander_target_not_cleared M npc ai [npc] w (1 # 60)
                         NpcAiEngine.DEFAULT_AI_CONFIG now (fun _ => 0.5%Q)
                         0%nat w eq_refl eq_refl eq_refl eq_refl eq_refl
                         Hnear) Harr)).
Defined.

(** ** C5: stale targets *)

(** [findNearestPlayer] returns a candidate. *)
Lemma findNearestPlayer_candidate (npc : Game.OnlinePlayer)
    (players : list Game.OnlinePlayer) (maxDistance : Distance)
    (p : Game.OnlinePlayer) :
  NpcAiEngine.findNearestPlayer npc players maxDistance = Some p ->
  candidate npc players p.
Proof.
  unfold NpcAiEngine.findNearestPlayer.
  assert (H : forall l acc,
             (forall q, fst acc = Some q -> candidate npc players q) ->
             (forall q, In q l -> In q players) ->
             forall q,
               fst (fold_left
                      (fun '(nearestPlayer, nearestDistance) player =>
                         if String.eqb (Game.id player) (Game.id npc)
                            || Game.isDead player || Game.isNPC player
                         then (nearestPlayer, nearestDistance)
                         else
                           if Distance_ltb
                                (NpcAiEngine.calculateDistance npc player)
                                nearestDistance
                           then (Some player,
                                 NpcAiEngine.calculateDistance npc player)
                           else (nearestPlayer, nearestDistance))
                      l acc) = Some q ->
               candidate npc players q).
  { induction l as [| x l IH]; intros [best bound] Hacc Hsub q;
      cbn [fold_left]; [apply Hacc |].
    apply IH; [| intros; apply Hsub; right; assumption].
    destruct (String.eqb (Game.id x) (Game.id npc)) eqn:E1;
      cbn [orb]; [exact Hacc |].
    destruct (Game.isDead x) eqn:E2; cbn [orb]; [exact Hacc |].
    destruct (Game.isNPC x) eqn:E3; [exact Hacc |].
    destruct (Distance_ltb (NpcAiEngine.calculateDistance npc x) bound);
      [| exact Hacc].
    cbn [fst]; intros q' Hq; injection Hq as <-.
    repeat split; auto; apply Hsub; left; reflexivity. }
  apply H; [cbn; discriminate | auto].
Qed.






(** * Further properties of the code *)

(** ** The NPC AI engine: [findNearestPlayer] *)

Lemma Qlt_bool_iff (a b : Q) : Qlt_bool a b = true <-> (a < b)%Q.
Proof.
  unfold Qlt_bool; rewrite negb_true_iff; split; intro H.
  - apply Qnot_le_lt; intro Hle; apply Qle_bool_iff in Hle; congruence.
  - destruct (Qle_bool b a) eqn:E; [| reflexivity].
    apply Qle_bool_iff in E; exfalso; exact (Qlt_not_le _ _ H E).
Qed.

Lemma Distance_ltb_irrefl (d : Distance) : Distance_ltb d d = false.
Proof.
  destruct d as [| a]; [reflexivity |]; cbn.
  destruct (Qlt_bool a a) eqn:E; [| reflexivity].
  apply Qlt_bool_iff in E; exfalso; exact (Qlt_irrefl _ E).
Qed.

Lemma Distance_ltb_trans (d1 d2 d3 : Distance) :
  Distance_ltb d1 d2 = true -> Distance_ltb d2 d3 = true ->
  Distance_ltb d1 d3 = true.
Proof.
  destruct d1 as [| a], d2 as [| b], d3 as [| c]; cbn;
    try discriminate; try reflexivity.
  rewrite !Qlt_bool_iff; apply Qlt_trans.
Qed.

(** A distance that is not below a bound is not below a smaller one. *)
Lemma Distance_ltb_lower (d bound bound' : Distance) :
  Distance_ltb d bound = false ->
  Distance_ltb bound' bound = true \/ bound' = bound ->
  Distance_ltb d bound' = false.
Proof.
  intros Hd [Hlt | ->]; [| exact Hd].
  destruct (Distance_ltb d bound') eqn:E; [| reflexivity].
  rewrite (Distance_ltb_trans _ _ _ E Hlt) in Hd; discriminate.
Qed.

(** The loop of [findNearestPlayer], started from any pair of its two
    variables: no player it has not skipped is strictly nearer than the
    final distance, and the final pair is either the initial one or a
    player of the list, not skipped, with its distance, strictly below the
    initial bound. *)
Lemma findNearestPlayer_loop (npc : Game.OnlinePlayer)
    (l : list Game.OnlinePlayer) :
  forall (best : option Game.OnlinePlayer) (bound : Distance),
    let r :=
      fold_left
        (fun '(nearestPlayer, nearestDistance) player =>
           if String.eqb (Game.id player) (Game.id npc)
              || Game.isDead player || Game.isNPC player
           then (nearestPlayer, nearestDistance)
           else
             if Distance_ltb (NpcAiEngine.calculateDistance npc player)
                  nearestDistance
             then (Some player, NpcAiEngine.calculateDistance npc player)
             else (nearestPlayer, nearestDistance))
        l (best, bound) in
    (forall q, In q l ->
               String.eqb (Game.id q) (Game.id npc)
               || Game.isDead q || Game.isNPC q = false ->
               Distance_ltb (NpcAiEngine.calculateDistance npc q) (snd r)
               = false)
    /\ (r = (best, bound)
        \/ exists p,
             fst r = Some p /\ In p l
             /\ String.eqb (Game.id p) (Game.id npc)
                || Game.isDead p || Game.isNPC p = false
             /\ snd r = NpcAiEngine.calculateDistance npc p
             /\ Distance_ltb (snd r) bound = true).
Proof.
  induction l as [| x l IH]; intros best bound; cbn [fold_left].
  - split; [intros q [] | left; reflexivity].
  - set (skip := String.eqb (Game.id x) (Game.id npc)
                 || Game.isDead x || Game.isNPC x).
    destruct skip eqn:Hskip.
    + destruct (IH best bound) as [Hmin Hres]; split.
      * intros q [<- | Hq] Hq'; [unfold skip in Hskip; congruence |].
        apply Hmin; assumption.
      * destruct Hres as [E | (p & E1 & E2 & E3 & E4 & E5)];
          [left; exact E |].
        right; exists p; repeat split; auto; right; exact E2.
    + destruct (Distance_ltb (NpcAiEngine.calculateDistance npc x) bound)
        eqn:Hlt.
      * destruct (IH (Some x) (NpcAiEngine.calculateDistance npc x))
          as [Hmin Hres]; split.
        -- intros q [<- | Hq] Hq'; [| apply Hmin; assumption].
           apply Distance_ltb_lower
             with (bound := NpcAiEngine.calculateDistance npc x);
             [apply Distance_ltb_irrefl |].
           destruct Hres as [-> | (p & _ & _ & _ & _ & E5)];
             [right; reflexivity | left; exact E5].
        -- right.
           destruct Hres as [-> | (p & E1 & E2 & E3 & E4 & E5)].
           ++ exists x; cbn [fst snd]; repeat split; auto.
              left; reflexivity.
           ++ exists p; repeat split; auto; [right; exact E2 |].
              exact (Distance_ltb_trans _ _ _ E5 Hlt).
      * destruct (IH best bound) as [Hmin Hres]; split.
        -- intros q [<- | Hq] Hq'; [| apply Hmin; assumption].
           apply Distance_ltb_lower with (bound := bound); [exact Hlt |].
           destruct Hres as [-> | (p & _ & _ & _ & _ & E5)];
             [right; reflexivity | left; exact E5].
        -- destruct Hres as [E | (p & E1 & E2 & E3 & E4 & E5)];
             [left; exact E |].
           right; exists p; repeat split; auto; right; exact E2.
Qed.

Lemma not_skipped_iff (npc q : Game.OnlinePlayer) :
  String.eqb (Game.id q) (Game.id npc) || Game.isDead q || Game.isNPC q
  = false
  <-> String.eqb (Game.id q) (Game.id npc) = false
      /\ Game.isDead q = false /\ Game.isNPC q = false.
Proof.
  rewrite !orb_false_iff; tauto.
Qed.

(** [findNearestPlayer] returns a nearest candidate strictly within
    [maxDistance]: the player it returns is in the list, is not the NPC
    itself, is alive and is not an NPC, is strictly nearer than
    [maxDistance], and no such player is strictly nearer; it returns
    nothing exactly when no such player is strictly within [maxDistance]. *)
Theorem findNearestPlayer_nearest :
  forall (npc : Game.OnlinePlayer) (players : list Game.OnlinePlayer)
         (maxDistance : Distance),
    match NpcAiEngine.findNearestPlayer npc players maxDistance with
    | Some p =>
        candidate npc players p
        /\ Distance_ltb (NpcAiEngine.calculateDistance npc p) maxDistance
           = true
        /\ forall q, candidate npc players q ->
                     Distance_ltb (NpcAiEngine.calculateDistance npc q)
                       (NpcAiEngine.calculateDistance npc p) = false
    | None =>
        forall q, candidate npc players q ->
                  Distance_ltb (NpcAiEngine.calculateDistance npc q)
                    maxDistance = false
    end.
Proof.
  intros npc players maxDistance; unfold NpcAiEngine.findNearestPlayer.
  pose proof (findNearestPlayer_loop npc players None maxDistance)
    as [Hmin Hres]; cbv zeta in Hmin, Hres.
  destruct (fold_left _ players (None, maxDistance)) as [best bound];
    cbn [fst snd] in *.
  destruct Hres as [E | (p & E1 & E2 & E3 & E4 & E5)].
  - injection E as -> ->.
    intros q (Hin & Hq); apply Hmin; [exact Hin |].
    apply not_skipped_iff; exact Hq.
  - subst best bound; apply not_skipped_iff in E3.
    split; [split; assumption |]; split; [exact E5 |].
    intros q (Hin & Hq); apply Hmin; [exact Hin |].
    apply not_skipped_iff; exact Hq.
Qed.

(** ** The NPC AI engine: decisions *)

(** Walks through the branches of [updateAIState] once the two early
    returns are passed. *)
Ltac updateAIState_branches ai :=
  destruct (div_leb _ _ _ && _); [| destruct (div_gtb _ _ _ && _)];
  cbn [NpcAiEngine.behaviorType NpcAiEngine.set_behaviorType
         NpcAiEngine.set_isResting NpcAiEngine.set_lastDecisionTime
         NpcAiEngine.wanderTarget];
  destruct (NpcAiEngine.behaviorType ai);
  unfold bind, ret, Math_random, NpcAiEngine.wander,
    NpcAiEngine.generateWanderTarget, NpcAiEngine.engage;
  repeat match goal with
         | |- context [if ?c then _ else _] => destruct c
         | |- context [match NpcAiEngine.wanderTarget ?a with _ => _ end] =>
             destruct (NpcAiEngine.wanderTarget a)
         | |- context [match NpcAiEngine.findNearestPlayer ?a ?b ?c
                       with _ => _ end] =>
             destruct (NpcAiEngine.findNearestPlayer a b c)
         end;
  cbn.

(** [updateAIState] either returns the state it was given, drawing no
    random value, or makes a decision, which is due and is stamped with
    the time; it never touches the attack and defend times nor
    [restUntil]. *)
Lemma updateAIState_stamp (M : MathFns) (npc : Game.OnlinePlayer)
    (ai : NpcAiEngine.AIState) (players : list Game.OnlinePlayer)
    (spawn : NpcAiEngine.Vector3) (config : NpcAiEngine.AIConfig) (now : Z)
    (src : RandomSource) (n : nat) :
  let r := NpcAiEngine.updateAIState M npc ai players spawn config now src n in
  (r = (ai, n)
   \/ (NpcAiEngine.lastDecisionTime (fst r) = now
       /\ NpcAiEngine.isResting (fst r) = false
       /\ NpcAiEngine.decisionInterval config
          <= now - NpcAiEngine.lastDecisionTime ai))
  /\ NpcAiEngine.lastAttackTime (fst r) = NpcAiEngine.lastAttackTime ai
  /\ NpcAiEngine.lastDefendTime (fst r) = NpcAiEngine.lastDefendTime ai
  /\ NpcAiEngine.restUntil (fst r) = NpcAiEngine.restUntil ai.
Proof.
  cbv zeta; unfold NpcAiEngine.updateAIState.
  destruct (NpcAiEngine.isResting ai && _); [cbn; auto |].
  unfold NpcAiEngine.shouldMakeDecision.
  destruct (Z.geb_spec (now - NpcAiEngine.lastDecisionTime ai)
              (NpcAiEngine.decisionInterval config)) as [Hdue | Hnot];
    cbn [negb]; [| cbn; auto].
  updateAIState_branches ai; auto 6.
Qed.

(** A state whose last decision is less than [decisionInterval] old is
    returned as it is, and no random value is drawn. *)
Lemma updateAIState_not_due (M : MathFns) (npc : Game.OnlinePlayer)
    (ai : NpcAiEngine.AIState) (players : list Game.OnlinePlayer)
    (spawn : NpcAiEngine.Vector3) (config : NpcAiEngine.AIConfig) (now : Z)
    (src : RandomSource) (n : nat) :
  now - NpcAiEngine.lastDecisionTime ai < NpcAiEngine.decisionInterval config ->
  NpcAiEngine.updateAIState M npc ai players spawn config now src n = (ai, n).
Proof.
  intro H; unfold NpcAiEngine.updateAIState, NpcAiEngine.shouldMakeDecision.
  destruct (NpcAiEngine.isResting ai && _); [reflexivity |].
  destruct (Z.geb_spec (now - NpcAiEngine.lastDecisionTime ai)
              (NpcAiEngine.decisionInterval config)); [lia | reflexivity].
Qed.

(** Decisions are at least [decisionInterval] apart: when a call of
    [updateAIState] at time [now] changes the AI state or draws a random
    value, a decision was due; the state it returns is stamped [now], and
    every call less than [decisionInterval] later, for whatever NPC and
    players, returns that state unchanged and draws nothing. *)
Theorem updateAIState_decisions_spaced :
  forall (M : MathFns) (npc npc' : Game.OnlinePlayer)
         (ai : NpcAiEngine.AIState)
         (players players' : list Game.OnlinePlayer)
         (spawn spawn' : NpcAiEngine.Vector3) (config : NpcAiEngine.AIConfig)
         (now now' : Z) (src src' : RandomSource) (n n' : nat),
    let r := NpcAiEngine.updateAIState M npc ai players spawn config now
               src n in
    r <> (ai, n) ->
    now' - now < NpcAiEngine.decisionInterval config ->
    NpcAiEngine.decisionInterval config
    <= now - NpcAiEngine.lastDecisionTime ai
    /\ NpcAiEngine.lastDecisionTime (fst r) = now
    /\ NpcAiEngine.updateAIState M npc' (fst r) players' spawn' config now'
         src' n' = (fst r, n').
Proof.
  intros M npc npc' ai players players' spawn spawn' config now now' src src'
    n n' r Hchanged Hsoon.
  destruct (updateAIState_stamp M npc ai players spawn config now src n)
    as [[Hsame | (Hstamp & _ & Hdue)] _]; [contradiction |].
  fold r in Hstamp.
  repeat split; [exact Hdue | exact Hstamp |].
  apply updateAIState_not_due; rewrite Hstamp; exact Hsoon.
Qed.

(** A passive NPC with no wander target, last decision at 0: at 5000 it
    decides (and picks a wander target), and at 5400 nothing changes. *)
Lemma updateAIState_decisions_spaced_witness :
  let npc :=
    {| Game.id := "npc-1"; Game.name := "NPC 1"; Game.x := 101; Game.y := 150;
       Game.country := "uk"; Game.health := 100; Game.maxHealth := 100;
       Game.points := 3; Game.lastAttackTime := 0; Game.lastDefendTime := 0;
       Game.isDefending := false; Game.isAttacking := false;
       Game.isDead := false; Game.respawnTime := None; Game.isNPC := true;
       Game.aiType := Some "passive" |} in
  let ai := NpcAiEngine.createAIState NpcAiEngine.PASSIVE in
  let spawn := {| NpcAiEngine.vx := 101; NpcAiEngine.vy := 0;
                  NpcAiEngine.vz := 150 |} in
  let r := fun M : MathFns =>
             NpcAiEngine.updateAIState M npc ai [npc] spawn
               NpcAiEngine.DEFAULT_AI_CONFIG 5000 (fun _ => 0.5%Q) 0%nat in
  (forall M, r M <> (ai, 0%nat))
  /\ (forall M,
         NpcAiEngine.updateAIState M npc (fst (r M)) [npc] spawn
           NpcAiEngine.DEFAULT_AI_CONFIG 5400 (fun _ => 0.5%Q) 7%nat
         = (fst (r M), 7%nat)).
Proof.
  intros npc ai spawn r.
  assert (Hchanged : forall M, r M <> (ai, 0%nat))
    by (intros M E; apply (f_equal snd) in E; discriminate E).
  split; [exact Hchanged | intro M].
  exact (proj2 (proj2 (updateAIState_decisions_spaced M npc npc ai [npc] [npc]
                         spawn spawn NpcAiEngine.DEFAULT_AI_CONFIG 5000 5400
                         (fun _ => 0.5%Q) (fun _ => 0.5%Q) 0%nat 7%nat
                         (Hchanged M) eq_refl))).
Defined.

(** ** The NPC AI engine: attacks *)

(** [determineNextAction] asks for an attack only when the attack
    cooldown of the AI state has passed. *)
Lemma determineNextAction_attack_due (M : MathFns) (npc : Game.OnlinePlayer)
    (ai : NpcAiEngine.AIState) (players : list Game.OnlinePlayer)
    (config : NpcAiEngine.AIConfig) (now : Z) (src : RandomSource) (n : nat) :
  NpcAiEngine.shouldAttack
    (fst (NpcAiEngine.determineNextAction M npc ai players config now src n))
  = true ->
  NpcAiEngine.attackCooldown config <= now - NpcAiEngine.lastAttackTime ai.
Proof.
  unfold NpcAiEngine.determineNextAction.
  destruct (NpcAiEngine.fleeTarget ai); [cbn; discriminate |].
  destruct (match NpcAiEngine.targetId ai with Some _ => _ | None => _ end)
    as [p |]; [| cbn; discriminate].
  destruct (Game.isDead p); [cbn; discriminate |].
  destruct (Distance_leb_range _ _); [| cbn; discriminate].
  unfold bind, ret, Math_random.
  destruct (now - NpcAiEngine.lastDefendTime ai
            >=? NpcAiEngine.defendCooldown config);
    cbn [fst NpcAiEngine.shouldAttack];
    intro H; apply Z.geb_le in H; exact H.
Qed.

(** The attacker [processNPCAttack] returns: the NPC it was given, or that
    NPC with its attack flag set and its attack time stamped. *)
Lemma processNPCAttack_attacker (npc : Game.OnlinePlayer)
    (targetId : option string) (players : list Game.OnlinePlayer)
    (aiState : NpcAiEngine.AIState) (now : Z) (src : RandomSource) (n : nat) :
  let r := fst (NpcAiEngine.processNPCAttack npc targetId players aiState now
                  src n) in
  (NpcAiEngine.updatedNPC r = npc /\ NpcAiEngine.updatedTarget r = None)
  \/ NpcAiEngine.updatedNPC r
     = Game.set_lastAttackTime now (Game.set_isAttacking true npc).
Proof.
  cbv zeta; unfold NpcAiEngine.processNPCAttack.
  destruct targetId as [tid |]; [| left; split; reflexivity].
  destruct (String.eqb tid ""); [left; split; reflexivity |].
  destruct (find _ players) as [target |]; [| left; split; reflexivity].
  destruct (Game.isDead target); [left; split; reflexivity |].
  right; reflexivity.
Qed.

(** What [updateNPC] returns for a living NPC, in terms of the AI state
    and the action it computes on the way. *)
Lemma updateNPC_alive (M : MathFns) (npc : Game.OnlinePlayer)
    (ai : NpcAiEngine.AIState) (players : list Game.OnlinePlayer)
    (spawn : NpcAiEngine.Vector3) (deltaTime : Q)
    (config : NpcAiEngine.AIConfig) (now : Z) (src : RandomSource) (n : nat) :
  Game.isDead npc = false ->
  let d := NpcAiEngine.updateAIState M npc ai players spawn config now src n in
  let a := NpcAiEngine.determineNextAction M npc (fst d) players config now
             src (snd d) in
  let reset :=
    Game.set_isDefending false
      (Game.set_isAttacking false
         (NpcAiEngine.updateNPCPosition npc
            (NpcAiEngine.moveDirection (fst a)) deltaTime 2)) in
  let attack :=
    fst (NpcAiEngine.processNPCAttack reset
           (NpcAiEngine.actionTargetId (fst a)) players (fst d) now src
           (snd a)) in
  let npc1 := if NpcAiEngine.shouldAttack (fst a)
              then NpcAiEngine.updatedNPC attack else reset in
  let ai1 := if NpcAiEngine.shouldAttack (fst a)
             then NpcAiEngine.set_lastAttackTime now (fst d) else fst d in
  fst (NpcAiEngine.updateNPC M npc ai players spawn deltaTime config now src n)
  = {| NpcAiEngine.updatedNPC :=
         if NpcAiEngine.shouldDefend (fst a)
         then Game.set_lastDefendTime now (Game.set_isDefending true npc1)
         else npc1;
       NpcAiEngine.updatedTarget :=
         if NpcAiEngine.shouldAttack (fst a)
         then NpcAiEngine.updatedTarget attack else None;
       NpcAiEngine.updatedAIState :=
         if NpcAiEngine.shouldDefend (fst a)
         then NpcAiEngine.set_lastDefendTime now ai1 else ai1 |}.
Proof.
  intros Halive; cbv zeta; unfold NpcAiEngine.updateNPC; rewrite Halive.
  unfold bind at 1.
  destruct (NpcAiEngine.updateAIState M npc ai players spawn config now src n)
    as [ai' n1]; cbn [fst snd].
  unfold bind at 1.
  destruct (NpcAiEngine.determineNextAction M npc ai' players config now src
              n1) as [a n2]; cbn [fst snd].
  unfold bind at 1.
  destruct (NpcAiEngine.shouldAttack a).
  - unfold bind at 1.
    destruct (NpcAiEngine.processNPCAttack _ _ players ai' now src n2)
      as [r n3]; cbn [fst snd ret].
    destruct (NpcAiEngine.shouldDefend a); reflexivity.
  - cbn [ret]; destruct (NpcAiEngine.shouldDefend a); reflexivity.
Qed.

(** While the attack cooldown of the AI state has not passed, [updateNPC]
    attacks nobody and leaves the attack time of the AI state. *)
Lemma updateNPC_cooling_down (M : MathFns) (npc : Game.OnlinePlayer)
    (ai : NpcAiEngine.AIState) (players : list Game.OnlinePlayer)
    (spawn : NpcAiEngine.Vector3) (deltaTime : Q)
    (config : NpcAiEngine.AIConfig) (now : Z) (src : RandomSource) (n : nat) :
  now - NpcAiEngine.lastAttackTime ai < NpcAiEngine.attackCooldown config ->
  let r := fst (NpcAiEngine.updateNPC M npc ai players spawn deltaTime config
                  now src n) in
  NpcAiEngine.updatedTarget r = None
  /\ NpcAiEngine.lastAttackTime (NpcAiEngine.updatedAIState r)
     = NpcAiEngine.lastAttackTime ai.
Proof.
  intros Hcool; cbv zeta.
  destruct (Game.isDead npc) eqn:Halive;
    [unfold NpcAiEngine.updateNPC; rewrite Halive; split; reflexivity |].
  rewrite (updateNPC_alive M npc ai players spawn deltaTime config now src n
             Halive).
  destruct (updateAIState_stamp M npc ai players spawn config now src n)
    as (_ & Hatt & _).
  set (d := NpcAiEngine.updateAIState M npc ai players spawn config now src n)
    in *.
  destruct (NpcAiEngine.shouldAttack
              (fst (NpcAiEngine.determineNextAction M npc (fst d) players
                      config now src (snd d)))) eqn:Hsa.
  - apply determineNextAction_attack_due in Hsa; rewrite Hatt in Hsa; lia.
  - cbn [NpcAiEngine.updatedTarget NpcAiEngine.updatedAIState].
    split; [reflexivity |].
    destruct (NpcAiEngine.shouldDefend _); cbn; exact Hatt.
Qed.

(** An [updateNPC] that hits a target stamps the attack time of the AI
    state it returns. *)
Lemma updateNPC_attack_stamp (M : MathFns) (npc : Game.OnlinePlayer)
    (ai : NpcAiEngine.AIState) (players : list Game.OnlinePlayer)
    (spawn : NpcAiEngine.Vector3) (deltaTime : Q)
    (config : NpcAiEngine.AIConfig) (now : Z) (src : RandomSource) (n : nat) :
  let r := fst (NpcAiEngine.updateNPC M npc ai players spawn deltaTime config
                  now src n) in
  NpcAiEngine.updatedTarget r <> None ->
  NpcAiEngine.lastAttackTime (NpcAiEngine.updatedAIState r) = now.
Proof.
  cbv zeta.
  destruct (Game.isDead npc) eqn:Halive;
    [unfold NpcAiEngine.updateNPC; rewrite Halive; cbn; congruence |].
  rewrite (updateNPC_alive M npc ai players spawn deltaTime config now src n
             Halive).
  destruct (NpcAiEngine.shouldAttack _);
    cbn [NpcAiEngine.updatedTarget NpcAiEngine.updatedAIState];
    [| congruence].
  intros _; destruct (NpcAiEngine.shouldDefend _); reflexivity.
Qed.

(** NPC attacks are at least [attackCooldown] apart: after an [updateNPC]
    at time [now] that hits a target, an [updateNPC] with the AI state it
    returned, made less than [attackCooldown] later, hits nobody, whatever
    the NPC record, the players and the random values then are. *)
Theorem updateNPC_attacks_spaced :
  forall (M : MathFns) (npc npc' : Game.OnlinePlayer)
         (ai : NpcAiEngine.AIState)
         (players players' : list Game.OnlinePlayer)
         (spawn spawn' : NpcAiEngine.Vector3) (deltaTime deltaTime' : Q)
         (config : NpcAiEngine.AIConfig) (now now' : Z)
         (src src' : RandomSource) (n n' : nat),
    let r := fst (NpcAiEngine.updateNPC M npc ai players spawn deltaTime
                    config now src n) in
    NpcAiEngine.updatedTarget r <> None ->
    now' - now < NpcAiEngine.attackCooldown config ->
    NpcAiEngine.attackCooldown config
    <= now - NpcAiEngine.lastAttackTime ai
    /\ NpcAiEngine.updatedTarget
         (fst (NpcAiEngine.updateNPC M npc' (NpcAiEngine.updatedAIState r)
                 players' spawn' deltaTime' config now' src' n'))
       = None.
Proof.
  intros M npc npc' ai players players' spawn spawn' deltaTime deltaTime'
    config now now' src src' n n' r Hhit Hsoon.
  split.
  - destruct (Z.le_gt_cases (NpcAiEngine.attackCooldown config)
                (now - NpcAiEngine.lastAttackTime ai)) as [H | H];
      [exact H |].
    destruct (updateNPC_cooling_down M npc ai players spawn deltaTime config
                now src n) as [Hnone _]; [lia |].
    contradiction.
  - apply updateNPC_cooling_down.
    unfold r; rewrite (updateNPC_attack_stamp M npc ai players spawn
                         deltaTime config now src n Hhit).
    exact Hsoon.
Qed.

(** An aggressive NPC next to Player1 attacks it at 5000 and, with the
    state that attack returns, not at 6500. *)
Lemma updateNPC_attacks_spaced_witness :
  let target := World.mockPlayer "1" "Player1" 100 150 "usa" in
  let npc :=
    {| Game.id := "npc-1"; Game.name := "NPC 1"; Game.x := 101; Game.y := 150;
       Game.country := "uk"; Game.health := 100; Game.maxHealth := 100;
       Game.points := 3; Game.lastAttackTime := 0; Game.lastDefendTime := 0;
       Game.isDefending := false; Game.isAttacking := false;
       Game.isDead := false; Game.respawnTime := None; Game.isNPC := true;
       Game.aiType := Some "aggressive" |} in
  let ai := NpcAiEngine.createAIState NpcAiEngine.AGGRESSIVE in
  let spawn := {| NpcAiEngine.vx := 101; NpcAiEngine.vy := 0;
                  NpcAiEngine.vz := 150 |} in
  let r := fun M : MathFns =>
             fst (NpcAiEngine.updateNPC M npc ai [target; npc] spawn 0.016
                    NpcAiEngine.DEFAULT_AI_CONFIG 5000 (fun _ => 0.5%Q)
                    0%nat) in
  (forall M, NpcAiEngine.updatedTarget (r M) <> None)
  /\ (forall M,
         NpcAiEngine.updatedTarget
           (fst (NpcAiEngine.updateNPC M npc
                   (NpcAiEngine.updatedAIState (r M)) [target; npc] spawn
                   0.016 NpcAiEngine.DEFAULT_AI_CONFIG 6500
                   (fun _ => 0.5%Q) 0%nat))
         = None).
Proof.
  intros target npc ai spawn r.
  assert (Hhit : forall M, NpcAiEngine.updatedTarget (r M) <> None)
    by (intros M; vm_compute; discriminate).
  split; [exact Hhit | intro M].
  exact (proj2 (updateNPC_attacks_spaced M npc npc ai [target; npc]
                  [target; npc] spawn spawn 0.016 0.016
                  NpcAiEngine.DEFAULT_AI_CONFIG 5000 6500 (fun _ => 0.5%Q)
                  (fun _ => 0.5%Q) 0%nat 0%nat (Hhit M) eq_refl)).
Defined.

(** A health ratio that is at most the threshold is not above it
    (neither is [NaN]). *)
Lemma div_leb_not_gtb (a b : Z) (t : Q) :
  div_leb a b t = true -> div_gtb a b t = false.
Proof.
  unfold div_leb, div_gtb, Qlt_bool.
  destruct (b =? 0); [| intros ->; reflexivity].
  intro H; apply Z.ltb_lt in H; apply Z.ltb_ge; lia.
Qed.

(** [findNearestPlayer] returns nothing only when no candidate is
    strictly within the bound. *)
Lemma findNearestPlayer_none (npc : Game.OnlinePlayer)
    (players : list Game.OnlinePlayer) (maxDistance : Distance) :
  NpcAiEngine.findNearestPlayer npc players maxDistance = None ->
  forall q, candidate npc players q ->
            Distance_ltb (NpcAiEngine.calculateDistance npc q) maxDistance
            = false.
Proof.
  unfold NpcAiEngine.findNearestPlayer; intros Hnone q (Hin & Hq).
  pose proof (findNearestPlayer_loop npc players None maxDistance)
    as [Hmin Hres]; cbv zeta in Hmin, Hres.
  destruct (fold_left _ players (None, maxDistance)) as [best bound];
    cbn [fst snd] in *; subst best.
  destruct Hres as [E | (p & E1 & _)]; [| discriminate E1].
  injection E as ->; apply Hmin; [exact Hin |].
  apply not_skipped_iff; exact Hq.
Qed.

(** A wounded NPC runs: when a decision is made for an NPC whose health
    ratio is at most [fleeThreshold] and a living human player other than
    the NPC is strictly within [aggroRange], the NPC is cowardly
    afterwards whatever its behaviour was, it drops its target and its
    wander target and gets a flee target away from a candidate; and with
    that state [determineNextAction] asks for no attack and no defence,
    whoever is near. *)
Theorem updateAIState_wounded_flees :
  forall (M : MathFns) (npc npc' : Game.OnlinePlayer)
         (ai : NpcAiEngine.AIState)
         (players players' : list Game.OnlinePlayer)
         (spawn : NpcAiEngine.Vector3) (config config' : NpcAiEngine.AIConfig)
         (now now' : Z) (src src' : RandomSource) (n n' : nat)
         (q : Game.OnlinePlayer),
    NpcAiEngine.isResting ai && (now <? NpcAiEngine.restUntil ai) = false ->
    NpcAiEngine.shouldMakeDecision ai config now = true ->
    div_leb (Game.health npc) (Game.maxHealth npc)
      (NpcAiEngine.fleeThreshold config) = true ->
    candidate npc players q ->
    Distance_ltb (NpcAiEngine.calculateDistance npc q)
      (Distance_of_range (NpcAiEngine.aggroRange config)) = true ->
    let ai' := fst (NpcAiEngine.updateAIState M npc ai players spawn config
                      now src n) in
    let a := fst (NpcAiEngine.determineNextAction M npc' ai' players' config'
                    now' src' n') in
    NpcAiEngine.behaviorType ai' = NpcAiEngine.COWARDLY
    /\ NpcAiEngine.targetId ai' = None
    /\ NpcAiEngine.wanderTarget ai' = None
    /\ (exists p, candidate npc players p
                  /\ NpcAiEngine.fleeTarget ai'
                     = Some (NpcAiEngine.generateFleeTarget M npc p config))
    /\ NpcAiEngine.shouldAttack a = false
    /\ NpcAiEngine.shouldDefend a = false.
Proof.
  intros M npc npc' ai players players' spawn config config' now now' src src'
    n n' q Hrest Hdue Hlow Hq Hnear ai' a.
  assert (Hai : NpcAiEngine.behaviorType ai' = NpcAiEngine.COWARDLY
                /\ NpcAiEngine.targetId ai' = None
                /\ NpcAiEngine.wanderTarget ai' = None
                /\ exists p, candidate npc players p
                             /\ NpcAiEngine.fleeTarget ai'
                                = Some (NpcAiEngine.generateFleeTarget M npc p
                                          config)).
  { unfold ai', NpcAiEngine.updateAIState.
    rewrite Hrest, Hdue, Hlow, (div_leb_not_gtb _ _ _ Hlow).
    cbn [negb andb].
    set (bound := if NpcAiEngine.AIBehaviorType_eqb _ NpcAiEngine.AGGRESSIVE
                  then Infinity else _).
    destruct (NpcAiEngine.findNearestPlayer npc players bound) as [p |] eqn:Hn.
    - apply findNearestPlayer_candidate in Hn.
      destruct (NpcAiEngine.behaviorType ai) eqn:Hb; unfold ret; cbn;
        rewrite ?Hb; cbn; rewrite ?Hb;
        (split; [reflexivity |]; split; [reflexivity |];
         split; [reflexivity |]; exists p; split; [exact Hn | reflexivity]).
    - pose proof (findNearestPlayer_none npc players bound Hn q Hq) as Hfar.
      exfalso; unfold bound in Hfar.
      destruct (NpcAiEngine.AIBehaviorType_eqb _ _); [| congruence].
      discriminate Hfar. }
  destruct Hai as (Hb & Ht & Hw & p & Hp & Hf).
  repeat split; auto; [exists p; auto | |];
    unfold a, NpcAiEngine.determineNextAction; rewrite Hf; reflexivity.
Qed.

(** A defensive NPC at 20 of 100 health, one unit from Player1. *)
Lemma updateAIState_wounded_flees_witness :
  let target := World.mockPlayer "1" "Player1" 100 150 "usa" in
  let npc :=
    {| Game.id := "npc-1"; Game.name := "NPC 1"; Game.x := 101; Game.y := 150;
       Game.country := "uk"; Game.health := 20; Game.maxHealth := 100;
       Game.points := 3; Game.lastAttackTime := 0; Game.lastDefendTime := 0;
       Game.isDefending := false; Game.isAttacking := false;
       Game.isDead := false; Game.respawnTime := None; Game.isNPC := true;
       Game.aiType := Some "defensive" |} in
  let ai := NpcAiEngine.set_targetId (Some "1")
              (NpcAiEngine.createAIState NpcAiEngine.DEFENSIVE) in
  let spawn := {| NpcAiEngine.vx := 101; NpcAiEngine.vy := 0;
                  NpcAiEngine.vz := 150 |} in
  candidate npc [target; npc] target
  /\ (forall M,
         NpcAiEngine.shouldAttack
           (fst (NpcAiEngine.determineNextAction M npc
                   (fst (NpcAiEngine.updateAIState M npc ai [target; npc]
                           spawn NpcAiEngine.DEFAULT_AI_CONFIG 5000
                           (fun _ => 0.5%Q) 0%nat))
                   [target; npc] NpcAiEngine.DEFAULT_AI_CONFIG 5000
                   (fun _ => 0.5%Q) 0%nat))
         = false).
Proof.
  intros target npc ai spawn.
  assert (Hq : candidate npc [target; npc] target)
    by (repeat split; [left; reflexivity]).
  split; [exact Hq | intro M].
  exact (proj1 (proj2 (proj2 (proj2 (proj2
           (updateAIState_wounded_flees M npc npc ai [target; npc]
              [target; npc] spawn NpcAiEngine.DEFAULT_AI_CONFIG
              NpcAiEngine.DEFAULT_AI_CONFIG 5000 5000 (fun _ => 0.5%Q)
              (fun _ => 0.5%Q) 0%nat 0%nat target eq_refl eq_refl eq_refl
              Hq eq_refl)))))).
Defined.

(** The damage of an NPC's attack: 5 to 15, and 2 to 7 once halved. *)
Lemma npcDamage_range (rnd : Q) :
  unit_interval rnd -> 5 <= NpcAiEngine.npcDamage rnd <= 15.
Proof.
  intro H; unfold NpcAiEngine.npcDamage.
  pose proof (floor_roll_range rnd (15 - 5 + 1) H); lia.
Qed.

Lemma Qfloor_half (d : Z) : Qfloor (inject_Z d / 2) = d / 2.
Proof.
  unfold Qfloor, Qdiv, Qmult, Qinv, inject_Z; cbn.
  rewrite Z.mul_1_r; reflexivity.
Qed.

(** What an NPC's attack does to the two parties.  The player hit is a
    living player of the list, the one [targetId] names; it loses between
    5 and 15 health, or between 2 and 7 when it is defending, whatever
    the classes of the two are; it is marked dead when nothing is left,
    and nothing else of its record changes: a player killed by an NPC
    keeps its points and gets no respawn time.  The NPC only gets its
    attack flag and attack time set: a kill earns it no point. *)
Theorem processNPCAttack_effect :
  forall (npc : Game.OnlinePlayer) (targetId : option string)
         (players : list Game.OnlinePlayer) (aiState : NpcAiEngine.AIState)
         (now : Z) (src : RandomSource) (n : nat) (hit : Game.OnlinePlayer),
    unit_interval (src n) ->
    let r := fst (NpcAiEngine.processNPCAttack npc targetId players aiState
                    now src n) in
    NpcAiEngine.updatedTarget r = Some hit ->
    exists target d,
      In target players /\ Game.isDead target = false
      /\ targetId = Some (Game.id target)
      /\ (if Game.isDefending target then 2 <= d <= 7 else 5 <= d <= 15)
      /\ hit = Game.set_isDead (Game.health target - d <=? 0)
                 (Game.set_health (Z.max 0 (Game.health target - d)) target)
      /\ NpcAiEngine.updatedNPC r
         = Game.set_lastAttackTime now (Game.set_isAttacking true npc).
Proof.
  intros npc targetId players aiState now src n hit Hrnd r; subst r.
  unfold NpcAiEngine.processNPCAttack.
  destruct targetId as [tid |]; [| discriminate].
  destruct (String.eqb tid ""); [discriminate |].
  destruct (find _ players) as [target |] eqn:Hfind; [| discriminate].
  destruct (Game.isDead target) eqn:Hdead; [discriminate |].
  unfold bind, ret, Math_random; cbn.
  intro H; injection H as <-.
  apply find_some in Hfind; destruct Hfind as [Hin Hid].
  apply String.eqb_eq in Hid.
  exists target,
    (NpcAiEngine.npcActualDamage (NpcAiEngine.npcDamage (src n)) target).
  split; [exact Hin |]; split; [exact Hdead |].
  split; [rewrite Hid; reflexivity |].
  split; [| split; reflexivity].
  unfold NpcAiEngine.npcActualDamage.
  pose proof (npcDamage_range (src n) Hrnd).
  destruct (Game.isDefending target); [| lia].
  rewrite Qfloor_half; split; [apply Z.div_le_lower_bound; lia |].
  apply Z.lt_succ_r, Z.div_lt_upper_bound; lia.
Qed.

(** An NPC hits the undefended Player1, who has 9 health left, with the
    draw 1/2: a damage of 10, and Player1 is dead with no respawn time. *)
Lemma processNPCAttack_effect_witness :
  let target :=
    Game.set_health 9 (World.mockPlayer "1" "Player1" 100 150 "usa") in
  let npc := Game.set_x 101 target in
  let r := fst (NpcAiEngine.processNPCAttack npc (Some "1") [target]
                  (NpcAiEngine.createAIState NpcAiEngine.AGGRESSIVE) 5000
                  (fun _ => 0.5%Q) 0%nat) in
  unit_interval 0.5
  /\ NpcAiEngine.updatedTarget r
     = Some (Game.set_isDead true (Game.set_health 0 target))
  /\ exists target' d,
       In target' [target] /\ Game.isDead target' = false
       /\ Some "1" = Some (Game.id target')
       /\ (if Game.isDefending target' then 2 <= d <= 7 else 5 <= d <= 15)
       /\ Game.set_isDead true (Game.set_health 0 target)
          = Game.set_isDead (Game.health target' - d <=? 0)
              (Game.set_health (Z.max 0 (Game.health target' - d)) target')
       /\ NpcAiEngine.updatedNPC r
          = Game.set_lastAttackTime 5000 (Game.set_isAttacking true npc).
Proof.
  intros target npc r.
  assert (Hrnd : unit_interval 0.5) by (split; reflexivity || discriminate).
  assert (Hhit : NpcAiEngine.updatedTarget r
                 = Some (Game.set_isDead true (Game.set_health 0 target)))
    by reflexivity.
  split; [exact Hrnd | split; [exact Hhit |]].
  exact (processNPCAttack_effect npc (Some "1") [target]
           (NpcAiEngine.createAIState NpcAiEngine.AGGRESSIVE) 5000
           (fun _ => 0.5%Q) 0%nat _ Hrnd Hhit).
Defined.

(** [updateNPC] never changes what the NPC is or how it fares: its id,
    name, country, health, maximal health, points, death flag, respawn
    time, NPC flag and AI type are those it was given (only its
    position, its two action flags and its two action times can change);
    and a dead NPC is returned as it is, with its AI state, no random
    value being drawn. *)
Lemma updateNPC_keeps_record :
  forall (M : MathFns) (npc : Game.OnlinePlayer) (ai : NpcAiEngine.AIState)
         (players : list Game.OnlinePlayer) (spawn : NpcAiEngine.Vector3)
         (deltaTime : Q) (config : NpcAiEngine.AIConfig) (now : Z)
         (src : RandomSource) (n : nat),
    let r := NpcAiEngine.updateNPC M npc ai players spawn deltaTime config
               now src n in
    let npc' := NpcAiEngine.updatedNPC (fst r) in
    (Game.id npc' = Game.id npc
     /\ Game.name npc' = Game.name npc
     /\ Game.country npc' = Game.country npc
     /\ Game.health npc' = Game.health npc
     /\ Game.maxHealth npc' = Game.maxHealth npc
     /\ Game.points npc' = Game.points npc
     /\ Game.isDead npc' = Game.isDead npc
     /\ Game.respawnTime npc' = Game.respawnTime npc
     /\ Game.isNPC npc' = Game.isNPC npc
     /\ Game.aiType npc' = Game.aiType npc)
    /\ (Game.isDead npc = true ->
        r = ({| NpcAiEngine.updatedNPC := npc;
                NpcAiEngine.updatedTarget := None;
                NpcAiEngine.updatedAIState := ai |}, n)).
Proof.
  intros M npc ai players spawn deltaTime config now src n r npc'.
  subst npc' r.
  destruct (Game.isDead npc) eqn:Halive.
  - unfold NpcAiEngine.updateNPC; rewrite Halive.
    cbn; repeat split; auto.
  - split; [| discriminate].
    rewrite (updateNPC_alive M npc ai players spawn deltaTime config now src n
               Halive).
    cbn [NpcAiEngine.updatedNPC].
    set (d := NpcAiEngine.updateAIState M npc ai players spawn config now
                src n).
    set (a := NpcAiEngine.determineNextAction M npc (fst d) players config
                now src (snd d)).
    set (reset := Game.set_isDefending false _).
    assert (Hreset : Game.id reset = Game.id npc
                     /\ Game.name reset = Game.name npc
                     /\ Game.country reset = Game.country npc
                     /\ Game.health reset = Game.health npc
                     /\ Game.maxHealth reset = Game.maxHealth npc
                     /\ Game.points reset = Game.points npc
                     /\ Game.isDead reset = Game.isDead npc
                     /\ Game.respawnTime reset = Game.respawnTime npc
                     /\ Game.isNPC reset = Game.isNPC npc
                     /\ Game.aiType reset = Game.aiType npc).
    { unfold reset, NpcAiEngine.updateNPCPosition.
      destruct (NpcAiEngine.moveDirection (fst a)); cbn; repeat split. }
    rewrite <- Halive.
    destruct (processNPCAttack_attacker reset
                (NpcAiEngine.actionTargetId (fst a)) players (fst d) now src
                (snd a)) as [[E _] | E];
      cbv zeta in E; rewrite E;
      destruct (NpcAiEngine.shouldDefend (fst a)),
        (NpcAiEngine.shouldAttack (fst a)); cbn; exact Hreset.
Qed.

(** ** The NPC manager *)

Lemma Map_get_set {V : Type} (k k' : string) (v : V) (m : JsMap V) :
  Map_get k (Map_set k' v m)
  = if String.eqb k' k then Some v else Map_get k m.
Proof.
  induction m as [| [k0 v0] m IH]; cbn.
  - destruct (String.eqb k' k); reflexivity.
  - destruct (String.eqb k0 k') eqn:E0; cbn.
    + apply String.eqb_eq in E0; subst k0.
      destruct (String.eqb k' k); reflexivity.
    + rewrite IH.
      destruct (String.eqb k' k) eqn:E1; [| reflexivity].
      apply String.eqb_eq in E1; subst k'; rewrite E0; reflexivity.
Qed.

Lemma Map_delete_absent {V : Type} (k : string) (m : JsMap V) :
  Map_get k m = None -> Map_delete k m = m.
Proof.
  unfold Map_delete; induction m as [| [k0 v0] m IH]; cbn; [reflexivity |].
  destruct (String.eqb k0 k); [discriminate |].
  intro H; cbn; f_equal; exact (IH H).
Qed.

Lemma Map_delete_set {V : Type} (k : string) (v : V) (m : JsMap V) :
  Map_get k m = None -> Map_delete k (Map_set k v m) = m.
Proof.
  unfold Map_delete; induction m as [| [k0 v0] m IH]; cbn.
  - rewrite String.eqb_refl; reflexivity.
  - destruct (String.eqb k0 k) eqn:E; [discriminate |].
    intro H; cbn; rewrite E; cbn; f_equal; exact (IH H).
Qed.

Lemma find_app {A : Type} (f : A -> bool) (l1 l2 : list A) :
  find f (l1 ++ l2)%list
  = match find f l1 with Some a => Some a | None => find f l2 end.
Proof.
  induction l1 as [| a l1 IH]; cbn; [reflexivity |].
  destruct (f a); [reflexivity | exact IH].
Qed.

(** The target of [processNPCAttack]: the first player of the list with
    the id asked for, alive, with the damage taken off. *)
Lemma processNPCAttack_first (npc : Game.OnlinePlayer)
    (targetId : option string) (players : list Game.OnlinePlayer)
    (aiState : NpcAiEngine.AIState) (now : Z) (src : RandomSource) (n : nat)
    (hit : Game.OnlinePlayer) :
  NpcAiEngine.updatedTarget
    (fst (NpcAiEngine.processNPCAttack npc targetId players aiState now src n))
  = Some hit ->
  exists tid target,
    find (fun p => String.eqb (Game.id p) tid) players = Some target
    /\ Game.id hit = tid /\ Game.isNPC hit = Game.isNPC target
    /\ Game.health hit
       = Z.max 0 (Game.health target
                  - NpcAiEngine.npcActualDamage
                      (NpcAiEngine.npcDamage (src n)) target).
Proof.
  unfold NpcAiEngine.processNPCAttack.
  destruct targetId as [tid |]; [| discriminate].
  destruct (String.eqb tid ""); [discriminate |].
  destruct (find _ players) as [target |] eqn:Hfind; [| discriminate].
  destruct (Game.isDead target); [discriminate |].
  unfold bind, ret, Math_random; cbn.
  intro H; injection H as <-.
  exists tid, target; cbn; repeat split; auto.
  apply find_some in Hfind; destruct Hfind as [_ Hid].
  apply String.eqb_eq in Hid; exact Hid.
Qed.

Lemma npcActualDamage_nonneg (rnd : Q) (target : Game.OnlinePlayer) :
  unit_interval rnd ->
  0 <= NpcAiEngine.npcActualDamage (NpcAiEngine.npcDamage rnd) target.
Proof.
  intro H; pose proof (npcDamage_range rnd H).
  unfold NpcAiEngine.npcActualDamage.
  destruct (Game.isDefending target); [| lia].
  rewrite Qfloor_half; apply Z.div_pos; lia.
Qed.

(** The damage [updateNPCs] would report for the human target of an NPC's
    attack is never positive: it subtracts the health before the attack
    from the health after it. *)
Lemma updateOne_reports_no_damage (M : MathFns)
    (players npcs : list Game.OnlinePlayer)
    (npcData : JsMap UseNPCManager.NPCData) (deltaTime : Q) (now : Z)
    (npc : Game.OnlinePlayer) (aiStates : JsMap NpcAiEngine.AIState)
    (src : RandomSource) (n : nat) :
  Forall (fun p => Game.isNPC p = true) npcs ->
  Forall health_ok players ->
  valid_source src ->
  forall call,
    In call (snd (fst (UseNPCManager.updateOne M players (players ++ npcs)
                         npcData deltaTime now npc aiStates src n))) ->
    exists updated, call = UseNPCManager.onNPCUpdate updated.
Proof.
  intros Hnpcs Hplayers Hsrc call; unfold UseNPCManager.updateOne.
  destruct (negb (Game.isNPC npc) || Game.isDead npc) eqn:Hskip;
    [intros [] |].
  apply orb_false_iff in Hskip; destruct Hskip as [_ Halive].
  destruct (Map_get (Game.id npc) aiStates) as [aiState |]; [| intros []].
  destruct (Map_get (Game.id npc) npcData) as [data |]; [| intros []].
  unfold bind at 1.
  pose proof (updateNPC_alive M npc aiState (players ++ npcs)
                (UseNPCManager.spawnPosition data) deltaTime
                NpcAiEngine.DEFAULT_AI_CONFIG now src n Halive) as Hr.
  cbv zeta in Hr.
  destruct (NpcAiEngine.updateNPC M npc aiState (players ++ npcs)
              (UseNPCManager.spawnPosition data) deltaTime
              NpcAiEngine.DEFAULT_AI_CONFIG now src n) as [r n'].
  cbn [fst snd ret] in *.
  destruct (NpcAiEngine.updatedTarget r) as [hit |] eqn:Hhit;
    [| intros [<- | []]; eexists; reflexivity].
  assert (Hno : negb (Game.isNPC hit)
                && (UseNPCManager.reportedDamage players hit >? 0) = false).
  { rewrite Hr in Hhit; cbn [NpcAiEngine.updatedTarget] in Hhit.
    destruct (NpcAiEngine.shouldAttack _); [| discriminate].
    apply processNPCAttack_first in Hhit.
    destruct Hhit as (tid & target & Hfind & Hid & Hnpc & Hhealth).
    destruct (Game.isNPC hit) eqn:Hh; [reflexivity |]; cbn [negb andb].
    rewrite find_app in Hfind.
    destruct (find (fun p => String.eqb (Game.id p) tid) players)
      as [found |] eqn:Hfound.
    - injection Hfind as ->.
      unfold UseNPCManager.reportedDamage; rewrite Hid, Hfound; cbn.
      apply find_some in Hfound; destruct Hfound as [Hin _].
      rewrite Forall_forall in Hplayers; specialize (Hplayers _ Hin).
      unfold health_ok in Hplayers.
      match type of Hhealth with
      | context [NpcAiEngine.npcDamage (src ?k)] =>
          pose proof (npcActualDamage_nonneg _ target (Hsrc k)) as Hdmg
      end.
      rewrite Z.gtb_ltb; apply Z.ltb_ge.
      destruct (Game.health target =? 0) eqn:Hz; lia.
    - apply find_some in Hfind; destruct Hfind as [Hin _].
      rewrite Forall_forall in Hnpcs; specialize (Hnpcs _ Hin).
      congruence. }
  rewrite Hno; intros [<- | []]; eexists; reflexivity.
Qed.

Lemma same_standing_refl (p : Game.OnlinePlayer) : same_standing p p.
Proof. repeat split. Qed.

Lemma no_damage_reported (calls : list UseNPCManager.Call) :
  (forall call, In call calls ->
                exists updated, call = UseNPCManager.onNPCUpdate updated) ->
  existsb reports_damage calls = false.
Proof.
  induction calls as [| call calls IH]; intro H; [reflexivity |].
  cbn; destruct (H call (or_introl eq_refl)) as [updated ->]; cbn.
  apply IH; intros c Hc; apply H; right; exact Hc.
Qed.

(** One NPC through [updateNPCs]: it keeps its standing, and reports no
    damage. *)
Lemma updateOne_spec (M : MathFns) (players npcs : list Game.OnlinePlayer)
    (npcData : JsMap UseNPCManager.NPCData) (deltaTime : Q) (now : Z)
    (npc : Game.OnlinePlayer) (aiStates : JsMap NpcAiEngine.AIState)
    (src : RandomSource) (n : nat) :
  let r := fst (UseNPCManager.updateOne M players (players ++ npcs) npcData
                  deltaTime now npc aiStates src n) in
  same_standing npc (fst (fst r))
  /\ (Forall (fun p => Game.isNPC p = true) npcs ->
      Forall health_ok players ->
      valid_source src ->
      existsb reports_damage (snd r) = false).
Proof.
  cbv zeta; split.
  - unfold UseNPCManager.updateOne.
    destruct (negb (Game.isNPC npc) || Game.isDead npc);
      [apply same_standing_refl |].
    destruct (Map_get (Game.id npc) aiStates) as [aiState |];
      [| apply same_standing_refl].
    destruct (Map_get (Game.id npc) npcData) as [data |];
      [| apply same_standing_refl].
    unfold bind at 1.
    pose proof (updateNPC_keeps_record M npc aiState (players ++ npcs)
                  (UseNPCManager.spawnPosition data) deltaTime
                  NpcAiEngine.DEFAULT_AI_CONFIG now src n) as [Hk _].
    cbv zeta in Hk.
    destruct (NpcAiEngine.updateNPC M npc aiState (players ++ npcs)
                (UseNPCManager.spawnPosition data) deltaTime
                NpcAiEngine.DEFAULT_AI_CONFIG now src n) as [r n'].
    exact Hk.
  - intros Hnpcs Hplayers Hsrc; apply no_damage_reported.
    exact (updateOne_reports_no_damage M players npcs npcData deltaTime
             now npc aiStates src n Hnpcs Hplayers Hsrc).
Qed.

(** The NPCs through [updateNPCs], one after the other. *)
Lemma updateEach_spec (M : MathFns) (players npcs : list Game.OnlinePlayer)
    (npcData : JsMap UseNPCManager.NPCData) (deltaTime : Q) (now : Z)
    (src : RandomSource) :
  forall (todo : list Game.OnlinePlayer)
         (aiStates : JsMap NpcAiEngine.AIState) (n : nat),
    let r := fst (UseNPCManager.updateEach M players (players ++ npcs)
                    npcData deltaTime now todo aiStates src n) in
    Forall2 same_standing todo (fst (fst r))
    /\ (Forall (fun p => Game.isNPC p = true) npcs ->
        Forall health_ok players ->
        valid_source src ->
        existsb reports_damage (snd r) = false).
Proof.
  induction todo as [| npc rest IH]; intros aiStates n; cbv zeta;
    cbn [UseNPCManager.updateEach].
  - split; [constructor | reflexivity].
  - unfold bind.
    pose proof (updateOne_spec M players npcs npcData deltaTime now npc
                  aiStates src n) as [Hone Hcalls]; cbv zeta in Hone, Hcalls.
    destruct (UseNPCManager.updateOne M players (players ++ npcs) npcData
                deltaTime now npc aiStates src n) as [[[npc' aiStates'] calls] n1].
    cbn [fst snd] in *.
    specialize (IH aiStates' n1); cbv zeta in IH; destruct IH as [Hrest Hcalls'].
    destruct (UseNPCManager.updateEach M players (players ++ npcs) npcData
                deltaTime now rest aiStates' src n1)
      as [[[rest' aiStates''] calls'] n2].
    cbn [fst snd ret] in *.
    split; [constructor; assumption |].
    intros Hnpcs Hplayers Hsrc.
    rewrite existsb_app, (Hcalls Hnpcs Hplayers Hsrc),
      (Hcalls' Hnpcs Hplayers Hsrc); reflexivity.
Qed.

(** The NPC manager never hurts an NPC: [updateNPCs] returns the NPCs in
    the same order, each with the id, name, country, health, maximal
    health, points, death flag, respawn time, NPC flag and AI type it had,
    and leaves the NPC data.  (No other code writes the NPCs of the hook,
    so an NPC never loses health and never dies.) *)
Theorem updateNPCs_keeps_standing :
  forall (M : MathFns) (players : list Game.OnlinePlayer) (deltaTime : Q)
         (now : Z) (st : UseNPCManager.State) (src : RandomSource) (n : nat),
    let st' := fst (fst (UseNPCManager.updateNPCs M players deltaTime now st
                           src n)) in
    Forall2 same_standing (UseNPCManager.npcs st) (UseNPCManager.npcs st')
    /\ UseNPCManager.npcData st' = UseNPCManager.npcData st.
Proof.
  intros M players deltaTime now st src n; cbv zeta.
  unfold UseNPCManager.updateNPCs.
  destruct (UseNPCManager.npcs st) as [| npc rest] eqn:Hnpcs.
  - cbn; rewrite Hnpcs; split; constructor.
  - rewrite <- Hnpcs; unfold bind.
    pose proof (updateEach_spec M players (UseNPCManager.npcs st)
                  (UseNPCManager.npcData st) deltaTime now src
                  (UseNPCManager.npcs st) (UseNPCManager.aiStates st) n)
      as [Hroster _]; cbv zeta in Hroster.
    destruct (UseNPCManager.updateEach M players
                (players ++ UseNPCManager.npcs st) (UseNPCManager.npcData st)
                deltaTime now (UseNPCManager.npcs st)
                (UseNPCManager.aiStates st) src n)
      as [[[updated aiStates'] calls] n'].
    cbn [fst snd ret UseNPCManager.npcs UseNPCManager.npcData] in *.
    split; [assumption | reflexivity].
Qed.

(** The NPC manager never tells the page that a player was hurt.  When
    every NPC of the hook is flagged as an NPC, no player has a negative
    health and the random values are in [0, 1), [updateNPCs] makes no
    call of [onPlayerDamage]: the damage it computes for the player an NPC
    has hit is the health after the hit minus the health before it, which
    is never positive. *)
Theorem updateNPCs_reports_no_damage :
  forall (M : MathFns) (players : list Game.OnlinePlayer) (deltaTime : Q)
         (now : Z) (st : UseNPCManager.State) (src : RandomSource) (n : nat),
    Forall (fun p => Game.isNPC p = true) (UseNPCManager.npcs st) ->
    Forall health_ok players ->
    valid_source src ->
    existsb reports_damage
      (snd (fst (UseNPCManager.updateNPCs M players deltaTime now st src n)))
    = false.
Proof.
  intros M players deltaTime now st src n Hflag Hplayers Hsrc.
  unfold UseNPCManager.updateNPCs.
  destruct (UseNPCManager.npcs st) as [| npc rest] eqn:Hnpcs;
    [reflexivity |].
  rewrite <- Hnpcs in *; unfold bind.
  pose proof (updateEach_spec M players (UseNPCManager.npcs st)
                (UseNPCManager.npcData st) deltaTime now src
                (UseNPCManager.npcs st) (UseNPCManager.aiStates st) n)
    as [_ Hcalls]; cbv zeta in Hcalls.
  destruct (UseNPCManager.updateEach M players
              (players ++ UseNPCManager.npcs st) (UseNPCManager.npcData st)
              deltaTime now (UseNPCManager.npcs st)
              (UseNPCManager.aiStates st) src n)
    as [[[updated aiStates'] calls] n'].
  cbn [fst snd ret] in *.
  exact (Hcalls Hflag Hplayers Hsrc).
Qed.

(** An aggressive NPC next to Player1 attacks it at 5000 (the attack time
    of its AI state is stamped), and the page is only told of the NPC's
    update. *)
Lemma updateNPCs_reports_no_damage_witness :
  let target := World.mockPlayer "1" "Player1" 100 150 "usa" in
  let npc :=
    {| Game.id := "npc-1"; Game.name := "NPC 1"; Game.x := 101; Game.y := 150;
       Game.country := "uk"; Game.health := 100; Game.maxHealth := 100;
       Game.points := 3; Game.lastAttackTime := 0; Game.lastDefendTime := 0;
       Game.isDefending := false; Game.isAttacking := false;
       Game.isDead := false; Game.respawnTime := None; Game.isNPC := true;
       Game.aiType := Some "aggressive" |} in
  let st :=
    {| UseNPCManager.npcs := [npc];
       UseNPCManager.npcData :=
         [("npc-1",
           {| UseNPCManager.dataId := "npc-1";
              UseNPCManager.dataAiType := Some "aggressive";
              UseNPCManager.spawnPosition :=
                {| NpcAiEngine.vx := 101; NpcAiEngine.vy := 0;
                   NpcAiEngine.vz := 150 |} |})];
       UseNPCManager.aiStates :=
         [("npc-1", NpcAiEngine.createAIState NpcAiEngine.AGGRESSIVE)] |} in
  let r := fun M : MathFns =>
             fst (UseNPCManager.updateNPCs M [target] 0.016 5000 st
                    (fun _ => 0.5%Q) 0%nat) in
  Forall (fun p => Game.isNPC p = true) (UseNPCManager.npcs st)
  /\ Forall health_ok [target]
  /\ valid_source (fun _ => 0.5%Q)
  /\ (forall M,
         option_map NpcAiEngine.lastAttackTime
           (Map_get "npc-1" (UseNPCManager.aiStates (fst (r M))))
         = Some 5000)
  /\ (forall M, existsb reports_damage (snd (r M)) = false).
Proof.
  intros target npc st r.
  assert (Hflag : Forall (fun p => Game.isNPC p = true)
                    (UseNPCManager.npcs st))
    by (repeat constructor).
  assert (Hplayers : Forall health_ok [target])
    by (repeat constructor; unfold health_ok; cbn; lia).
  assert (Hsrc : valid_source (fun _ => 0.5%Q))
    by (intro k; split; reflexivity || discriminate).
  split; [exact Hflag | split; [exact Hplayers | split; [exact Hsrc |]]].
  split; [intro M; reflexivity | intro M].
  exact (updateNPCs_reports_no_damage M [target] 0.016 5000 st
           (fun _ => 0.5%Q) 0%nat Hflag Hplayers Hsrc).
Defined.

Lemma filter_keeps_all {A : Type} (f : A -> bool) (l : list A) :
  (forall a, In a l -> f a = true) -> filter f l = l.
Proof.
  induction l as [| a l IH]; intro H; cbn; [reflexivity |].
  rewrite (H a (or_introl eq_refl)); f_equal.
  apply IH; intros b Hb; apply H; right; exact Hb.
Qed.

(** Adding an NPC and removing it again.  [addNPC] appends the NPC it
    returns to the NPCs of the hook and registers an AI state of the
    behaviour asked for (passive when none is) and the NPC data under the
    NPC's id; when that id was not in use, [removeNPC] of it gives back
    the state of the hook before [addNPC]. *)
Theorem removeNPC_undoes_addNPC :
  forall (width height : Z) (npcPartial : UseNPCManager.PartialPlayer)
         (now : Z) (st : UseNPCManager.State) (src : RandomSource) (n : nat),
    let r := fst (UseNPCManager.addNPC width height npcPartial now st src n) in
    let id := Game.id (fst r) in
    (forall npc, In npc (UseNPCManager.npcs st) -> Game.id npc <> id) ->
    Map_get id (UseNPCManager.npcData st) = None ->
    Map_get id (UseNPCManager.aiStates st) = None ->
    UseNPCManager.npcs (snd r) = (UseNPCManager.npcs st ++ [fst r])%list
    /\ Map_get id (UseNPCManager.aiStates (snd r))
       = Some (NpcAiEngine.createAIState
                 (UseNPCManager.asAIBehaviorType
                    (UseNPCManager.or_string
                       (UseNPCManager.partial_aiType npcPartial) "passive")))
    /\ option_map UseNPCManager.spawnPosition
         (Map_get id (UseNPCManager.npcData (snd r)))
       = Some {| NpcAiEngine.vx := Game.x (fst r); NpcAiEngine.vy := 0;
                 NpcAiEngine.vz := Game.y (fst r) |}
    /\ UseNPCManager.removeNPC id (snd r) = st.
Proof.
  intros width height npcPartial now st src n r id; subst id r.
  unfold UseNPCManager.addNPC, bind.
  destruct (UseNPCManager.or_randomCoordinate
              (UseNPCManager.partial_x npcPartial) width src n) as [x n1].
  destruct (UseNPCManager.or_randomCoordinate
              (UseNPCManager.partial_y npcPartial) height src n1) as [y n2].
  cbn [fst snd ret Game.id Game.x Game.y UseNPCManager.npcs
         UseNPCManager.aiStates UseNPCManager.npcData].
  intros Hfresh Hdata Hai.
  rewrite !Map_get_set, String.eqb_refl.
  repeat split.
  unfold UseNPCManager.removeNPC;
    cbn [UseNPCManager.npcs UseNPCManager.aiStates UseNPCManager.npcData].
  rewrite (Map_delete_set _ _ _ Hdata), (Map_delete_set _ _ _ Hai).
  rewrite filter_app; cbn [filter Game.id].
  rewrite String.eqb_refl; cbn [negb]; rewrite app_nil_r.
  rewrite filter_keeps_all; [destruct st; reflexivity |].
  intros npc Hin; apply negb_true_iff, String.eqb_neq, Hfresh, Hin.
Qed.

(** An NPC added with the id "boss" to a hook that holds no NPC. *)
Lemma removeNPC_undoes_addNPC_witness :
  let npcPartial :=
    {| UseNPCManager.partial_id := Some "boss";
       UseNPCManager.partial_name := None;
       UseNPCManager.partial_x := Some 400%Q;
       UseNPCManager.partial_y := None;
       UseNPCManager.partial_country := Some "russia";
       UseNPCManager.partial_health := Some 0;
       UseNPCManager.partial_maxHealth := Some 150;
       UseNPCManager.partial_points := None;
       UseNPCManager.partial_aiType := Some "aggressive" |} in
  let r := fst (UseNPCManager.addNPC 800 600 npcPartial 5000
                  UseNPCManager.emptyState (fun _ => 0.5%Q) 0%nat) in
  Game.id (fst r) = "boss"
  /\ Game.name (fst r) = "NPC 1"
  /\ Game.health (fst r) = 100
  /\ Game.maxHealth (fst r) = 150
  /\ UseNPCManager.removeNPC "boss" (snd r) = UseNPCManager.emptyState.
Proof.
  intros npcPartial r.
  repeat (split; [reflexivity |]).
  exact (proj2 (proj2 (proj2
           (removeNPC_undoes_addNPC 800 600 npcPartial 5000
              UseNPCManager.emptyState (fun _ => 0.5%Q) 0%nat
              (fun npc (H : In npc []) => match H with end)
              eq_refl eq_refl)))).
Defined.

(** Different numbers have different numerals. *)
Lemma decimal_inj (n m : nat) : decimal n = decimal m -> n = m.
Proof.
  unfold decimal; intro H.
  assert (Hn : forall k, Nat.to_uint k <> Decimal.Nil).
  { intro k; pose proof (DecimalNat.Unsigned.to_of (Nat.to_uint k)) as E.
    rewrite DecimalNat.Unsigned.of_to in E; rewrite E; apply DecimalFacts.unorm_nonnil. }
  apply (f_equal NilZero.uint_of_string) in H.
  rewrite !NilZero.usu in H by apply Hn.
  injection H as H; apply DecimalNat.Unsigned.to_uint_inj; exact H.
Qed.

Lemma npc_id_inj (i j : nat) :
  "npc-" ++ decimal (i + 1) = "npc-" ++ decimal (j + 1) -> i = j.
Proof.
  cbn; intro H; injection H as H.
  apply decimal_inj in H; lia.
Qed.

(** [pick] returns an element of a non-empty array for a draw of [0, 1). *)
Lemma pick_valid {A : Type} (array : list A) (rnd : Q) :
  unit_interval rnd -> array <> [] ->
  exists a, UseNPCManager.pick array rnd = Some a /\ In a array.
Proof.
  intros Hrnd Hne; unfold UseNPCManager.pick.
  assert (Hlen : 0 < Z.of_nat (length array))
    by (destruct array; [contradiction | cbn; lia]).
  pose proof (floor_roll_range rnd _ Hrnd Hlen) as Hi.
  destruct (Z.ltb_spec (Qfloor (rnd * inject_Z (Z.of_nat (length array)))) 0);
    [lia |].
  destruct (nth_error array
              (Z.to_nat (Qfloor (rnd * inject_Z (Z.of_nat (length array))))))
    as [a |] eqn:E.
  - exists a; split; [reflexivity | exact (nth_error_In _ _ E)].
  - apply nth_error_None in E; lia.
Qed.

(** The NPC the mount effect builds in one turn of its loop. *)
Lemma initialNPC_spec (width height : Z) (i : nat) (src : RandomSource)
    (n : nat) :
  valid_source src -> 64 < width -> 64 < height ->
  let r := UseNPCManager.initialNPC width height i src n in
  let npc := fst (fst (fst r)) in
  initial_npc width height i npc
  /\ snd (fst (fst r))
     = {| UseNPCManager.dataId := Game.id npc;
          UseNPCManager.dataAiType := Game.aiType npc;
          UseNPCManager.spawnPosition :=
            {| NpcAiEngine.vx := Game.x npc; NpcAiEngine.vy := 0;
               NpcAiEngine.vz := Game.y npc |} |}
  /\ snd (fst r) = NpcAiEngine.createAIState (behaviourOf npc).
Proof.
  intros Hsrc Hw Hh; cbv zeta.
  unfold UseNPCManager.initialNPC, bind, ret, Math_random; cbn [fst snd].
  split; [| split; reflexivity].
  unfold initial_npc;
    cbn [Game.id Game.name Game.isNPC Game.isDead Game.health Game.maxHealth
           Game.points Game.country Game.aiType Game.x Game.y].
  destruct (pick_valid UseNPCManager.countries (src n) (Hsrc n))
    as (country & -> & Hcountry); [discriminate |].
  destruct (pick_valid UseNPCManager.aiTypes (src (S n)) (Hsrc (S n)))
    as (aiType & -> & HaiType); [discriminate |].
  pose proof (floor_roll_range (src (S (S (S (S n))))) 5
                (Hsrc (S (S (S (S n))))) eq_refl) as Hpoints.
  change (inject_Z 5) with 5%Q in Hpoints.
  destruct (spawn_coordinate (src (S (S n))) width (Hsrc (S (S n))) Hw)
    as [Hx0 Hx1].
  destruct (spawn_coordinate (src (S (S (S n)))) height
              (Hsrc (S (S (S n)))) Hh) as [Hy0 Hy1].
  repeat split; try assumption; try lia.
  unfold UseNPCManager.aiTypes in HaiType.
  apply in_map_iff in HaiType; destruct HaiType as (b & <- & _).
  exists b; reflexivity.
Qed.

(** The loop of the mount effect, from any state of the hook and any
    first index: it appends the NPCs it builds, one per index, each
    well-formed and registered, and leaves what the two refs hold under
    other keys. *)
Lemma initialise_spec (width height : Z) (src : RandomSource) :
  valid_source src -> 64 < width -> 64 < height ->
  forall (playerCount first : nat) (st : UseNPCManager.State) (n : nat),
    let st' := fst (UseNPCManager.initialise width height playerCount first
                      st src n) in
    (exists built,
        UseNPCManager.npcs st' = (UseNPCManager.npcs st ++ built)%list
        /\ Forall2 (fun i npc => initial_npc width height i npc
                                 /\ registered st' npc)
             (seq first playerCount) built)
    /\ (forall k,
           (forall i, (first <= i < first + playerCount)%nat ->
                      k <> "npc-" ++ decimal (i + 1)) ->
           Map_get k (UseNPCManager.aiStates st')
           = Map_get k (UseNPCManager.aiStates st)
           /\ Map_get k (UseNPCManager.npcData st')
              = Map_get k (UseNPCManager.npcData st)).
Proof.
  intros Hsrc Hw Hh.
  induction playerCount as [| count IH]; intros first st n; cbv zeta.
  - cbn; split; [exists []; rewrite List.app_nil_r; split; constructor |].
    intros; split; reflexivity.
  - cbn [UseNPCManager.initialise]; unfold bind.
    pose proof (initialNPC_spec width height first src n Hsrc Hw Hh)
      as (Hnpc & Hdata & Hai); cbv zeta in Hnpc, Hdata, Hai.
    destruct (UseNPCManager.initialNPC width height first src n)
      as [[[npc data] aiState] n1]; cbn [fst snd] in *.
    set (st1 := {| UseNPCManager.npcs := _ |}).
    specialize (IH (S first) st1 n1); cbv zeta in IH.
    destruct IH as [(built & Hnpcs & Hbuilt) Hframe].
    assert (Hid : Game.id npc = "npc-" ++ decimal (first + 1))
      by exact (proj1 Hnpc).
    split.
    + exists (npc :: built); split.
      * rewrite Hnpcs; unfold st1; cbn [UseNPCManager.npcs].
        rewrite <- List.app_assoc; reflexivity.
      * cbn [seq]; constructor; [| exact Hbuilt].
        split; [exact Hnpc |].
        destruct (Hframe (Game.id npc)) as [Ea Ed].
        { intros i Hi E; rewrite Hid in E; apply npc_id_inj in E; lia. }
        unfold registered; rewrite Ea, Ed; unfold st1;
          cbn [UseNPCManager.aiStates UseNPCManager.npcData].
        rewrite !Map_get_set, String.eqb_refl, Hdata, Hai.
        split; reflexivity.
    + intros k Hk.
      destruct (Hframe k) as [Ea Ed];
        [intros i Hi; apply Hk; lia |].
      rewrite Ea, Ed; unfold st1;
        cbn [UseNPCManager.aiStates UseNPCManager.npcData].
      rewrite !Map_get_set.
      assert (Hne : String.eqb (Game.id npc) k = false).
      { apply String.eqb_neq; rewrite Hid; intro E.
        apply (Hk first); [lia | symmetry; exact E]. }
      rewrite Hne; split; reflexivity.
Qed.

(** The NPCs of the mount effect.  On a map more than 64 wide and high,
    with random values in [0, 1), the effect builds [playerCount] NPCs,
    npc-1, npc-2, ... in this order; each is flagged as an NPC, alive,
    with 100 of 100 health, 1 to 5 points, one of the five countries and
    one of the five behaviours, at a position at least 32 inside the map;
    and each is registered: under its id the refs hold a fresh AI state
    of its behaviour and NPC data whose spawn position is its position. *)
Theorem initialise_roster :
  forall (width height : Z) (playerCount : nat) (src : RandomSource)
         (n : nat),
    valid_source src -> 64 < width -> 64 < height ->
    let st := fst (UseNPCManager.initialise width height playerCount 0
                     UseNPCManager.emptyState src n) in
    Forall2 (fun i npc => initial_npc width height i npc /\ registered st npc)
      (seq 0 playerCount) (UseNPCManager.npcs st).
Proof.
  intros width height playerCount src n Hsrc Hw Hh st.
  destruct (initialise_spec width height src Hsrc Hw Hh playerCount 0%nat
              UseNPCManager.emptyState n) as [(built & Hnpcs & Hbuilt) _].
  fold st in Hnpcs, Hbuilt; rewrite Hnpcs; exact Hbuilt.
Qed.

(** The five NPCs of the open-world page, on its 800 by 600 map. *)
Lemma initialise_roster_witness :
  let src : RandomSource := fun k => (1 # Pos.of_nat (k + 2))%Q in
  let st := fst (UseNPCManager.initialise 800 600 5 0
                   UseNPCManager.emptyState src 0%nat) in
  valid_source src
  /\ map Game.id (UseNPCManager.npcs st)
     = ["npc-1"; "npc-2"; "npc-3"; "npc-4"; "npc-5"]
  /\ Forall2 (fun i npc => initial_npc 800 600 i npc /\ registered st npc)
       (seq 0 5) (UseNPCManager.npcs st).
Proof.
  intros src st.
  assert (Hsrc : valid_source src).
  { intro k; unfold src, unit_interval, Qle, Qlt; cbn; lia. }
  split; [exact Hsrc | split; [reflexivity |]].
  exact (initialise_roster 800 600 5 src 0%nat Hsrc eq_refl eq_refl).
Defined.

(** ** The open world: consistency of the combatants *)

(** The roll of the open-world attack is positive for a draw that is not
    negative, for every country the table is looked up with as an own
    key. *)
Lemma baseDamage_pos (country : string) (rnd : Q) :
  (0 <= rnd)%Q -> 0 < GameCanvas.baseDamage country rnd.
Proof.
  intro Hrnd; unfold GameCanvas.baseDamage, damageRangeOf, WEAPON_DAMAGE.
  assert (H : forall k, 0 < k -> 0 <= Qfloor (rnd * inject_Z k)).
  { intros k Hk; rewrite <- (Qfloor_Z 0); apply Qfloor_resp_le.
    apply Qmult_le_0_compat; [exact Hrnd |].
    apply Qlt_le_weak, inject_Z_pos; exact Hk. }
  repeat match goal with
         | |- context [if ?c then _ else _] => destruct c
         end;
    cbn [min max WEAPON_DAMAGE_usa];
    match goal with
    | |- 0 < Qfloor (rnd * inject_Z ?k) + _ =>
        pose proof (H k eq_refl); lia
    end.
Qed.

Lemma defenseMultiplier_nonneg (target : Game.OnlinePlayer) :
  (0 <= GameCanvas.defenseMultiplier target)%Q.
Proof.
  unfold GameCanvas.defenseMultiplier, DEFENSE_VALUES.
  destruct (Game.isDefending target); [| discriminate].
  repeat match goal with
         | |- context [if ?c then _ else _] => destruct c
         end; discriminate.
Qed.

Lemma finalDamage_nonneg (country : string) (rnd : Q)
    (target : Game.OnlinePlayer) :
  (0 <= rnd)%Q ->
  0 <= GameCanvas.finalDamage (GameCanvas.baseDamage country rnd) target.
Proof.
  intro Hrnd; unfold GameCanvas.finalDamage.
  rewrite <- (Qfloor_Z 0); apply Qfloor_resp_le, Qmult_le_0_compat;
    [| apply defenseMultiplier_nonneg].
  apply Qlt_le_weak, inject_Z_pos, baseDamage_pos; exact Hrnd.
Qed.

(** The calls a click makes: the death of a living player under the
    click, or that player with less health, some of it left. *)
Lemma handleCanvasClick_calls (sel : option GameCanvas.Character)
    (players : list Game.OnlinePlayer) (click : Q * Q) (now : Z) (rnd : Q)
    (s : GameCanvas.State) :
  (0 <= rnd)%Q ->
  let r := GameCanvas.handleCanvasClick sel players click now rnd s in
  (snd r = []
   \/ exists clicked,
        In clicked players /\ Game.isDead clicked = false
        /\ (snd r = [GameCanvas.onPlayerDeath (Game.id clicked)]
            \/ exists left,
                 0 < left <= Game.health clicked
                 /\ snd r = [GameCanvas.onPlayerUpdate
                               (Game.set_health left clicked)]))
  /\ GameCanvas.playerHealth (fst r) = GameCanvas.playerHealth s
  /\ GameCanvas.playerIsDead (fst r) = GameCanvas.playerIsDead s
  /\ GameCanvas.respawnTimeouts (fst r) = GameCanvas.respawnTimeouts s
  /\ GameCanvas.playerPoints s <= GameCanvas.playerPoints (fst r).
Proof.
  intro Hrnd; cbv zeta; unfold GameCanvas.handleCanvasClick.
  destruct (GameCanvas.playerIsDead s) eqn:Hdead;
    [cbn; rewrite Hdead; repeat split; auto; lia |].
  destruct (find _ players) as [clicked |] eqn:Hfind;
    [| cbn; repeat split; auto; lia].
  destruct (dist_le _ _ (inject_Z GameCanvas.ATTACK_RANGE_2D));
    [| cbn; repeat split; auto; lia].
  destruct (_ >=? GameCanvas.ATTACK_COOLDOWN);
    [| cbn; repeat split; auto; lia].
  rewrite handleAttack_outcome.
  apply find_some in Hfind; destruct Hfind as [Hin Hpred].
  apply andb_true_iff in Hpred; destruct Hpred as [Halive _].
  apply negb_true_iff in Halive.
  pose proof (finalDamage_nonneg (GameCanvas.playerCountry sel) rnd clicked
                Hrnd) as Hdmg.
  set (left := Z.max 0 _) in *.
  assert (Hleft : left <= Game.health clicked \/ left = 0)
    by (unfold left; lia).
  clearbody left.
  destruct (Z.leb_spec left 0) as [Hle | Hgt];
    cbn [fst snd GameCanvas.playerHealth GameCanvas.playerIsDead
           GameCanvas.respawnTimeouts GameCanvas.playerPoints GameCanvas.log
           GameCanvas.set_combatLog GameCanvas.set_playerPoints
           GameCanvas.set_lastAttackTimeRef GameCanvas.set_inRange
           GameCanvas.set_targetPlayer];
    (split; [right; exists clicked; split; [exact Hin |];
             split; [exact Halive |] | repeat split; auto; lia]).
  - left; reflexivity.
  - right; exists left; split; [lia | reflexivity].
Qed.

Lemma handlePlayerUpdate_ids (u : Game.OnlinePlayer)
    (players : list Game.OnlinePlayer) :
  map Game.id (OpenSpaceGame.handlePlayerUpdate u players)
  = map Game.id players.
Proof.
  unfold OpenSpaceGame.handlePlayerUpdate; rewrite map_map.
  apply map_ext; intro p.
  destruct (String.eqb (Game.id p) (Game.id u)) eqn:E; [| reflexivity].
  apply String.eqb_eq in E; symmetry; exact E.
Qed.

Lemma handlePlayerDeath_ids (playerId : string) (now : Z)
    (players : list Game.OnlinePlayer) :
  map Game.id (OpenSpaceGame.handlePlayerDeath playerId now players)
  = map Game.id players.
Proof.
  unfold OpenSpaceGame.handlePlayerDeath; rewrite map_map.
  apply map_ext; intro p.
  destruct (String.eqb (Game.id p) playerId); reflexivity.
Qed.

Lemma map_replace_absent (k : string)
    (f : Game.OnlinePlayer -> Game.OnlinePlayer)
    (players : list Game.OnlinePlayer) :
  ~ In k (map Game.id players) ->
  map (fun p => if String.eqb (Game.id p) k then f p else p) players
  = players.
Proof.
  induction players as [| p rest IH]; intro Hk; [reflexivity |].
  cbn in *; destruct (String.eqb (Game.id p) k) eqn:E.
  - apply String.eqb_eq in E; exfalso; apply Hk; left; exact E.
  - f_equal; apply IH; intro Hin; apply Hk; right; exact Hin.
Qed.

(** An update or a death of a player whose id is not in the list leaves
    the list as it is. *)
Lemma notify_stranger (now : Z) (call : GameCanvas.ParentCall)
    (players : list Game.OnlinePlayer) :
  ~ In match call with
       | GameCanvas.onPlayerUpdate u => Game.id u
       | GameCanvas.onPlayerDeath playerId => playerId
       end (map Game.id players) ->
  OpenSpaceGame.notify now call players = players.
Proof.
  intro Hnot; destruct call as [u | playerId]; cbn in *.
  - exact (map_replace_absent (Game.id u) (fun _ => u) players Hnot).
  - exact (map_replace_absent playerId (OpenSpaceGame.killed now) players
             Hnot).
Qed.

Lemma killed_ok (now : Z) (p : Game.OnlinePlayer) :
  roster_ok p -> roster_ok (OpenSpaceGame.killed now p).
Proof.
  intros (Hm & Hh & Hp & Hn & _); unfold roster_ok; cbn.
  repeat split; auto; try lia; discriminate.
Qed.

Lemma respawned_ok (rndX rndY : Q) (p : Game.OnlinePlayer) :
  roster_ok p -> roster_ok (OpenSpaceGame.respawned rndX rndY p).
Proof.
  intros (Hm & Hh & Hp & Hn & _); unfold roster_ok; cbn.
  repeat split; auto; lia.
Qed.

Lemma respawnPass_ids (now : Z) (src : RandomSource) :
  forall players n,
    map Game.id (fst (OpenSpaceGame.respawnPass now players src n))
    = map Game.id players.
Proof.
  induction players as [| p rest IH]; intro n; [reflexivity |].
  cbn [OpenSpaceGame.respawnPass]; unfold bind, ret, Math_random.
  destruct (OpenSpaceGame.respawnDue now p).
  - specialize (IH (S (S n))).
    destruct (OpenSpaceGame.respawnPass now rest src (S (S n))); cbn in *.
    f_equal; exact IH.
  - specialize (IH n).
    destruct (OpenSpaceGame.respawnPass now rest src n); cbn in *.
    f_equal; exact IH.
Qed.

Lemma Forall_map_if {A : Type} (P : A -> Prop) (c : A -> bool) (f : A -> A)
    (l : list A) :
  (forall a, P a -> c a = true -> P (f a)) ->
  Forall P l -> Forall P (map (fun a => if c a then f a else a) l).
Proof.
  intros Hf Hl; induction Hl as [| a l Ha _ IH]; cbn; constructor; auto.
  destruct (c a) eqn:E; auto.
Qed.

Lemma handlePlayerDeath_ok (playerId : string) (now : Z)
    (players : list Game.OnlinePlayer) :
  Forall roster_ok players ->
  Forall roster_ok (OpenSpaceGame.handlePlayerDeath playerId now players).
Proof.
  apply Forall_map_if; intros p Hp _; apply killed_ok; exact Hp.
Qed.

(** What a click does to the roster, when the NPCs on the canvas have
    ids of their own: the roster stays consistent and keeps its ids. *)
Lemma click_roster_ok (sel : option GameCanvas.Character)
    (npcs : list Game.OnlinePlayer) (click : Q * Q) (now : Z) (rnd : Q)
    (s : GameCanvas.State) (players : list Game.OnlinePlayer) :
  map Game.id players = roster_ids ->
  Forall roster_ok players ->
  (0 <= rnd)%Q ->
  Forall (fun npc => ~ In (Game.id npc) roster_ids) npcs ->
  let calls := snd (GameCanvas.handleCanvasClick sel (players ++ npcs) click
                      now rnd s) in
  map Game.id (World.notifyAll now calls players) = roster_ids
  /\ Forall roster_ok (World.notifyAll now calls players).
Proof.
  intros Hids Hok Hrnd Hnpcs; cbv zeta.
  destruct (handleCanvasClick_calls sel (players ++ npcs) click now rnd s
              Hrnd) as [Hcalls _]; cbv zeta in Hcalls.
  destruct Hcalls as [-> | (clicked & Hin & Halive & Hcall)];
    [split; assumption |].
  apply in_app_or in Hin; destruct Hin as [Hin | Hin].
  - rewrite Forall_forall in Hok; pose proof (Hok _ Hin) as Hclicked.
    rewrite <- Forall_forall in Hok.
    destruct Hcall as [-> | (left & Hleft & ->)]; cbn.
    + rewrite handlePlayerDeath_ids; split;
        [exact Hids | apply handlePlayerDeath_ok; exact Hok].
    + rewrite handlePlayerUpdate_ids; split; [exact Hids |].
      apply Forall_map_if; [| exact Hok].
      intros _ _ _.
      destruct Hclicked as (Hm & Hh & Hp & Hn & Hd).
      rewrite Halive in Hd; unfold roster_ok; cbn; rewrite Halive.
      repeat split; auto; try lia; apply Hd.
  - rewrite Forall_forall in Hnpcs; specialize (Hnpcs _ Hin).
    rewrite <- Hids in Hnpcs.
    destruct Hcall as [-> | (left & Hleft & ->)];
      cbn [World.notifyAll fold_left];
      rewrite notify_stranger by exact Hnpcs; split; assumption.
Qed.

Lemma takenDamage_nonneg (sel : option GameCanvas.Character) (damage : Z)
    (s : GameCanvas.State) :
  0 <= damage -> 0 <= GameCanvas.takenDamage sel damage s.
Proof.
  intro Hd; unfold GameCanvas.takenDamage.
  destruct (GameCanvas.isDefendingRef s); [| exact Hd].
  rewrite <- (Qfloor_Z 0); apply Qfloor_resp_le, Qmult_le_0_compat.
  - change 0%Q with (inject_Z 0); rewrite <- Zle_Qle; exact Hd.
  - destruct sel as [c |]; [| discriminate].
    unfold DEFENSE_VALUES.
    repeat match goal with
           | |- context [if ?c then _ else _] => destruct c
           end; discriminate.
Qed.

(** What a damage does to the human player and to the roster. *)
Lemma takeDamage_ok (sel : option GameCanvas.Character) (damage now : Z)
    (s : GameCanvas.State) (players : list Game.OnlinePlayer) :
  0 <= damage ->
  canvas_ok sel s ->
  Forall roster_ok players ->
  let r := GameCanvas.takeDamage sel damage now s in
  canvas_ok sel (fst r)
  /\ map Game.id (World.notifyAll now (snd r) players) = map Game.id players
  /\ Forall roster_ok (World.notifyAll now (snd r) players).
Proof.
  intros Hd (Hh & Hp & Hdead) Hok; cbv zeta.
  pose proof (takenDamage_nonneg sel damage s Hd) as Hdealt.
  unfold GameCanvas.takeDamage.
  set (dealt := GameCanvas.takenDamage sel damage s) in *.
  destruct (Z.leb_spec (Z.max 0 (GameCanvas.playerHealth s - dealt)) 0)
    as [Hle | Hgt].
  - assert (E : Z.max 0 (GameCanvas.playerHealth s - dealt) = 0) by lia.
    rewrite E; unfold GameCanvas.handlePlayerDeath.
    destruct sel as [c |].
    + destruct (GameCanvas.playerIsDead s) eqn:Hs.
      * cbn; unfold canvas_ok; cbn; rewrite Hs.
        repeat split; auto; try lia; apply Hdead.
      * cbn [fst snd World.notifyAll fold_left OpenSpaceGame.notify].
        rewrite handlePlayerDeath_ids.
        split; [| split; [reflexivity | apply handlePlayerDeath_ok, Hok]].
        unfold canvas_ok; cbn; destruct Hdead as [-> _].
        unfold GameCanvas.MAX_HEALTH in *; repeat split; auto; lia.
    + cbn; unfold canvas_ok; cbn.
      destruct (GameCanvas.playerIsDead s);
        unfold GameCanvas.MAX_HEALTH in *; repeat split; auto; try lia;
        try apply Hdead; intro H; contradiction.
  - cbn; unfold canvas_ok; cbn.
    destruct (GameCanvas.playerIsDead s);
      unfold GameCanvas.MAX_HEALTH in *; repeat split; auto; try lia;
      try apply Hdead.
Qed.

(** The invariant of the open world, for a character of one of the five
    classes. *)
Lemma Reachable_world_ok (sel : option GameCanvas.Character)
    (w : World.State) (clock : Z) :
  valid_character sel -> Reachable sel w clock -> world_ok sel w.
Proof.
  intros _ Hreach.
  induction Hreach as [t0 rndX rndY | w clock now e w' _ IH _ Hadm Hstep].
  - split; [| split].
    + unfold canvas_ok; cbn; unfold GameCanvas.MAX_HEALTH.
      repeat split; try lia.
    + reflexivity.
    + cbn [World.onlinePlayers World.initialState]; unfold World.mockPlayers.
      repeat (apply Forall_cons;
              [unfold roster_ok; cbn; repeat split; lia |]).
      apply Forall_nil.
  - destruct IH as (Hcanvas & Hids & Hok).
    destruct e as [npcs click rnd | | i | damage | i rndX rndY | src];
      cbn in Hstep, Hadm.
    + injection Hstep as <-; destruct Hadm as ([Hrnd _] & Hnpcs & _).
      destruct (click_roster_ok sel npcs click now rnd (World.canvas w)
                  (World.onlinePlayers w) Hids Hok Hrnd Hnpcs)
        as [Hids' Hok']; cbv zeta in Hids', Hok'.
      destruct (handleCanvasClick_calls sel (World.onlinePlayers w ++ npcs)
                  click now rnd (World.canvas w) Hrnd)
        as (_ & Eh & Ed & Et & Ep); cbv zeta in Eh, Ed, Et, Ep.
      split; [| split; assumption].
      destruct Hcanvas as (Hh & Hp & Hdead).
      unfold canvas_ok; cbn [World.canvas World.after].
      rewrite Eh, Ed, Et; repeat split; try lia; exact Hdead.
    + injection Hstep as <-; split; [| split; assumption].
      cbn [World.canvas]; unfold GameCanvas.handleDefend.
      destruct (_ <? GameCanvas.DEFENSE_COOLDOWN); exact Hcanvas.
    + destruct (DuelGame.fire now i _); [| discriminate].
      injection Hstep as <-; split; [exact Hcanvas | split; assumption].
    + injection Hstep as <-.
      destruct (takeDamage_ok sel damage now (World.canvas w)
                  (World.onlinePlayers w) Hadm Hcanvas Hok)
        as (Hc' & Hids' & Hok'); cbv zeta in Hc', Hids', Hok'.
      split; [exact Hc' | split; [| exact Hok']].
      cbn [World.onlinePlayers World.after]; rewrite Hids'; exact Hids.
    + unfold DuelGame.fire in Hstep.
      destruct (nth_error (GameCanvas.respawnTimeouts (World.canvas w)) i)
        as [due |] eqn:Hnth; [| discriminate].
      destruct (due <=? now); [| discriminate].
      injection Hstep as <-; split; [| split; assumption].
      destruct Hcanvas as (Hh & Hp & Hdead).
      destruct (GameCanvas.playerIsDead (World.canvas w)).
      * destruct Hdead as [_ Hone].
        destruct (GameCanvas.respawnTimeouts (World.canvas w))
          as [| t [| t' rest]]; try discriminate.
        destruct i as [| [| i]]; try discriminate.
        unfold canvas_ok; cbn; unfold GameCanvas.MAX_HEALTH.
        repeat split; lia.
      * destruct Hdead as [Hnone _]; rewrite Hnone in Hnth.
        destruct i; discriminate.
    + injection Hstep as <-; split; [exact Hcanvas |].
      cbn [World.onlinePlayers]; rewrite respawnPass_ids.
      split; [exact Hids |].
      apply respawnPass_Forall; [| exact Hok].
      intros rx ry p; apply respawned_ok.
Qed.

(** The state of the combatants is consistent in every state the open
    world reaches with a character of one of the five classes.  The human
    player has between 0 and 100 health and no negative points; it is dead
    only with no health left and then has exactly one respawn pending, and
    none when alive.  The roster keeps its five ids, and each of its
    players has between 0 and its maximal 100 health and no negative
    points, is dead exactly when it has no health left and has a respawn
    time exactly when it is dead. *)
Theorem World_combatants_consistent :
  forall (sel : option GameCanvas.Character) (w : World.State) (clock : Z),
    valid_character sel -> Reachable sel w clock -> world_ok sel w.
Proof.
  intros sel w clock Hsel Hreach.
  exact (Reachable_world_ok sel w clock Hsel Hreach).
Qed.

(** A samurai that the mount puts on Player4's spot hits it once, for 13
    points of health. *)
Lemma World_combatants_consistent_witness :
  let sel := Some {| GameCanvas.characterId := "me";
                     GameCanvas.characterCountry := "japan" |} in
  let w0 := World.initialState 0.5 (21 # 67) in
  let w1 := World.after 1000 w0
              (GameCanvas.handleCanvasClick sel (World.onlinePlayers w0)
                 (400, 200)%Q 1000 0.5 (World.canvas w0)) in
  valid_character sel
  /\ Reachable sel w1 1000
  /\ map Game.health (World.onlinePlayers w1) = [100; 100; 100; 87; 100]
  /\ world_ok sel w1.
Proof.
  intros sel w0 w1.
  assert (Hsel : valid_character sel) by (cbn; auto 10).
  assert (Hreach : Reachable sel w1 1000).
  { apply (Reachable_step sel w0 0 1000
             (World.CanvasClick [] (400, 200)%Q 0.5) w1).
    - apply Reachable_start.
    - lia.
    - cbn; split; [split; reflexivity || discriminate |].
      split; constructor.
    - cbn [World.step]; rewrite List.app_nil_r; reflexivity. }
  split; [exact Hsel |].
  split; [exact Hreach | split; [reflexivity |]].
  exact (World_combatants_consistent sel w1 1000 Hsel Hreach).
Defined.

(** Every call a click makes is about the first player under the
    click. *)
Lemma handleCanvasClick_target (sel : option GameCanvas.Character)
    (players : list Game.OnlinePlayer) (click : Q * Q) (now : Z) (rnd : Q)
    (s : GameCanvas.State) (call : GameCanvas.ParentCall) :
  In call (snd (GameCanvas.handleCanvasClick sel players click now rnd s)) ->
  exists clicked,
    find (under_click click) players = Some clicked
    /\ call_id call = Game.id clicked.
Proof.
  unfold GameCanvas.handleCanvasClick.
  destruct (GameCanvas.playerIsDead s); [intros [] |].
  change (fun p => negb (Game.isDead p)
                   && dist_le (Game.x p - fst click) (Game.y p - snd click)
                        (inject_Z GameCanvas.PLAYER_SIZE / 2))
    with (under_click click).
  destruct (find (under_click click) players) as [clicked |];
    [| intros []].
  destruct (dist_le _ _ (inject_Z GameCanvas.ATTACK_RANGE_2D));
    [| intros []].
  destruct (_ >=? GameCanvas.ATTACK_COOLDOWN); [| intros []].
  rewrite handleAttack_outcome.
  destruct (Z.max 0 _ <=? 0); intros [<- | []];
    exists clicked; split; reflexivity.
Qed.

(** Hitting an NPC changes no record.  The NPCs are shown on the canvas
    after the roster of the page, and the page applies the calls of the
    canvas to its roster only: when the click falls on no living player
    of the roster and no NPC has an id of the roster, the roster after
    the click is the roster before it, whatever the attack did. *)
Theorem hitting_an_npc_changes_no_record :
  forall (sel : option GameCanvas.Character) (npcs : list Game.OnlinePlayer)
         (click : Q * Q) (now : Z) (rnd : Q) (w w' : World.State),
    find (under_click click) (World.onlinePlayers w) = None ->
    Forall (fun npc => ~ In (Game.id npc)
                            (map Game.id (World.onlinePlayers w))) npcs ->
    World.step sel now (World.CanvasClick npcs click rnd) w = Some w' ->
    World.onlinePlayers w' = World.onlinePlayers w.
Proof.
  intros sel npcs click now rnd w w' Hmiss Hnpcs Hstep.
  cbn in Hstep; injection Hstep as <-; cbn [World.onlinePlayers World.after].
  pose proof (handleCanvasClick_target sel (World.onlinePlayers w ++ npcs)
                click now rnd (World.canvas w)) as Hcalls.
  destruct (snd (GameCanvas.handleCanvasClick sel
                   (World.onlinePlayers w ++ npcs) click now rnd
                   (World.canvas w))) as [| call calls]; [reflexivity |].
  assert (Hforeign : forall c, In c (call :: calls) ->
                               ~ In (call_id c)
                                    (map Game.id (World.onlinePlayers w))).
  { intros c Hc; destruct (Hcalls c Hc) as (clicked & Hfind & ->).
    rewrite find_app, Hmiss in Hfind.
    apply find_some in Hfind; destruct Hfind as [Hin _].
    rewrite Forall_forall in Hnpcs; exact (Hnpcs _ Hin). }
  clear Hcalls; unfold World.notifyAll.
  revert Hforeign; generalize (call :: calls) as cs.
  induction cs as [| c cs IH]; intro Hforeign; [reflexivity |].
  cbn [fold_left]; rewrite notify_stranger;
    [apply IH; intros c' Hc'; apply Hforeign; right; exact Hc' |].
  apply (Hforeign c); left; reflexivity.
Qed.

(** The player, mounted on the spot of an NPC that has 10 health left,
    kills it: the player gets a point, the roster is as before. *)
Lemma hitting_an_npc_changes_no_record_witness :
  let sel := Some {| GameCanvas.characterId := "me";
                     GameCanvas.characterCountry := "japan" |} in
  let npc :=
    {| Game.id := "npc-1"; Game.name := "NPC 1"; Game.x := 400; Game.y := 400;
       Game.country := "uk"; Game.health := 10; Game.maxHealth := 100;
       Game.points := 3; Game.lastAttackTime := 0; Game.lastDefendTime := 0;
       Game.isDefending := false; Game.isAttacking := false;
       Game.isDead := false; Game.respawnTime := None; Game.isNPC := true;
       Game.aiType := Some "aggressive" |} in
  let w := World.initialState 0.5 (46 # 67) in
  let w' := World.after 1000 w
              (GameCanvas.handleCanvasClick sel (World.onlinePlayers w ++ [npc])
                 (400, 400)%Q 1000 0.5 (World.canvas w)) in
  GameCanvas.playerPoints (World.canvas w') = 2
  /\ World.onlinePlayers w' = World.onlinePlayers w.
Proof.
  intros sel npc w w'.
  split; [reflexivity |].
  apply (hitting_an_npc_changes_no_record sel [npc] (400, 400)%Q 1000 0.5 w
           w').
  - reflexivity.
  - repeat constructor; cbn; intuition discriminate.
  - reflexivity.
Defined.

(** ** C3, C7 and C10: the combatants of the duel and of the open world *)

Lemma Forall2_map_self {A B : Type} (R : A -> B -> Prop) (f : A -> B)
    (l : list A) :
  (forall a, R a (f a)) -> Forall2 R l (map f l).
Proof.
  intro H; induction l as [| a l IH]; cbn; constructor; auto.
Qed.


(** What an attack of the human player that goes through does to the
    world: the attacker gets a point for a kill, and the page applies the
    death of the target, or the target with the health left, to its
    roster. *)
Lemma World_step_strike (sel : option GameCanvas.Character) (w : World.State)
    (npcs : list Game.OnlinePlayer) (click : Q * Q) (now : Z) (rnd : Q)
    (target : Game.OnlinePlayer) :
  strikes w npcs click now target ->
  let dmg :=
    GameCanvas.finalDamage
      (GameCanvas.baseDamage (GameCanvas.playerCountry sel) rnd) target in
  let left := Z.max 0 (Game.health target - dmg) in
  exists w',
    World.step sel now (World.CanvasClick npcs click rnd) w = Some w'
    /\ GameCanvas.playerPoints (World.canvas w')
       = (if left <=? 0 then GameCanvas.playerPoints (World.canvas w) + 1
          else GameCanvas.playerPoints (World.canvas w))
    /\ GameCanvas.playerHealth (World.canvas w')
       = GameCanvas.playerHealth (World.canvas w)
    /\ World.onlinePlayers w'
       = (if left <=? 0
          then OpenSpaceGame.handlePlayerDeath (Game.id target) now
                 (World.onlinePlayers w)
          else OpenSpaceGame.handlePlayerUpdate (Game.set_health left target)
                 (World.onlinePlayers w)).
Proof.
  intros (Halive & Hfind & Hrange & Hcool) dmg left.
  eexists; split; [reflexivity |].
  unfold World.after, GameCanvas.handleCanvasClick.
  rewrite Halive.
  change (fun p => negb (Game.isDead p)
                   && dist_le (Game.x p - fst click) (Game.y p - snd click)
                        (inject_Z GameCanvas.PLAYER_SIZE / 2))
    with (under_click click).
  rewrite Hfind; cbv zeta; rewrite Hrange.
  cbn [GameCanvas.lastAttackTimeRef GameCanvas.set_inRange
         GameCanvas.set_targetPlayer].
  destruct (Z.geb_spec (now - GameCanvas.lastAttackTimeRef (World.canvas w))
              GameCanvas.ATTACK_COOLDOWN) as [_ | Hlt]; [| lia].
  rewrite handleAttack_outcome; fold dmg; fold left.
  destruct (left <=? 0); cbn; repeat split.
Qed.






(** C10.  When an attack of the human player goes through, the attacker
    gets exactly 1 point if it is lethal, whatever the victim has, and
    none otherwise; on a lethal attack the page's [handlePlayerDeath]
    leaves every player of its roster with the victim's id dead with
    [max(0, points - 1)], the victim itself when the roster holds it, so
    that a victim with points hands one over and a victim with none leaves
    the total one higher; the attack's own record of a victim it killed and the human
    player's respawn take [max(0, points - 1)] as well; and in every state
    the open world reaches no points are negative. *)
Theorem C10_kill_reward_asymmetry :
  forall (sel : option GameCanvas.Character) (w : World.State) (clock : Z)
         (npcs : list Game.OnlinePlayer) (click : Q * Q) (now : Z)
         (rnd rndX rndY : Q) (victim : Game.OnlinePlayer),
    valid_character sel -> Reachable sel w clock ->
    In (Game.country victim) classIds ->
    strikes w npcs click now victim ->
    let dmg :=
      GameCanvas.finalDamage
        (GameCanvas.baseDamage (GameCanvas.playerCountry sel) rnd) victim in
    let lethal := Z.max 0 (Game.health victim - dmg) <=? 0 in
    let attacker := GameCanvas.playerPoints (World.canvas w) in
    exists w',
      World.step sel now (World.CanvasClick npcs click rnd) w = Some w'
      (* the attacker *)
      /\ GameCanvas.playerPoints (World.canvas w')
         = (if lethal then attacker + 1 else attacker)
      (* the victim, on the roster of the page *)
      /\ (lethal = true ->
          World.onlinePlayers w'
          = OpenSpaceGame.handlePlayerDeath (Game.id victim) now
              (World.onlinePlayers w)
          /\ Forall2
               (fun p p' =>
                  if String.eqb (Game.id p) (Game.id victim)
                  then Game.points p' = Z.max 0 (Game.points p - 1)
                       /\ GameCanvas.playerPoints (World.canvas w')
                          + Game.points p'
                          = (if Game.points p <=? 0 then attacker + 1
                             else attacker + Game.points p)
                  else p' = p)
               (World.onlinePlayers w) (World.onlinePlayers w')
          /\ (In victim (World.onlinePlayers w) ->
              exists victim',
                In victim' (World.onlinePlayers w')
                /\ Game.id victim' = Game.id victim
                /\ Game.isDead victim' = true
                /\ Game.points victim' = Z.max 0 (Game.points victim - 1))
          /\ Game.points (GameCanvas.updatedTargetPlayer now dmg victim)
             = Z.max 0 (Game.points victim - 1))
      (* the human player's respawn *)
      /\ GameCanvas.playerPoints
           (GameCanvas.respawn rndX rndY (World.canvas w))
         = Z.max 0 (attacker - 1)
      (* nothing is negative *)
      /\ 0 <= attacker
      /\ Forall (fun p => 0 <= Game.points p) (World.onlinePlayers w).
Proof.
  intros sel w clock npcs click now rnd rndX rndY victim Hsel Hreach _
    Hstrikes dmg lethal attacker.
  destruct (Reachable_world_ok sel w clock Hsel Hreach)
    as ((_ & Hpts & _) & _ & Hok).
  destruct (World_step_strike sel w npcs click now rnd victim Hstrikes)
    as (w' & Hstep & Hattacker & _ & Hroster);
    cbv zeta in Hattacker, Hroster.
  fold dmg in Hattacker, Hroster; fold lethal in Hattacker, Hroster.
  fold attacker in Hattacker.
  exists w'; split; [exact Hstep |].
  split; [exact Hattacker |].
  split.
  { intro Hl; rewrite Hl in Hroster, Hattacker.
    split; [exact Hroster |].
    split; [| split].
    - rewrite Hroster, Hattacker.
      apply Forall2_map_self; intro p.
      destruct (String.eqb (Game.id p) (Game.id victim)); [| reflexivity].
      cbn; split; [reflexivity |].
      destruct (Z.leb_spec (Game.points p) 0); lia.
    - intro Hin; exists (OpenSpaceGame.killed now victim).
      split; [| repeat split].
      rewrite Hroster; unfold OpenSpaceGame.handlePlayerDeath.
      apply in_map_iff; exists victim.
      rewrite String.eqb_refl; split; [reflexivity | exact Hin].
    - unfold GameCanvas.updatedTargetPlayer.
      cbn [Game.health Game.set_health]; fold dmg; fold lethal.
      rewrite Hl; reflexivity. }
  split; [reflexivity |].
  split; [exact Hpts |].
  apply Forall_impl with (2 := Hok).
  intros p (_ & _ & Hp & _); exact Hp.
Qed.

(** The brawler, placed on Player4, has hit it five times for 18, once a
    second; the sixth hit, on the 10 health left, kills it: the brawler
    has 2 points and Player4, who had 1, has none. *)
Lemma C10_kill_reward_asymmetry_witness :
  let sel := Some {| GameCanvas.characterId := "me";
                     GameCanvas.characterCountry := "russia" |} in
  let e := World.CanvasClick [] (400, 200)%Q 0.99 in
  let hit (w : World.State) (now : Z) :=
    match World.step sel now e w with
    | Some w' => w'
    | None => w
    end in
  let w := fold_left hit [1000; 2000; 3000; 4000; 5000]
             (World.initialState 0.5 (21 # 67)) in
  let victim :=
    Game.set_health 10 (World.mockPlayer "4" "Player4" 400 200 "russia") in
  (valid_character sel /\ Reachable sel w 5000
   /\ In (Game.country victim) classIds
   /\ strikes w [] (400, 200)%Q 6000 victim)
  /\ GameCanvas.playerPoints (World.canvas w) = 1
  /\ map Game.points (World.onlinePlayers w) = [1; 1; 1; 1; 1]
  /\ exists w',
       World.step sel 6000 e w = Some w'
       /\ GameCanvas.playerPoints (World.canvas w') = 2
       /\ map Game.points (World.onlinePlayers w') = [1; 1; 1; 0; 1]
       /\ map Game.isDead (World.onlinePlayers w')
          = [false; false; false; true; false].
Proof.
  intros sel e hit w victim.
  assert (Hsel : valid_character sel) by (cbn; auto 10).
  assert (Hadm : admissible e).
  { cbn; split; [split; reflexivity || discriminate |].
    split; constructor. }
  assert (Hhit : forall w0 clock now,
             Reachable sel w0 clock -> clock <= now ->
             Reachable sel (hit w0 now) now).
  { intros w0 clock now H0 Hle.
    apply (Reachable_step sel w0 clock now e (hit w0 now) H0 Hle Hadm).
    reflexivity. }
  assert (Hreach : Reachable sel w 5000).
  { unfold w; cbn [fold_left].
    apply (Hhit _ 4000); [| lia].
    apply (Hhit _ 3000); [| lia].
    apply (Hhit _ 2000); [| lia].
    apply (Hhit _ 1000); [| lia].
    apply (Hhit _ 0); [| lia].
    apply Reachable_start. }
  assert (Hc : In (Game.country victim) classIds) by (cbn; auto 10).
  assert (Hstrikes : strikes w [] (400, 200)%Q 6000 victim).
  { unfold strikes; repeat split; vm_compute; try reflexivity.
    discriminate. }
  split; [exact (conj Hsel (conj Hreach (conj Hc Hstrikes))) |].
  split; [vm_compute; reflexivity |].
  split; [vm_compute; reflexivity |].
  destruct (C10_kill_reward_asymmetry sel w 5000 [] (400, 200)%Q 6000 0.99
              0.5 0.5 victim Hsel Hreach Hc Hstrikes)
    as (w' & Hstep & _).
  exists w'; split; [exact Hstep |].
  assert (E : w' = hit w 6000).
  { unfold hit; fold e in Hstep; rewrite Hstep; reflexivity. }
  rewrite E; repeat split; vm_compute; reflexivity.
Defined.

(** ** The request middleware *)

(** The middleware never redirects twice.  A request without a token is let
    through exactly on a public path and is sent to /login otherwise; a
    request with a token is never sent to /login, and is sent to /game
    exactly from /login and /register; every path under /api/auth is let
    through; and the target of a redirect is let through for the same
    token. *)
Theorem middleware_settles :
  forall (pathname : string) (token : bool),
    (token = false ->
     Middleware.middleware pathname token
     = if Middleware.isPublicPath pathname
       then Middleware.next else Middleware.redirect "/login")
    /\ (token = true ->
        Middleware.middleware pathname token
        = if String.eqb pathname "/login" || String.eqb pathname "/register"
          then Middleware.redirect "/game" else Middleware.next)
    /\ (String.prefix "/api/auth" pathname = true ->
        Middleware.middleware pathname token = Middleware.next)
    /\ (forall target,
           Middleware.middleware pathname token = Middleware.redirect target ->
           Middleware.middleware target token = Middleware.next).
Proof.
  intros pathname token.
  assert (Hprefix : forall p, String.prefix "/api/auth" p = true ->
                              Middleware.isPublicPath p = true
                              /\ String.eqb p "/login" = false
                              /\ String.eqb p "/register" = false).
  { intros p Hp; unfold Middleware.isPublicPath; cbn [existsb
      Middleware.publicPaths]; rewrite Hp, orb_true_r.
    split; [reflexivity |].
    split; apply String.eqb_neq; intros ->; discriminate Hp. }
  assert (Hlogin : forall p, String.eqb p "/login" || String.eqb p "/register"
                             = true ->
                             Middleware.isPublicPath p = true).
  { intros p Hp; unfold Middleware.isPublicPath;
      cbn [existsb Middleware.publicPaths].
    apply orb_true_iff in Hp; destruct Hp as [-> | ->];
      rewrite ?orb_true_r; reflexivity. }
  repeat split.
  - intros ->; unfold Middleware.middleware.
    destruct (Middleware.isPublicPath pathname); reflexivity.
  - intros ->; unfold Middleware.middleware.
    destruct (String.eqb pathname "/login" || String.eqb pathname "/register")
      eqn:E; [rewrite (Hlogin _ E); reflexivity |].
    destruct (Middleware.isPublicPath pathname); reflexivity.
  - intro Hp; destruct (Hprefix _ Hp) as (Hpub & Hl & Hr).
    unfold Middleware.middleware; rewrite Hpub, Hl, Hr, andb_false_r.
    reflexivity.
  - intros target; unfold Middleware.middleware at 1.
    destruct (Middleware.isPublicPath pathname).
    + destruct (token && _) eqn:E; [| discriminate].
      intro H; injection H as <-.
      apply andb_true_iff in E; destruct E as [-> _]; reflexivity.
    + destruct token; [discriminate |].
      intro H; injection H as <-; reflexivity.
Qed.

(** ** The account and character routes *)

Lemma ledgerSum_app (id : string) (ts : list Api.Transaction)
    (t : Api.Transaction) :
  ledgerSum id (ts ++ [t])
  = ledgerSum id ts
    + if String.eqb (Api.transactionUserId t) id then Api.amount t else 0.
Proof.
  unfold ledgerSum; induction ts as [| t0 ts IH]; cbn.
  - destruct (String.eqb _ id); lia.
  - rewrite IH; destruct (String.eqb (Api.transactionUserId t0) id); lia.
Qed.

Lemma characterCount_app (id : string) (cs : list Api.Character)
    (c : Api.Character) :
  characterCount id (cs ++ [c])
  = characterCount id cs
    + if String.eqb (Api.characterUserId c) id then 1 else 0.
Proof.
  unfold characterCount; rewrite filter_app, length_app; cbn.
  destruct (String.eqb (Api.characterUserId c) id); cbn; lia.
Qed.

Lemma ledgerSum_stranger (id : string) (ids : list string)
    (ts : list Api.Transaction) :
  Forall (fun t => In (Api.transactionUserId t) ids) ts ->
  ~ In id ids -> ledgerSum id ts = 0.
Proof.
  intros Hts Hid; unfold ledgerSum.
  induction Hts as [| t ts Ht _ IH]; cbn; [reflexivity |].
  destruct (String.eqb (Api.transactionUserId t) id) eqn:E; [| exact IH].
  apply String.eqb_eq in E; subst id; contradiction.
Qed.

Lemma characterCount_stranger (id : string) (ids : list string)
    (cs : list Api.Character) :
  Forall (fun c => In (Api.characterUserId c) ids) cs ->
  ~ In id ids -> characterCount id cs = 0.
Proof.
  intros Hcs Hid; unfold characterCount.
  induction Hcs as [| c cs Hc _ IH]; cbn; [reflexivity |].
  destruct (String.eqb (Api.characterUserId c) id) eqn:E; [| exact IH].
  apply String.eqb_eq in E; subst id; contradiction.
Qed.

Lemma fresh_user_id (n : nat) : ~ In (decimal n) (map decimal (seq 0 n)).
Proof.
  intro H; apply in_map_iff in H; destruct H as (k & E & Hk).
  apply decimal_inj in E; subst k; apply in_seq in Hk; lia.
Qed.

Lemma decrementPoints_ids (id : string) (db : Api.Db) :
  map Api.userId (Api.decrementPoints id db) = map Api.userId (Api.users db).
Proof.
  unfold Api.decrementPoints; rewrite map_map; apply map_ext; intro u.
  destruct (String.eqb (Api.userId u) id); reflexivity.
Qed.

(** A registration keeps the books. *)
Lemma register_ok (isEmail : string -> bool) (hash : string -> string)
    (body : option string * option string * option string) (db : Api.Db) :
  ledger_ok db -> ledger_ok (snd (Api.register isEmail hash body db)).
Proof.
  intros (Hids & Hts & Hcs & Hus); unfold Api.register.
  destruct (Api.registerSchema_parse isEmail body) as [[[name address] pw] |];
    [| repeat split; assumption].
  destruct (Api.findUserByUsername name db); [repeat split; assumption |].
  destruct (if String.eqb address "" then None
            else Api.findUserByEmail address db);
    [repeat split; assumption |].
  pose proof (fresh_user_id (Api.nextUserId db)) as Hfresh.
  rewrite <- Hids in Hfresh.
  unfold ledger_ok;
    cbn [snd Api.users Api.transactions Api.characters Api.nextUserId].
  rewrite map_app, seq_S, map_app, Hids; cbn [map Api.userId Nat.add].
  split; [reflexivity |]; rewrite <- Hids.
  split; [| split].
  - apply Forall_app; split.
    + eapply Forall_impl; [| exact Hts].
      intros t Ht; apply in_or_app; left; exact Ht.
    + repeat constructor; cbn; apply in_or_app; right; left; reflexivity.
  - eapply Forall_impl; [| exact Hcs].
    intros c Hc; apply in_or_app; left; exact Hc.
  - apply Forall_app; split.
    + rewrite Forall_forall in *; intros u Hu.
      destruct (Hus u Hu) as (E1 & E2 & E3).
      rewrite ledgerSum_app; cbn [Api.transactionUserId Api.amount].
      destruct (String.eqb (decimal (Api.nextUserId db)) (Api.userId u))
        eqn:E; [| repeat split; auto; lia].
      apply String.eqb_eq in E; exfalso; apply Hfresh; rewrite E.
      apply in_map; exact Hu.
    + repeat constructor; cbn [Api.userId Api.pointsBalance];
        rewrite ?ledgerSum_app; cbn [Api.transactionUserId Api.amount];
        rewrite ?String.eqb_refl;
        rewrite ?(ledgerSum_stranger _ _ _ Hts Hfresh),
          ?(characterCount_stranger _ _ _ Hcs Hfresh); lia.
Qed.

(** What [POST /api/characters] does when it succeeds, and that it does
    nothing otherwise. *)
Lemma createCharacter_cases (sessionUserId country : option string)
    (db : Api.Db) (src : RandomSource) (n : nat) :
  let r := fst (Api.createCharacter sessionUserId country db src n) in
  (snd r = db
   /\ forall c b, fst r <> Api.CharacterCreated c b)
  \/ exists id user chosen,
       sessionUserId = Some id
       /\ String.eqb id "" = false
       /\ country = Some chosen
       /\ Api.findUserById id db = Some user
       /\ 1 <= Api.pointsBalance user
       /\ r = (Api.CharacterCreated
                 {| Api.characterUserId := id;
                    Api.spriteData :=
                      fst (Api.generateSpriteData chosen src n);
                    Api.characterCountry := chosen |}
                 (Api.pointsBalance user - 1),
               {| Api.users := Api.decrementPoints id db;
                  Api.characters :=
                    (Api.characters db
                     ++ [{| Api.characterUserId := id;
                            Api.spriteData :=
                              fst (Api.generateSpriteData chosen src n);
                            Api.characterCountry := chosen |}])%list;
                  Api.transactions :=
                    (Api.transactions db
                     ++ [{| Api.transactionUserId := id;
                            Api.amount := -1;
                            Api.transactionType := "CHARACTER_CREATION";
                            Api.description :=
                              "Created character with country: "
                              ++ chosen |}])%list;
                  Api.nextUserId := Api.nextUserId db |}).
Proof.
  cbv zeta; unfold Api.createCharacter.
  destruct sessionUserId as [id |];
    [| left; split; [reflexivity | discriminate]].
  destruct (String.eqb id "") eqn:Hid;
    [left; split; [reflexivity | discriminate] |].
  destruct country as [country |];
    [| left; split; [reflexivity | discriminate]].
  destruct (String.eqb country "");
    [left; split; [reflexivity | discriminate] |].
  destruct (Api.findUserById id db) as [user |] eqn:Hfind;
    [| left; split; [reflexivity | discriminate]].
  destruct (Z.ltb_spec (Api.pointsBalance user) 1);
    [left; split; [reflexivity | discriminate] |].
  right; exists id, user, country; unfold bind, ret.
  destruct (Api.generateSpriteData country src n) as [sprite n'].
  cbn [fst snd]; repeat split; try reflexivity; try assumption.
Qed.

(** A character creation keeps the books. *)
Lemma createCharacter_ok (sessionUserId country : option string)
    (db : Api.Db) (src : RandomSource) (n : nat) :
  ledger_ok db ->
  ledger_ok (snd (fst (Api.createCharacter sessionUserId country db src n))).
Proof.
  intros Hdb.
  destruct (createCharacter_cases sessionUserId country db src n)
    as [[-> _] | (id & user & chosen & _ & _ & _ & Hfind & Hbal & ->)];
    [exact Hdb |].
  destruct Hdb as (Hids & Hts & Hcs & Hus).
  apply find_some in Hfind; destruct Hfind as [Hin Hid].
  apply String.eqb_eq in Hid.
  assert (Hknown : In id (map Api.userId (Api.users db)))
    by (rewrite <- Hid; apply in_map; exact Hin).
  unfold ledger_ok;
    cbn [snd Api.users Api.transactions Api.characters Api.nextUserId].
  rewrite decrementPoints_ids.
  split; [exact Hids |]; split; [| split].
  - apply Forall_app; split; [exact Hts |].
    repeat constructor; exact Hknown.
  - apply Forall_app; split; [exact Hcs |].
    repeat constructor; exact Hknown.
  - unfold Api.decrementPoints; rewrite Forall_map.
    rewrite Forall_forall in *; intros u Hu.
    destruct (Hus u Hu) as (E1 & E2 & E3).
    destruct (Hus user Hin) as (F1 & _).
    destruct (String.eqb (Api.userId u) id) eqn:E;
      cbn [Api.userId Api.pointsBalance];
      rewrite ledgerSum_app, characterCount_app;
      cbn [Api.transactionUserId Api.amount Api.characterUserId].
    + apply String.eqb_eq in E; rewrite E, String.eqb_refl.
      rewrite E in E1, E2; rewrite Hid in F1.
      repeat split; lia.
    + rewrite String.eqb_sym, E; repeat split; lia.
Qed.

(** The routes keep the books.  Whatever requests are served, one at a
    time, from the empty database: every user's points are the sum of
    the amounts of the user's transactions, are 10 minus the number of
    the user's characters, and are not negative (so nobody ever has more
    than ten characters); and every transaction and every character
    belongs to a user of the database. *)
Theorem routes_keep_the_books :
  forall (isEmail : string -> bool) (hash : string -> string)
         (requests : list Api.Request) (src : RandomSource) (n : nat),
    ledger_ok (fst (Api.serve isEmail hash requests Api.emptyDb src n)).
Proof.
  intros isEmail hash requests src.
  assert (H : forall db n, ledger_ok db ->
                           ledger_ok (fst (Api.serve isEmail hash requests db
                                             src n))).
  { induction requests as [| request rest IH]; intros db n Hdb;
      [exact Hdb |].
    cbn [Api.serve]; unfold bind.
    destruct request as [body | sid country | sid];
      cbn [Api.handle]; unfold ret.
    - apply IH, register_ok, Hdb.
    - pose proof (createCharacter_ok sid country db src n Hdb) as Hdb'.
      destruct (Api.createCharacter sid country db src n) as [r n'].
      apply IH; exact Hdb'.
    - apply IH; exact Hdb. }
  intro n; apply H.
  repeat split; constructor.
Qed.

Lemma find_decremented (id : string) (db : Api.Db) (user : Api.User) :
  Api.findUserById id db = Some user ->
  option_map Api.pointsBalance
    (find (fun u => String.eqb (Api.userId u) id) (Api.decrementPoints id db))
  = Some (Api.pointsBalance user - 1).
Proof.
  unfold Api.findUserById, Api.decrementPoints.
  induction (Api.users db) as [| u us IH]; cbn; [discriminate |].
  destruct (String.eqb (Api.userId u) id) eqn:E; cbn; rewrite E.
  - intro H; injection H as <-; reflexivity.
  - exact IH.
Qed.

(** The parts of a sprite are within their ranges for draws of [0, 1). *)
Lemma generateSpriteData_ranges (country : string) (src : RandomSource)
    (n : nat) :
  valid_source src ->
  let sprite := fst (Api.generateSpriteData country src n) in
  Api.spriteCountry sprite = country
  /\ (exists color, Api.baseColor sprite = Some color /\ In color Api.colors)
  /\ 0 <= Api.hairStyle sprite <= 4
  /\ 0 <= Api.faceStyle sprite <= 2
  /\ 0 <= Api.armorStyle sprite <= 3
  /\ 0 <= Api.weaponType sprite <= 3.
Proof.
  intro Hsrc; cbv zeta.
  unfold Api.generateSpriteData, bind, ret, Math_random; cbn [fst].
  cbn [Api.spriteCountry Api.baseColor Api.hairStyle Api.faceStyle
         Api.armorStyle Api.weaponType].
  destruct (pick_valid Api.colors (src n) (Hsrc n)) as (color & E & Hin);
    [discriminate |].
  pose proof (floor_roll_range (src (S n)) 5 (Hsrc _) eq_refl).
  pose proof (floor_roll_range (src (S (S n))) 3 (Hsrc _) eq_refl).
  pose proof (floor_roll_range (src (S (S (S n)))) 4 (Hsrc _) eq_refl).
  pose proof (floor_roll_range (src (S (S (S (S n))))) 4 (Hsrc _) eq_refl).
  change (inject_Z 5) with 5%Q in *; change (inject_Z 3) with 3%Q in *;
    change (inject_Z 4) with 4%Q in *.
  split; [reflexivity |]; split; [exists color; split; assumption |].
  repeat split; lia.
Qed.

(** Creating a character and asking for the points.  When
    [POST /api/characters] answers with a character, the request named a
    user and a country, the character is that user's, of that country,
    with a sprite whose parts are within their ranges; the balance in the
    answer is not negative, and it is the balance [GET /api/user/points]
    answers with for the same session afterwards. *)
Theorem createCharacter_then_getPoints :
  forall (sessionUserId country : option string) (db : Api.Db)
         (src : RandomSource) (n : nat) (character : Api.Character)
         (balance : Z),
    valid_source src ->
    let r := fst (Api.createCharacter sessionUserId country db src n) in
    fst r = Api.CharacterCreated character balance ->
    sessionUserId = Some (Api.characterUserId character)
    /\ country = Some (Api.characterCountry character)
    /\ Api.spriteCountry (Api.spriteData character)
       = Api.characterCountry character
    /\ (exists color, Api.baseColor (Api.spriteData character) = Some color
                      /\ In color Api.colors)
    /\ 0 <= Api.hairStyle (Api.spriteData character) <= 4
    /\ 0 <= Api.faceStyle (Api.spriteData character) <= 2
    /\ 0 <= Api.armorStyle (Api.spriteData character) <= 3
    /\ 0 <= Api.weaponType (Api.spriteData character) <= 3
    /\ 0 <= balance
    /\ Api.getPoints sessionUserId (snd r) = Api.PointsBalance balance.
Proof.
  intros sid country db src n character balance Hsrc r; subst r.
  destruct (createCharacter_cases sid country db src n)
    as [[_ Hno] | (id & user & chosen & -> & Hid & -> & Hfind & Hbal & ->)];
    [intro H; exfalso; exact (Hno _ _ H) |].
  cbn [fst snd]; intro H; injection H as <- <-.
  cbn [Api.characterUserId Api.characterCountry Api.spriteData].
  pose proof (generateSpriteData_ranges chosen src n Hsrc)
    as (Hc & Hcolor & Hhair & Hface & Harmor & Hweapon).
  cbv zeta in Hc, Hcolor, Hhair, Hface, Harmor, Hweapon.
  repeat (split; [assumption || reflexivity || lia |]).
  unfold Api.getPoints, Api.findUserById; rewrite Hid; cbn [Api.users].
  pose proof (find_decremented id db user Hfind) as Hd.
  destruct (find _ (Api.decrementPoints id db)) as [u |]; [| discriminate].
  cbn in Hd; injection Hd as ->; reflexivity.
Qed.

(** A registration, then the same user name again.  When
    [POST /api/register] answers 201, the user name was free; the new
    user has 10 points; and every further registration under that name,
    whatever its e-mail and password, is refused (as invalid or because
    the name is taken) and leaves the database as it is. *)
Theorem register_twice_conflicts :
  forall (isEmail : string -> bool) (hash : string -> string)
         (body : option string * option string * option string)
         (db db' : Api.Db),
    Api.register isEmail hash body db = (Api.Created, db') ->
    (exists name user,
        fst (fst body) = Some name
        /\ Api.findUserByUsername name db = None
        /\ Api.findUserByUsername name db' = Some user
        /\ Api.pointsBalance user = 10)
    /\ forall address password,
         let r := Api.register isEmail hash
                    (fst (fst body), address, password) db' in
         snd r = db'
         /\ (fst r = Api.BadRequest "Invalid request data"
             \/ fst r = Api.Conflict "Username already exists").
Proof.
  intros isEmail hash [[name address] password] db db'.
  unfold Api.register at 1.
  destruct (Api.registerSchema_parse isEmail (name, address, password))
    as [[[name' address'] password'] |] eqn:Hparse; [| discriminate].
  destruct (Api.findUserByUsername name' db) eqn:Hfree; [discriminate |].
  destruct (if String.eqb address' "" then None
            else Api.findUserByEmail address' db); [discriminate |].
  intro H; injection H as <-.
  assert (Hname : name = Some name').
  { unfold Api.registerSchema_parse in Hparse.
    destruct name, address, password; try discriminate.
    destruct (_ && _); [| discriminate].
    injection Hparse as -> _ _; reflexivity. }
  subst name; cbn [fst].
  assert (Hfound : Api.findUserByUsername name'
                     {| Api.users :=
                          (Api.users db
                           ++ [{| Api.userId := decimal (Api.nextUserId db);
                                  Api.username := name';
                                  Api.email := Some address';
                                  Api.passwordHash := Some (hash password');
                                  Api.pointsBalance := 10 |}])%list;
                        Api.characters := Api.characters db;
                        Api.transactions :=
                          (Api.transactions db
                           ++ [{| Api.transactionUserId :=
                                    decimal (Api.nextUserId db);
                                  Api.amount := 10;
                                  Api.transactionType := "INITIAL_BALANCE";
                                  Api.description :=
                                    "Initial points balance for new user" |}])%list;
                        Api.nextUserId := S (Api.nextUserId db) |}
                   = Some {| Api.userId := decimal (Api.nextUserId db);
                             Api.username := name';
                             Api.email := Some address';
                             Api.passwordHash := Some (hash password');
                             Api.pointsBalance := 10 |}).
  { unfold Api.findUserByUsername in *; cbn [Api.users].
    rewrite find_app, Hfree; cbn; rewrite String.eqb_refl; reflexivity. }
  split.
  - exists name', {| Api.userId := decimal (Api.nextUserId db);
                     Api.username := name';
                     Api.email := Some address';
                     Api.passwordHash := Some (hash password');
                     Api.pointsBalance := 10 |}.
    split; [reflexivity |]; split; [exact Hfree |].
    split; [exact Hfound | reflexivity].
  - intros address2 password2; cbv zeta; unfold Api.register.
    destruct (Api.registerSchema_parse isEmail
                (Some name', address2, password2))
      as [[[name2 address3] password3] |] eqn:Hparse2;
      [| split; [reflexivity | left; reflexivity]].
    assert (name2 = name').
    { unfold Api.registerSchema_parse in Hparse2.
      destruct address2, password2; try discriminate.
      destruct (_ && _); [| discriminate].
      injection Hparse2 as -> _ _; reflexivity. }
    subst name2; rewrite Hfound.
    split; [reflexivity | right; reflexivity].
Qed.

(** alice registers; a second alice is refused. *)
Lemma register_twice_conflicts_witness :
  let isEmail := fun address : string => String.prefix "alice@" address in
  let hash := fun password : string => "bcrypt:" ++ password in
  let body := (Some "alice", Some "alice@example.org", Some "secret1") in
  let db' := snd (Api.register isEmail hash body Api.emptyDb) in
  let r := Api.register isEmail hash
             (Some "alice", Some "alice@example.com", Some "another") db' in
  Api.register isEmail hash body Api.emptyDb = (Api.Created, db')
  /\ snd r = db'
  /\ (fst r = Api.BadRequest "Invalid request data"
      \/ fst r = Api.Conflict "Username already exists").
Proof.
  intros isEmail hash body db' r.
  assert (H : Api.register isEmail hash body Api.emptyDb = (Api.Created, db'))
    by reflexivity.
  split; [exact H |].
  exact (proj2 (register_twice_conflicts isEmail hash body Api.emptyDb db' H)
           (Some "alice@example.com") (Some "another")).
Defined.

(** alice registers and creates a japanese character. *)
Lemma createCharacter_then_getPoints_witness :
  let isEmail := fun address : string => String.prefix "alice@" address in
  let hash := fun password : string => "bcrypt:" ++ password in
  let src : RandomSource := fun _ => 0.5%Q in
  let db := snd (Api.register isEmail hash
                   (Some "alice", Some "alice@example.org", Some "secret1")
                   Api.emptyDb) in
  let r := fst (Api.createCharacter (Some "0") (Some "japan") db src 0%nat) in
  valid_source src
  /\ (exists character, fst r = Api.CharacterCreated character 9)
  /\ Api.getPoints (Some "0") (snd r) = Api.PointsBalance 9.
Proof.
  intros isEmail hash src db r.
  assert (Hsrc : valid_source src)
    by (intro k; split; reflexivity || discriminate).
  split; [exact Hsrc |].
  split; [eexists; reflexivity |].
  exact (proj2 (proj2 (proj2 (proj2 (proj2 (proj2 (proj2 (proj2 (proj2
           (createCharacter_then_getPoints (Some "0") (Some "japan") db src
              0%nat _ 9 Hsrc eq_refl)))))))))).
Defined.

(** ** Movement on the canvas *)

Lemma clamp_bounds (lo hi v : Q) :
  (lo <= hi)%Q ->
  (lo <= Math_max lo (Math_min hi v))%Q
  /\ (Math_max lo (Math_min hi v) <= hi)%Q.
Proof.
  intro Hle; unfold Math_max, Math_min.
  destruct (Qle_bool hi v) eqn:E1.
  - rewrite (proj2 (Qle_bool_iff lo hi) Hle); split;
      [exact Hle | apply Qle_refl].
  - destruct (Qle_bool lo v) eqn:E2.
    + apply Qle_bool_iff in E2; split; [exact E2 |].
      apply Qlt_le_weak, Qnot_le_lt; intro H.
      apply Qle_bool_iff in H; congruence.
    + split; [apply Qle_refl | exact Hle].
Qed.

(** A value that is within the bounds is what the clamp returns. *)
Lemma clamp_inside (lo hi v : Q) :
  (lo <= v)%Q -> (v <= hi)%Q ->
  (Math_max lo (Math_min hi v) == v)%Q.
Proof.
  intros H1 H2; unfold Math_max, Math_min.
  destruct (Qle_bool hi v) eqn:E1.
  - apply Qle_bool_iff in E1.
    rewrite (proj2 (Qle_bool_iff lo hi) (Qle_trans _ _ _ H1 H2)).
    apply Qle_antisym; assumption.
  - rewrite (proj2 (Qle_bool_iff lo v) H1); reflexivity.
Qed.

(** Every frame leaves the player on the canvas, wherever it was. *)
Lemma update2D_on_canvas (M : MathFns) (s : Canvas2D.State) :
  on_canvas (Canvas2D.playerPosition (Canvas2D.update2D M s)).
Proof.
  unfold Canvas2D.update2D.
  destruct (Canvas2D.displacement M (Canvas2D.keysPressed s)) as [dx dy].
  unfold on_canvas; cbn [Canvas2D.playerPosition fst snd].
  destruct (clamp_bounds (inject_Z Canvas2D.PLAYER_SIZE / 2)
              (inject_Z Canvas2D.CANVAS_WIDTH
               - inject_Z Canvas2D.PLAYER_SIZE / 2)
              (fst (Canvas2D.playerPosition s) + dx)) as [Hx0 Hx1];
    [discriminate |].
  destruct (clamp_bounds (inject_Z Canvas2D.PLAYER_SIZE / 2)
              (inject_Z Canvas2D.CANVAS_HEIGHT
               - inject_Z Canvas2D.PLAYER_SIZE / 2)
              (snd (Canvas2D.playerPosition s) + dy)) as [Hy0 Hy1];
    [discriminate |].
  repeat split.
  - eapply Qle_trans; [| exact Hx0]; discriminate.
  - eapply Qle_trans; [exact Hx1 |]; discriminate.
  - eapply Qle_trans; [| exact Hy0]; discriminate.
  - eapply Qle_trans; [exact Hy1 |]; discriminate.
Qed.

Lemma handleKey_position (e_key : string) (s : Canvas2D.State) :
  Canvas2D.playerPosition (Canvas2D.handleKeyDown e_key s)
  = Canvas2D.playerPosition s
  /\ Canvas2D.playerPosition (Canvas2D.handleKeyUp e_key s)
     = Canvas2D.playerPosition s.
Proof.
  unfold Canvas2D.handleKeyDown, Canvas2D.handleKeyUp.
  destruct (String.eqb (toLowerCase e_key) "f3");
    destruct (existsb _ Canvas2D.movementKeys); split; reflexivity.
Qed.

(** The player never leaves the canvas: after any sequence of key
    presses, key releases and frames from the first render, whatever the
    square root of the diagonal factor is computed to be, its position is
    at least 16 and at most 784 across and at least 16 and at most 584
    down. *)
Theorem player_stays_on_canvas :
  forall (M : MathFns) (events : list Canvas2D.Event),
    on_canvas
      (Canvas2D.playerPosition
         (fold_left (fun s e => Canvas2D.step M e s) events
            Canvas2D.initialState)).
Proof.
  intros M events.
  assert (H : forall s, on_canvas (Canvas2D.playerPosition s) ->
                        on_canvas
                          (Canvas2D.playerPosition
                             (fold_left (fun s e => Canvas2D.step M e s)
                                events s))).
  { induction events as [| e rest IH]; intros s Hs; [exact Hs |].
    cbn [fold_left]; apply IH.
    destruct e as [k | k |]; cbn [Canvas2D.step].
    - rewrite (proj1 (handleKey_position k s)); exact Hs.
    - rewrite (proj2 (handleKey_position k s)); exact Hs.
    - apply update2D_on_canvas. }
  apply H; unfold on_canvas; cbn; repeat split; discriminate.
Qed.

Lemma Set_has_add (k k' : string) (s : JsSet) :
  Set_has k (Set_add k' s) = String.eqb k k' || Set_has k s.
Proof.
  unfold Set_add.
  destruct (Set_has k' s) eqn:E.
  - destruct (String.eqb k k') eqn:Ek; [| reflexivity].
    apply String.eqb_eq in Ek; subst k'; rewrite E; reflexivity.
  - unfold Set_has; rewrite existsb_app; cbn.
    rewrite orb_false_r, orb_comm; reflexivity.
Qed.

Lemma Set_has_delete (k k' : string) (s : JsSet) :
  Set_has k (Set_delete k' s) = negb (String.eqb k k') && Set_has k s.
Proof.
  unfold Set_has, Set_delete; induction s as [| k0 s IH]; cbn.
  - rewrite andb_false_r; reflexivity.
  - destruct (String.eqb k0 k') eqn:E0; cbn; rewrite IH.
    + apply String.eqb_eq in E0; subst k0.
      destruct (String.eqb k k'); reflexivity.
    + destruct (String.eqb k k') eqn:Ek; [| reflexivity].
      apply String.eqb_eq in Ek; subst k'.
      rewrite String.eqb_sym, E0; reflexivity.
Qed.

(** A key is held from its press to its release.  For a movement key,
    in whatever case it is reported: after [handleKeyDown] the set of
    keys holds its lower-case name, after [handleKeyUp] it does not, the
    other keys are held or not as before, and neither handler moves the
    player or touches the debug flag. *)
Theorem movement_key_round_trip :
  forall (e_key : string) (s : Canvas2D.State),
    In (toLowerCase e_key) Canvas2D.movementKeys ->
    let down := Canvas2D.handleKeyDown e_key s in
    let up := Canvas2D.handleKeyUp e_key down in
    Set_has (toLowerCase e_key) (Canvas2D.keysPressed down) = true
    /\ Set_has (toLowerCase e_key) (Canvas2D.keysPressed up) = false
    /\ (forall other, other <> toLowerCase e_key ->
                      Set_has other (Canvas2D.keysPressed down)
                      = Set_has other (Canvas2D.keysPressed s)
                      /\ Set_has other (Canvas2D.keysPressed up)
                         = Set_has other (Canvas2D.keysPressed s))
    /\ Canvas2D.playerPosition up = Canvas2D.playerPosition s
    /\ Canvas2D.showDebugInfo up = Canvas2D.showDebugInfo s.
Proof.
  intros e_key s Hkey down up; subst up down.
  unfold Canvas2D.handleKeyDown, Canvas2D.handleKeyUp.
  assert (Hf3 : String.eqb (toLowerCase e_key) "f3" = false).
  { apply String.eqb_neq; intro E; rewrite E in Hkey.
    cbn in Hkey; intuition discriminate. }
  assert (Hmove : existsb (String.eqb (toLowerCase e_key))
                    Canvas2D.movementKeys = true).
  { apply existsb_exists; exists (toLowerCase e_key); split;
      [exact Hkey | apply String.eqb_refl]. }
  rewrite Hf3, Hmove; cbn [Canvas2D.keysPressed Canvas2D.playerPosition
                             Canvas2D.showDebugInfo].
  rewrite Set_has_delete, !Set_has_add, String.eqb_refl.
  repeat split; try reflexivity.
  - rewrite Set_has_add.
    apply String.eqb_neq in H; rewrite H; reflexivity.
  - rewrite Set_has_delete, Set_has_add.
    apply String.eqb_neq in H; rewrite H; reflexivity.
Qed.

(** The key W, reported in upper case. *)
Lemma movement_key_round_trip_witness :
  In (toLowerCase "W") Canvas2D.movementKeys
  /\ Set_has "w" (Canvas2D.keysPressed
                    (Canvas2D.handleKeyDown "W" Canvas2D.initialState))
     = true.
Proof.
  assert (H : In (toLowerCase "W") Canvas2D.movementKeys)
    by (left; reflexivity).
  split; [exact H |].
  exact (proj1 (movement_key_round_trip "W" Canvas2D.initialState H)).
Defined.

(** The displacement of an axis on which an opposite pair of keys is held,
    or no key, is zero. *)
Lemma displacement_idle (M : MathFns) (keys : JsSet) :
  (Set_has "w" keys || Set_has "arrowup" keys
   = Set_has "s" keys || Set_has "arrowdown" keys ->
   (snd (Canvas2D.displacement M keys) == 0)%Q)
  /\ (Set_has "a" keys || Set_has "arrowleft" keys
      = Set_has "d" keys || Set_has "arrowright" keys ->
      (fst (Canvas2D.displacement M keys) == 0)%Q).
Proof.
  unfold Canvas2D.displacement.
  destruct (Set_has "w" keys || Set_has "arrowup" keys),
    (Set_has "s" keys || Set_has "arrowdown" keys),
    (Set_has "a" keys || Set_has "arrowleft" keys),
    (Set_has "d" keys || Set_has "arrowright" keys);
    split; intro E; try discriminate E; vm_compute; reflexivity.
Qed.

(** Opposite keys cancel.  On the canvas, a frame leaves the vertical
    coordinate as it is when an up key and a down key are both held or
    neither is, and the horizontal coordinate as it is when a left key
    and a right key are both held or neither is. *)
Theorem opposite_keys_cancel :
  forall (M : MathFns) (s : Canvas2D.State),
    on_canvas (Canvas2D.playerPosition s) ->
    let keys := Canvas2D.keysPressed s in
    let after := Canvas2D.playerPosition (Canvas2D.update2D M s) in
    (Set_has "w" keys || Set_has "arrowup" keys
     = Set_has "s" keys || Set_has "arrowdown" keys ->
     (snd after == snd (Canvas2D.playerPosition s))%Q)
    /\ (Set_has "a" keys || Set_has "arrowleft" keys
        = Set_has "d" keys || Set_has "arrowright" keys ->
        (fst after == fst (Canvas2D.playerPosition s))%Q).
Proof.
  intros M s (Hx0 & Hx1 & Hy0 & Hy1) keys after; subst after keys.
  destruct (displacement_idle M (Canvas2D.keysPressed s)) as [Hv Hh].
  unfold Canvas2D.update2D.
  destruct (Canvas2D.displacement M (Canvas2D.keysPressed s)) as [dx dy].
  cbn [fst snd Canvas2D.playerPosition] in *.
  split; intro E; [specialize (Hv E) | specialize (Hh E)].
  - rewrite clamp_inside; rewrite Hv, Qplus_0_r;
      [reflexivity | |];
      [eapply Qle_trans; [| exact Hy0] | eapply Qle_trans; [exact Hy1 |]];
      discriminate.
  - rewrite clamp_inside; rewrite Hh, Qplus_0_r;
      [reflexivity | |];
      [eapply Qle_trans; [| exact Hx0] | eapply Qle_trans; [exact Hx1 |]];
      discriminate.
Qed.

(** The player of the first render, W and S both held. *)
Lemma opposite_keys_cancel_witness :
  let s := Canvas2D.handleKeyDown "s"
             (Canvas2D.handleKeyDown "W" Canvas2D.initialState) in
  on_canvas (Canvas2D.playerPosition s)
  /\ forall M,
       (snd (Canvas2D.playerPosition (Canvas2D.update2D M s))
        == snd (Canvas2D.playerPosition s))%Q.
Proof.
  intro s.
  assert (H : on_canvas (Canvas2D.playerPosition s))
    by (unfold on_canvas; cbn; repeat split; discriminate).
  split; [exact H | intro M].
  exact (proj1 (opposite_keys_cancel M s H) eq_refl).
Defined.

(** ** The health bars *)

Lemma ratio_finite (health maxHealth : Z) :
  0 < maxHealth ->
  HealthBar.ratio health maxHealth
  = HealthBar.Finite (inject_Z health / inject_Z maxHealth).
Proof.
  intro H; unfold HealthBar.ratio.
  destruct (Z.eqb_spec maxHealth 0); [lia | reflexivity].
Qed.

(** A fraction [n / d] is below the quotient of two integers when the
    cross products say so. *)
Lemma Qlt_bool_quotient (n : Z) (d : positive) (health maxHealth : Z) :
  0 < maxHealth ->
  Qlt_bool (n # d) (inject_Z health / inject_Z maxHealth)
  = (n * maxHealth <? Z.pos d * health).
Proof.
  intro Hm.
  assert (Hpos : (0 < inject_Z maxHealth)%Q)
    by (unfold Qlt; cbn; lia).
  destruct (Z.ltb_spec (n * maxHealth) (Z.pos d * health)) as [H | H].
  - apply Qlt_bool_iff, Qlt_shift_div_l; [exact Hpos |].
    unfold Qlt; cbn; lia.
  - destruct (Qlt_bool _ _) eqn:E; [| reflexivity].
    apply Qlt_bool_iff in E.
    assert (Hle : (inject_Z health / inject_Z maxHealth <= n # d)%Q).
    { apply Qle_shift_div_r; [exact Hpos |]. unfold Qle; cbn; lia. }
    exfalso; exact (Qlt_not_le _ _ E Hle).
Qed.

(** The clamp to [0, 1] does not change the side of a threshold that is
    itself between 0 and 1. *)
Lemma Qlt_bool_clamp (c q : Q) :
  (0 <= c)%Q -> (c < 1)%Q ->
  Qlt_bool c (Math_max 0 (Math_min 1 q)) = Qlt_bool c q.
Proof.
  intros H0 H1; unfold Math_max, Math_min.
  destruct (Qle_bool 1 q) eqn:E1.
  - apply Qle_bool_iff in E1; cbn.
    transitivity true; [| symmetry];
      apply Qlt_bool_iff; [exact H1 | exact (Qlt_le_trans _ _ _ H1 E1)].
  - destruct (Qle_bool 0 q) eqn:E2; [reflexivity |].
    assert (Hq : (q < 0)%Q).
    { apply Qnot_le_lt; intro H; apply Qle_bool_iff in H; congruence. }
    transitivity false; [| symmetry]; apply not_true_is_false; intro H;
      apply Qlt_bool_iff in H.
    + exact (Qlt_not_le _ _ H H0).
    + exact (Qlt_not_le _ _ (Qlt_trans _ _ _ H Hq) H0).
Qed.

(** The bar above a character's head is filled from its left end in
    proportion to the health, never beyond either end, and is hidden
    exactly when no health is left; then it is empty too. *)
Theorem healthBar_update_geometry (health maxHealth : Z) :
  0 < maxHealth ->
  let bar := HealthBar.update health maxHealth in
  exists p x : Q,
    HealthBar.scale_x bar = Some p
    /\ HealthBar.position_x bar = Some x
    /\ (0 <= p)%Q /\ (p <= 1)%Q
    /\ (x - p / 2 == - (1 # 2))%Q
    /\ (0 <= health <= maxHealth ->
        (p == inject_Z health / inject_Z maxHealth)%Q)
    /\ (HealthBar.visible bar = true <-> 0 < health)
    /\ (HealthBar.visible bar = false -> (p == 0)%Q).
Proof.
  intros Hm bar.
  assert (Hpos : (0 < inject_Z maxHealth)%Q) by (unfold Qlt; cbn; lia).
  set (q := (inject_Z health / inject_Z maxHealth)%Q).
  exists (Math_max 0 (Math_min 1 q)), (-0.5 * (1 - Math_max 0 (Math_min 1 q)))%Q.
  subst bar; unfold HealthBar.update, HealthBar.healthPercent.
  rewrite (ratio_finite health maxHealth Hm); fold q; cbn.
  destruct (clamp_bounds 0 1 q) as [Hlo Hhi]; [discriminate |].
  split; [reflexivity |]. split; [reflexivity |].
  split; [exact Hlo |]. split; [exact Hhi |].
  split; [field |].
  split.
  { intros [H0 H1]; apply clamp_inside.
    - apply Qle_shift_div_l; [exact Hpos |]. unfold Qle; cbn; lia.
    - apply Qle_shift_div_r; [exact Hpos |].
      rewrite Qmult_1_l, <- Zle_Qle; exact H1. }
  split; [apply Z.ltb_lt |].
  intro Hv; apply Z.ltb_ge in Hv.
  assert (Hq : (q <= 0)%Q).
  { apply Qle_shift_div_r; [exact Hpos |]. unfold Qle; cbn; lia. }
  unfold Math_max, Math_min.
  destruct (Qle_bool 1 q) eqn:E1.
  - apply Qle_bool_iff in E1; exfalso.
    apply (Qlt_not_le 0 1); [reflexivity | exact (Qle_trans _ _ _ E1 Hq)].
  - destruct (Qle_bool 0 q) eqn:E2; [| reflexivity].
    apply Qle_bool_iff in E2; apply Qle_antisym; assumption.
Qed.

(** A character with 50 of its 100 points of health. *)
Lemma healthBar_update_geometry_witness :
  0 < 100
  /\ exists p x : Q,
       HealthBar.scale_x (HealthBar.update 50 100) = Some p
       /\ HealthBar.position_x (HealthBar.update 50 100) = Some x
       /\ (0 <= p)%Q /\ (p <= 1)%Q
       /\ (x - p / 2 == - (1 # 2))%Q
       /\ (0 <= 50 <= 100 -> (p == inject_Z 50 / inject_Z 100)%Q)
       /\ (HealthBar.visible (HealthBar.update 50 100) = true <-> 0 < 50)
       /\ (HealthBar.visible (HealthBar.update 50 100) = false
           -> (p == 0)%Q).
Proof.
  split; [lia |].
  apply (healthBar_update_geometry 50 100); lia.
Defined.

(** The three displays of a player's health, the bar above the 3D
    character, the bar painted on the 2D canvas and the bar in the list of
    players, show the same colour for a player whose full health is 100,
    and the two bars of the world show the same colour and the same filled
    share for any player whose health is within its bounds: green above
    60 % of the full health, red up to 30 %, yellow between. *)
Theorem health_displays_agree (player : Game.OnlinePlayer) :
  0 < Game.maxHealth player ->
  let health := Game.health player in
  let maxHealth := Game.maxHealth player in
  let bar := HealthBar.update health maxHealth in
  let drawn := HealthBar.drawnHealthBar player in
  HealthBar.color bar = snd drawn
  /\ (snd drawn = HealthBar.green <-> 3 * maxHealth < 5 * health)
  /\ (snd drawn = HealthBar.red <-> 10 * health <= 3 * maxHealth)
  /\ (maxHealth = 100 -> HealthBar.indicator player = snd drawn)
  /\ (0 <= health <= maxHealth ->
      exists p w : Q,
        HealthBar.scale_x bar = Some p
        /\ fst drawn = HealthBar.Finite w
        /\ (w == inject_Z (GameCanvas.PLAYER_SIZE * 2) * p)%Q).
Proof.
  intros Hm health maxHealth bar drawn.
  assert (Hpos : (0 < inject_Z maxHealth)%Q) by (unfold Qlt; cbn; lia).
  subst bar drawn.
  unfold HealthBar.drawnHealthBar, HealthBar.update, HealthBar.healthPercent,
    HealthBar.indicator.
  fold health maxHealth.
  rewrite (ratio_finite health maxHealth Hm).
  cbv [fst snd HealthBar.color HealthBar.scale_x HealthBar.Ratio_gt
       HealthBar.Ratio_times].
  rewrite !Qlt_bool_clamp by (try discriminate; reflexivity).
  rewrite (Qlt_bool_quotient 6 10 health maxHealth Hm).
  rewrite (Qlt_bool_quotient 3 10 health maxHealth Hm).
  split; [reflexivity |].
  split.
  { destruct (Z.ltb_spec (6 * maxHealth) (10 * health));
      [split; [lia | reflexivity] |].
    destruct (Z.ltb_spec (3 * maxHealth) (10 * health));
      split; (discriminate || lia). }
  split.
  { destruct (Z.ltb_spec (6 * maxHealth) (10 * health));
      [split; [discriminate | lia] |].
    destruct (Z.ltb_spec (3 * maxHealth) (10 * health));
      split; (discriminate || lia || reflexivity). }
  split.
  { intro H100.
    destruct (Z.ltb_spec 60 health), (Z.ltb_spec (6 * maxHealth) (10 * health)),
      (Z.ltb_spec 30 health), (Z.ltb_spec (3 * maxHealth) (10 * health));
      try reflexivity; lia. }
  intros [H0 H1].
  eexists _, _; split; [reflexivity |]. split; [reflexivity |].
  apply Qmult_comp; [reflexivity |].
  symmetry; apply clamp_inside.
  - apply Qle_shift_div_l; [exact Hpos |].
    rewrite Qmult_0_l. change 0%Q with (inject_Z 0).
    rewrite <- Zle_Qle; exact H0.
  - apply Qle_shift_div_r; [exact Hpos |].
    rewrite Qmult_1_l, <- Zle_Qle; exact H1.
Qed.

(** Player3 of the world with 45 of its 100 points of health: yellow on
    every display. *)
Lemma health_displays_agree_witness :
  let player :=
    {| Game.id := "3"; Game.name := "Player3"; Game.x := 300; Game.y := 200;
       Game.country := "uk"; Game.health := 45; Game.maxHealth := 100;
       Game.points := 15; Game.lastAttackTime := 0;
       Game.lastDefendTime := 0; Game.isDefending := false;
       Game.isAttacking := false; Game.isDead := false;
       Game.respawnTime := None; Game.isNPC := false;
       Game.aiType := None |} in
  0 < Game.maxHealth player
  /\ HealthBar.color (HealthBar.update 45 100)
     = snd (HealthBar.drawnHealthBar player)
  /\ HealthBar.indicator player = snd (HealthBar.drawnHealthBar player).
Proof.
  intro player.
  assert (Hm : 0 < Game.maxHealth player) by (cbn; lia).
  destruct (health_displays_agree player Hm) as (H1 & _ & _ & H4 & _).
  split; [exact Hm |]. split; [exact H1 | exact (H4 eq_refl)].
Defined.

(** ** The duel arena *)

(** One event keeps the stake positive, and keeps a page whose balance
    allows no stake out of any duel. *)
Lemma arena_step_invariant (now : Z) (e : DuelArena.Event)
    (s s' : DuelArena.State) (balance : option Z) :
  DuelArena.step now e s = Some s' ->
  1 <= DuelArena.stakeAmount s
  /\ ((forall b, balance = Some b -> b <= 0) ->
      DuelArena.pointsBalance s = balance
      /\ DuelArena.isDueling s = false
      /\ DuelArena.acceptTimeouts s = []) ->
  1 <= DuelArena.stakeAmount s'
  /\ ((forall b, balance = Some b -> b <= 0) ->
      DuelArena.pointsBalance s' = balance
      /\ DuelArena.isDueling s' = false
      /\ DuelArena.acceptTimeouts s' = []).
Proof.
  intros Hstep [Hstake Hbroke].
  destruct e as [characterId | playerId | value | | i | isWinner];
    cbn in Hstep.
  - destruct (DuelArena.showsArena s); [| discriminate].
    injection Hstep as <-; unfold DuelArena.handleCharacterSelect; cbn.
    destruct (DuelArena.characters s); [split; assumption |].
    match goal with
    | |- context [if ?c then _ else _] => destruct c
    end; split; assumption.
  - destruct (DuelArena.showsArena s); [| discriminate].
    injection Hstep as <-; split; assumption.
  - destruct (DuelArena.showsArena s); [| discriminate].
    injection Hstep as <-; unfold DuelArena.handleStakeChange.
    destruct value as [v |]; [| split; assumption].
    destruct (Z.ltb_spec 0 v); [| split; assumption].
    split; [cbn; lia | exact Hbroke].
  - destruct (DuelArena.showsArena s); [| discriminate].
    injection Hstep as <-; unfold DuelArena.handleStartDuel.
    destruct (DuelArena.challengeSent s) eqn:Hsent; [| split; assumption].
    split; [exact Hstake |]. intro Hb; exfalso.
    destruct (Hbroke Hb) as (Hbal & _ & _).
    unfold DuelArena.challengeSent in Hsent; rewrite Hbal in Hsent.
    destruct (DuelArena.selectedOpponent s); [| discriminate].
    destruct balance as [b |]; [| discriminate].
    specialize (Hb b eq_refl).
    destruct (Z.eqb_spec b 0);
      [rewrite andb_false_r in Hsent; discriminate |].
    destruct (Z.ltb_spec b (DuelArena.stakeAmount s));
      [rewrite andb_false_r in Hsent; discriminate | lia].
  - destruct (DuelGame.fire now i (DuelArena.acceptTimeouts s)) as [rest |]
      eqn:Hfire; [| discriminate].
    injection Hstep as <-; split; [exact Hstake |].
    intro Hb; exfalso.
    destruct (Hbroke Hb) as (_ & _ & Hnone).
    rewrite Hnone in Hfire; unfold DuelGame.fire in Hfire.
    destruct i; discriminate.
  - destruct (DuelArena.showsDuel s) eqn:Hshown; [| discriminate].
    injection Hstep as <-; split; [exact Hstake |].
    intro Hb; exfalso.
    destruct (Hbroke Hb) as (_ & Hduel & _).
    unfold DuelArena.showsDuel in Hshown; rewrite Hduel in Hshown.
    destruct (DuelArena.characters s); discriminate.
Qed.

(** Whatever happens on the arena page, the stake stays at 1 or more; and
    a user whose balance is missing, zero or negative is never taken into
    a duel, so that balance never changes. *)
Theorem arena_stake_stays_positive (characters : list string)
    (balance : option Z) (clock : Z) (events : list (Z * DuelArena.Event))
    (s : DuelArena.State) :
  DuelArena.run clock events (DuelArena.loaded characters balance) = Some s ->
  1 <= DuelArena.stakeAmount s
  /\ ((forall b, balance = Some b -> b <= 0) ->
      DuelArena.pointsBalance s = balance
      /\ DuelArena.isDueling s = false
      /\ DuelArena.showsDuel s = false).
Proof.
  intro Hrun.
  assert (Hinv : 1 <= DuelArena.stakeAmount s
                 /\ ((forall b, balance = Some b -> b <= 0) ->
                     DuelArena.pointsBalance s = balance
                     /\ DuelArena.isDueling s = false
                     /\ DuelArena.acceptTimeouts s = [])).
  { assert (Hstart :
      1 <= DuelArena.stakeAmount (DuelArena.loaded characters balance)
      /\ ((forall b, balance = Some b -> b <= 0) ->
          DuelArena.pointsBalance (DuelArena.loaded characters balance)
          = balance
          /\ DuelArena.isDueling (DuelArena.loaded characters balance) = false
          /\ DuelArena.acceptTimeouts (DuelArena.loaded characters balance)
             = []))
      by (cbn; split; [lia | intros _; repeat split]).
    revert clock Hrun Hstart.
    generalize (DuelArena.loaded characters balance) as s0.
    induction events as [| [now e] rest IH]; intros s0 clock Hrun Hstart.
    - cbn in Hrun; injection Hrun as <-; exact Hstart.
    - cbn in Hrun.
      destruct (clock <=? now); [| discriminate].
      destruct (DuelArena.step now e s0) as [s1 |] eqn:Hstep;
        [| discriminate].
      exact (IH s1 now Hrun
               (arena_step_invariant now e s0 s1 balance Hstep Hstart)). }
  destruct Hinv as [Hstake Hbroke]; split; [exact Hstake |].
  intro Hb; destruct (Hbroke Hb) as (Hbal & Hduel & _).
  split; [exact Hbal |]. split; [exact Hduel |].
  unfold DuelArena.showsDuel; rewrite Hduel.
  destruct (DuelArena.characters s); reflexivity.
Qed.

(** A user with no points picks an opponent, types stakes of 0 and of 5,
    and presses Start Duel. *)
Lemma arena_stake_stays_positive_witness :
  let events :=
    [ (10, DuelArena.OpponentSelect "2");
      (20, DuelArena.StakeChange (Some 0));
      (30, DuelArena.StakeChange (Some 5));
      (40, DuelArena.StartDuel) ] in
  exists s,
    DuelArena.run 0 events (DuelArena.loaded ["c1"] (Some 0)) = Some s
    /\ 1 <= DuelArena.stakeAmount s
    /\ DuelArena.pointsBalance s = Some 0
    /\ DuelArena.showsDuel s = false.
Proof.
  intro events.
  destruct (DuelArena.run 0 events (DuelArena.loaded ["c1"] (Some 0)))
    as [s |] eqn:Hrun; [| vm_compute in Hrun; discriminate].
  exists s; split; [reflexivity |].
  destruct (arena_stake_stays_positive ["c1"] (Some 0) 0 events s Hrun)
    as [Hstake Hbroke].
  split; [exact Hstake |].
  destruct Hbroke as (Hbal & _ & Hshown).
  - intros b Hb; injection Hb as <-; lia.
  - split; [exact Hbal | exact Hshown].
Defined.

(** The opponent that a listed id selects. *)
Lemma find_mockPlayer (opponent : DuelArena.OnlinePlayer) :
  In opponent DuelArena.mockPlayers ->
  find (fun p => String.eqb (DuelArena.id p) (DuelArena.id opponent))
    DuelArena.mockPlayers
  = Some opponent.
Proof.
  intro Hin; cbn in Hin.
  repeat (destruct Hin as [<- | Hin]; [reflexivity |]).
  contradiction.
Qed.

(** A duel is played for the stake that stands when it ends, not for the
    stake that was checked against the balance: the user picks a listed
    opponent, sets a stake within the balance and presses Start Duel; the
    stake typed into the still open dialog before the opponent accepts,
    2 s later, is the one the duel adds to or takes from the balance, with
    no new check. The page is then back on the arena, with no opponent
    selected. *)
Theorem duel_settles_last_stake (first : string) (others : list string)
    (balance stake lastStake : Z) (opponent : DuelArena.OnlinePlayer)
    (t0 now t1 t2 : Z) (isWinner : bool) :
  first <> "" ->
  In opponent DuelArena.mockPlayers ->
  0 < stake <= balance ->
  0 < lastStake ->
  t0 <= now -> now <= t1 <= now + 2000 -> now + 2000 <= t2 ->
  exists s,
    DuelArena.run t0
      [ (t0, DuelArena.OpponentSelect (DuelArena.id opponent));
        (t0, DuelArena.StakeChange (Some stake));
        (now, DuelArena.StartDuel);
        (t1, DuelArena.StakeChange (Some lastStake));
        (now + 2000, DuelArena.ChallengeAccepted 0);
        (t2, DuelArena.DuelComplete isWinner) ]
      (DuelArena.loaded (first :: others) (Some balance))
    = Some s
    /\ DuelArena.pointsBalance s
       = Some (if isWinner then balance + lastStake
               else balance - lastStake)
    /\ DuelArena.stakeAmount s = lastStake
    /\ DuelArena.selectedOpponent s = None
    /\ DuelArena.showsArena s = true.
Proof.
  intros Hfirst Hin [Hs0 Hs1] Hlast Ht0 [Ht1 Ht1'] Ht2.
  assert (Hne : String.eqb first "" = false)
    by (apply String.eqb_neq; exact Hfirst).
  assert (E1 : (0 <? stake) = true) by (apply Z.ltb_lt; lia).
  assert (E2 : (0 <? lastStake) = true) by (apply Z.ltb_lt; lia).
  assert (E3 : (t0 <=? now) = true) by (apply Z.leb_le; lia).
  assert (E4 : (now <=? t1) = true) by (apply Z.leb_le; lia).
  assert (E5 : (t1 <=? now + 2000) = true) by (apply Z.leb_le; lia).
  assert (E6 : (now + 2000 <=? t2) = true) by (apply Z.leb_le; lia).
  assert (E7 : (balance =? 0) = false) by (apply Z.eqb_neq; lia).
  assert (E8 : (balance <? stake) = false) by (apply Z.ltb_ge; lia).
  pose proof (find_mockPlayer opponent Hin) as E9.
  eexists; split.
  - repeat first
      [ progress cbn -[DuelArena.mockPlayers]
      | progress rewrite ?Z.leb_refl, ?E1, ?E2, ?E3, ?E4, ?E5, ?E6, ?E7, ?E8,
          ?E9, ?Hne, ?String.eqb_refl
      | progress unfold DuelArena.step, DuelArena.loaded,
          DuelArena.showsArena, DuelArena.showsDuel,
          DuelArena.selectedCharacter, DuelArena.handleOpponentSelect,
          DuelArena.handleStakeChange, DuelArena.handleStartDuel,
          DuelArena.challengeSent, DuelArena.noCharacterId,
          DuelArena.handleDuelComplete, DuelGame.fire ].
    reflexivity.
  - cbn; destruct isWinner; repeat split.
Qed.

(** With 10 points the user stakes 5 on a duel with SamuraiMaster, types
    50 before the opponent accepts, and loses: the balance is 40 below
    zero. *)
Lemma duel_settles_last_stake_witness :
  let opponent :=
    {| DuelArena.id := "2"; DuelArena.name := "SamuraiMaster";
       DuelArena.country := "japan"; DuelArena.characterId := "char2" |} in
  ("c1" <> "" /\ In opponent DuelArena.mockPlayers
   /\ 0 < 5 <= 10 /\ 0 < 50)
  /\ exists s,
       DuelArena.run 0
         [ (0, DuelArena.OpponentSelect "2");
           (0, DuelArena.StakeChange (Some 5));
           (100, DuelArena.StartDuel);
           (1000, DuelArena.StakeChange (Some 50));
           (2100, DuelArena.ChallengeAccepted 0);
           (60000, DuelArena.DuelComplete false) ]
         (DuelArena.loaded ["c1"] (Some 10))
       = Some s
       /\ DuelArena.pointsBalance s = Some (-40).
Proof.
  intro opponent.
  assert (Hfirst : "c1" <> "") by discriminate.
  assert (Hin : In opponent DuelArena.mockPlayers) by (cbn; tauto).
  split; [repeat split; try lia; assumption |].
  destruct (duel_settles_last_stake "c1" [] 10 5 50 opponent 0 100 1000 60000
              false Hfirst Hin)
    as (s & Hrun & Hbal & _); try lia.
  exists s; split; [exact Hrun | exact Hbal].
Defined.

(** ** The defence of the duel *)

(** A defence of the duel that is renewed as soon as its cooldown allows
    is cut short: the timer of the first defence, 2000 ms after it, ends
    the second one as well, less than 500 ms after it was raised; and the
    cooldown of the second defence then refuses a third one. *)
Theorem renewed_defence_is_cut_short (playerCountry opponentCountry : string)
    (s : DuelGame.State) (t tc t1 : Z) :
  DuelGame.isDefenseCooldown s = false ->
  DuelGame.gameOver s = false ->
  DuelGame.defendingTimeouts s = [] ->
  DuelGame.defenseCooldownTimeouts s = [] ->
  t + DuelGame.DEFENSE_COOLDOWN <= tc -> tc <= t1 -> t1 < t + 2000 ->
  let step := DuelGame.step playerCountry opponentCountry in
  exists s1 s2 s3 s4,
    step t DuelGame.DefendClick s = Some s1
    /\ step tc (DuelGame.DefenseCooldownEnds 0) s1 = Some s2
    /\ step t1 DuelGame.DefendClick s2 = Some s3
    /\ step (t + 2000) (DuelGame.DefendingEnds 0) s3 = Some s4
    /\ DuelGame.isDefending s3 = true
    /\ DuelGame.isDefending s4 = false
    /\ DuelGame.defendingTimeouts s4 = [t1 + 2000]
    /\ step (t + 2000) DuelGame.DefendClick s4 = Some s4.
Proof.
  intros Hcool Hover Hnone Hnone' Htc Ht1 Hlt step; subst step.
  unfold DuelGame.DEFENSE_COOLDOWN in Htc.
  assert (E1 : (t + 1500 <=? tc) = true) by (apply Z.leb_le; lia).
  assert (E2 : (t + 2000 <=? t + 2000) = true) by apply Z.leb_refl.
  eexists _, _, _, _.
  split.
  { unfold DuelGame.step, DuelGame.handleDefend.
    rewrite Hcool, Hover, Hnone, Hnone'; cbn. reflexivity. }
  split.
  { cbn. unfold DuelGame.fire; cbn.
    unfold DuelGame.DEFENSE_COOLDOWN; rewrite E1; cbn. reflexivity. }
  split.
  { unfold DuelGame.step, DuelGame.handleDefend; cbn.
    rewrite Hover; cbn. reflexivity. }
  split.
  { cbn. unfold DuelGame.fire; cbn. rewrite E2; cbn. reflexivity. }
  split; [reflexivity |]. split; [reflexivity |]. split; [reflexivity |].
  reflexivity.
Qed.

(** The player of a fresh duel defends at 0 and again at 1500. *)
Lemma renewed_defence_is_cut_short_witness :
  let s := DuelGame.set_gameStarted true DuelGame.initialState in
  let step := DuelGame.step "usa" "japan" in
  (DuelGame.isDefenseCooldown s = false /\ DuelGame.gameOver s = false
   /\ 0 + DuelGame.DEFENSE_COOLDOWN <= 1500 /\ 1500 < 0 + 2000)
  /\ exists s1 s2 s3 s4,
       step 0 DuelGame.DefendClick s = Some s1
       /\ step 1500 (DuelGame.DefenseCooldownEnds 0) s1 = Some s2
       /\ step 1500 DuelGame.DefendClick s2 = Some s3
       /\ step 2000 (DuelGame.DefendingEnds 0) s3 = Some s4
       /\ DuelGame.isDefending s3 = true
       /\ DuelGame.isDefending s4 = false
       /\ DuelGame.defendingTimeouts s4 = [3500]
       /\ step 2000 DuelGame.DefendClick s4 = Some s4.
Proof.
  intros s step.
  split; [repeat split; unfold DuelGame.DEFENSE_COOLDOWN; lia |].
  apply (renewed_defence_is_cut_short "usa" "japan" s 0 1500 1500);
    try reflexivity; unfold DuelGame.DEFENSE_COOLDOWN; lia.
Defined.
